(** * VideoForge: the MKV processor and the HEVC stitcher

    A shallow embedding of [process_mkv.py] and of the control flow of
    [hevc_stitcher.py].  Text is [string]; the file system is a finite map
    from paths to contents; printing, external commands and the file system
    are threaded through a small state-and-exit monad; the external tools
    are a parameter.  *)

From Stdlib Require Import ZArith Ascii String List Lia Bool DecimalString Sorted.
From stdpp Require Import base gmap strings.

Local Open Scope Z_scope.

(** Let [simpl] compute appends onto literal prefixes. *)
#[local] Arguments String.append !s1 s2 : simpl nomatch.

(* ================================================================== *)
(** ** Python's string methods *)
(* ================================================================== *)

Module PyStr.

(** [str.isspace] on one character, for the code points below 256. *)
Definition is_space (c : ascii) : bool :=
  match c with
  | "009" | "010" | "011" | "012" | "013"
  | "028" | "029" | "030" | "031" | " " | "133" | "160" => true
  | _ => false
  end%char.

Definition is_char (c : ascii) : ascii -> bool := Ascii.eqb c.

(** [s.startswith(p)]. *)
Fixpoint startswith (p s : string) : bool :=
  match p with
  | EmptyString => true
  | String a p' =>
      match s with
      | EmptyString => false
      | String b s' => Ascii.eqb a b && startswith p' s'
      end
  end.

(** [needle in hay]. *)
Fixpoint contains (needle hay : string) : bool :=
  startswith needle hay ||
  match hay with
  | EmptyString => false
  | String _ h => contains needle h
  end.

(** [c not in s], for one character. *)
Fixpoint lacks (c : ascii) (s : string) : bool :=
  match s with
  | EmptyString => true
  | String a s' => negb (Ascii.eqb a c) && lacks c s'
  end.

Definition cons_hd (c : ascii) (l : list string) : list string :=
  match l with
  | h :: t => String c h :: t
  | [] => [String c EmptyString]
  end.

(** [s.split(sep)] for a non-empty [sep]: left to right, matches do not
    overlap; [skip] counts the characters of a match still to pass. *)
Fixpoint split_go (sep : string) (skip : nat) (s : string) : list string :=
  match s with
  | EmptyString => [EmptyString]
  | String c s' =>
      match skip with
      | S k => split_go sep k s'
      | O =>
          if startswith sep s
          then EmptyString :: split_go sep (String.length sep - 1) s'
          else cons_hd c (split_go sep 0 s')
      end
  end.

Definition split (sep s : string) : list string := split_go sep 0 s.

(** No occurrence of [sep] can start inside [a], whatever follows [a]. *)
Definition overlap (sep a : string) : bool :=
  startswith sep a || startswith a sep.

Fixpoint clear_of (sep a : string) : bool :=
  match a with
  | EmptyString => true
  | String _ a' => negb (overlap sep a) && clear_of sep a'
  end.

(** [a] put before the first piece. *)
Definition prepend (a : string) (l : list string) : list string :=
  match l with
  | h :: t => (a +:+ h) :: t
  | [] => [a]
  end.

(** [sep.join(l)]. *)
Fixpoint join (sep : string) (l : list string) : string :=
  match l with
  | [] => EmptyString
  | [x] => x
  | x :: rest => x +:+ sep +:+ join sep rest
  end.

Fixpoint lstrip_by (p : ascii -> bool) (s : string) : string :=
  match s with
  | EmptyString => EmptyString
  | String c s' => if p c then lstrip_by p s' else s
  end.

Fixpoint rstrip_by (p : ascii -> bool) (s : string) : string :=
  match s with
  | EmptyString => EmptyString
  | String c s' =>
      match rstrip_by p s' with
      | EmptyString => if p c then EmptyString else String c EmptyString
      | r => String c r
      end
  end.

(** [s.strip()]. *)
Definition strip (s : string) : string :=
  lstrip_by is_space (rstrip_by is_space s).

(** [s.endswith(suf)]. *)
Fixpoint endswith (suf s : string) : bool :=
  String.eqb s suf ||
  match s with
  | EmptyString => false
  | String _ s' => endswith suf s'
  end.

Definition lower_char (c : ascii) : ascii :=
  let n := N_of_ascii c in
  if ((65 <=? n) && (n <=? 90))%N then ascii_of_N (n + 32) else c.

(** [s.lower()], on ASCII. *)
Fixpoint lower (s : string) : string :=
  match s with
  | EmptyString => EmptyString
  | String c s' => String (lower_char c) (lower s')
  end.

(** [s.rfind(c)] for one character: the last index, or [-1]. *)
Fixpoint rfind (c : ascii) (s : string) : Z :=
  match s with
  | EmptyString => -1
  | String a s' =>
      let r := rfind c s' in
      if 0 <=? r then r + 1 else if Ascii.eqb a c then 0 else -1
  end.

(** [s[:n]] and [s[n:]] for [0 <= n]. *)
Fixpoint take (n : nat) (s : string) : string :=
  match n, s with
  | S k, String c s' => String c (take k s')
  | _, _ => EmptyString
  end.

Fixpoint drop (n : nat) (s : string) : string :=
  match n, s with
  | S k, String _ s' => drop k s'
  | _, _ => s
  end.

Definition newline_ : string := String "010" EmptyString.

(** [repr(s)], for the code points below 256.  The quote is the single
    one, unless the text holds a single and no double quote; the quote and
    the backslash are escaped, tab, newline and return are written with
    their letters, and what is not printable as a two-digit hexadecimal
    escape. *)
Definition hex_digit (n : N) : ascii :=
  ascii_of_N (if (n <? 10)%N then 48 + n else 87 + n).

Definition printable (c : ascii) : bool :=
  let n := N_of_ascii c in
  ((32 <=? n) && (n <? 127) || (161 <=? n) && negb (n =? 173))%N.

Definition escape (quote c : ascii) : string :=
  if Ascii.eqb c quote || Ascii.eqb c "\" then String "\" (String c EmptyString)
  else if Ascii.eqb c "009" then "\t"
  else if Ascii.eqb c "010" then "\n"
  else if Ascii.eqb c "013" then "\r"
  else if printable c then String c EmptyString
  else
    let n := N_of_ascii c in
    String "\" (String "x" (String (hex_digit (n / 16))
                              (String (hex_digit (n mod 16)) EmptyString))).

Fixpoint escaped (quote : ascii) (s : string) : string :=
  match s with
  | EmptyString => EmptyString
  | String c s' => escape quote c +:+ escaped quote s'
  end.

Definition repr (s : string) : string :=
  let quote : ascii :=
    if negb (lacks "'" s) && lacks "034" s then "034"%char else "'"%char in
  String quote (escaped quote s +:+ String quote EmptyString).

(** [c * n]. *)
Fixpoint repeat_char (c : ascii) (n : nat) : string :=
  match n with
  | O => EmptyString
  | S k => String c (repeat_char c k)
  end.

End PyStr.

(* ================================================================== *)
(** ** Outcomes of a run *)
(* ================================================================== *)

(** The exceptions the two scripts can let escape. *)
Inductive Exn := IndexError | KeyError | OSError | ValueError | NameError.

(** A computation returns, calls [sys.exit], or raises. *)
Inductive Res (A : Type) : Type :=
| Ret (a : A)
| Exit (code : Z)
| Raise (e : Exn).
Arguments Ret {A} a.
Arguments Exit {A} code.
Arguments Raise {A} e.

(* ================================================================== *)
(** ** process_mkv.py: the track-list parser *)
(* ================================================================== *)

(** [class Track]; the attribute [type] is the field [track_type]. *)
Record Track := mkTrack {
  track_id : string;
  track_type : string;
  language : string;
  codec : string
}.

Module Parser.
Import PyStr.

Definition marker_number : string := "|  + Track number:".
Definition marker_type : string := "|  + Track type:".
Definition marker_codec : string := "|  + Codec ID:".
Definition marker_language : string := "|  + Language:".
Definition marker_title : string := "|  + Title:".
Definition newline : string := newline_.

(** The dictionary [current_track] as first bound. *)
Definition fresh : Track :=
  {| track_id := ""; track_type := ""; language := "undefined"; codec := "" |}.

(** [line.split(sep)[1]]: [None] is Python's IndexError. *)
Definition split1 (sep line : string) : option string :=
  split sep line !! 1%nat.

(** [line.split(':')[1].strip()]. *)
Definition field (line : string) : option string :=
  strip <$> split1 ":" line.

(** [line.split('mkvextract:')[1].strip().rstrip(')')]. *)
Definition id_field (line : string) : option string :=
  (fun m => rstrip_by (is_char ")") (strip m)) <$> split1 "mkvextract:" line.

(** The state of the loop: the list [tracks] and [current_track]. *)
Definition PState : Type := list Track * Track.

Definition set_id (t : Track) (v : string) : Track :=
  {| track_id := v; track_type := track_type t;
     language := language t; codec := codec t |}.
Definition set_type (t : Track) (v : string) : Track :=
  {| track_id := track_id t; track_type := v;
     language := language t; codec := codec t |}.
Definition set_codec (t : Track) (v : string) : Track :=
  {| track_id := track_id t; track_type := track_type t;
     language := language t; codec := v |}.
Definition set_language (t : Track) (v : string) : Track :=
  {| track_id := track_id t; track_type := track_type t;
     language := v; codec := codec t |}.

(** Truth value of a string. *)
Definition truthy (s : string) : bool := negb (String.eqb s "").

(** One iteration of the loop over the lines. *)
Definition parse_line (st : PState) (raw : string) : option PState :=
  let line := strip raw in
  let '(tracks, cur) := st in
  if contains marker_number line then
    let '(tracks, cur) :=
      if truthy (track_id cur) then (tracks ++ [cur], fresh) else (tracks, cur) in
    match id_field line with
    | Some v => Some (tracks, set_id cur v)
    | None => None
    end
  else if contains marker_type line then
    (fun v => (tracks, set_type cur v)) <$> field line
  else if contains marker_codec line then
    (fun v => (tracks, set_codec cur v)) <$> field line
  else if contains marker_language line && negb (contains "IETF" line) then
    (fun v => (tracks, set_language cur v)) <$> field line
  else Some st.

Fixpoint parse_lines (st : PState) (lines : list string) : option PState :=
  match lines with
  | [] => Some st
  | l :: rest =>
      match parse_line st l with
      | Some st' => parse_lines st' rest
      | None => None
      end
  end.

Definition finish (st : PState) : list Track :=
  let '(tracks, cur) := st in
  if truthy (track_id cur) then tracks ++ [cur] else tracks.

(** The body of [parse_tracks] after the probe: from the text of the
    info tool to the tracks, or IndexError. *)
Definition parse_text (stdout : string) : Res (list Track) :=
  match parse_lines ([], fresh) (split newline stdout) with
  | Some st => Ret (finish st)
  | None => Raise IndexError
  end.

(** The title probe of [process_mkv_file]: the first line holding the
    marker decides. *)
Fixpoint probe_lines (lines : list string) : Res (option string) :=
  match lines with
  | [] => Ret None
  | l :: rest =>
      if contains marker_title l then
        match field l with
        | Some v => Ret (Some v)
        | None => Raise IndexError
        end
      else probe_lines rest
  end.

Definition probe_title (stdout : string) : Res (option string) :=
  probe_lines (split newline stdout).

End Parser.

(* ================================================================== *)
(** ** The world a script runs in *)
(* ================================================================== *)

(** What the scripts can observe and change: the regular files by path,
    the text printed (one entry per [print]), the external commands run. *)
Record World := mkWorld {
  files : gmap string string;
  out : list string;
  cmds : list (list string)
}.

Definition with_files (fs : gmap string string) (w : World) : World :=
  {| files := fs; out := out w; cmds := cmds w |}.
Definition with_out (o : list string) (w : World) : World :=
  {| files := files w; out := o; cmds := cmds w |}.
Definition with_cmds (c : list (list string)) (w : World) : World :=
  {| files := files w; out := out w; cmds := c |}.

(** One run of an external program on the current files: its exit code,
    its two streams and the files it leaves; or it could not be started. *)
Inductive ToolRun :=
| Ran (rc : Z) (stdout stderr : string) (files' : gmap string string)
| NotLaunched.

Definition Tools : Type := list string -> gmap string string -> ToolRun.

(** State, exit and exception. *)
Definition M (A : Type) : Type := World -> Res A * World.

Definition ret {A} (a : A) : M A := fun w => (Ret a, w).

Definition bind {A B} (m : M A) (f : A -> M B) : M B :=
  fun w =>
    match m w with
    | (Ret a, w') => f a w'
    | (Exit c, w') => (Exit c, w')
    | (Raise e, w') => (Raise e, w')
    end.

Notation "'let*' x ':=' m 'in' k" := (bind m (fun x => k))
  (at level 10, x pattern, m at level 100, k at level 200).
Notation "m1 >> m2" := (bind m1 (fun _ => m2))
  (at level 90, right associativity).

Definition print (s : string) : M unit :=
  fun w => (Ret tt, with_out (out w ++ [s]) w).

Definition sys_exit {A} (code : Z) : M A := fun w => (Exit code, w).

Definition raise {A} (e : Exn) : M A := fun w => (Raise e, w).

Fixpoint for_each {A} (l : list A) (body : A -> M unit) : M unit :=
  match l with
  | [] => ret tt
  | x :: rest => body x >> for_each rest body
  end.

Definition when (b : bool) (m : M unit) : M unit := if b then m else ret tt.

(** The exit status of the process. *)
Definition exit_status {A} (r : Res A) : Z :=
  match r with
  | Ret _ => 0
  | Exit code => code
  | Raise _ => 1
  end.

(** A computation that only prints: it runs no command and leaves the
    files alone. *)
Definition print_only {A} (m : M A) : Prop :=
  forall w, exists lines, snd (m w) = with_out (out w ++ lines) w.

(** A computation that runs no external command. *)
Definition quiet {A} (m : M A) : Prop :=
  forall w, cmds (snd (m w)) = cmds w.

(** A computation that changes no file and runs no command but [probe],
    any number of times. *)
Definition probes_only (probe : list string) {A} (m : M A) : Prop :=
  forall w,
    files (snd (m w)) = files w /\
    exists n, cmds (snd (m w)) = cmds w ++ replicate n probe.

(** A computation that only adds to what was printed. *)
Definition appends {A} (m : M A) : Prop :=
  forall w, exists lines, out (snd (m w)) = out w ++ lines.

(** An external command that leaves every file as it is. *)
Definition read_only (tools : Tools) (cmd : list string) : Prop :=
  forall fs,
    match tools cmd fs with
    | Ran _ _ _ fs' => fs' = fs
    | NotLaunched => True
    end.

(** *** os and os.path (POSIX) *)

Module Os.
Import PyStr.

Definition path_exists (p : string) : M bool :=
  fun w => (Ret (bool_decide (is_Some (files w !! p))), w).

Definition getsize (p : string) : M Z :=
  fun w =>
    match files w !! p with
    | Some c => (Ret (Z.of_nat (String.length c)), w)
    | None => (Raise OSError, w)
    end.

Definition replace (src dst : string) : M unit :=
  fun w =>
    match files w !! src with
    | Some c => (Ret tt, with_files (<[dst := c]> (delete src (files w))) w)
    | None => (Raise OSError, w)
    end.

Definition remove (p : string) : M unit :=
  fun w =>
    match files w !! p with
    | Some _ => (Ret tt, with_files (delete p (files w)) w)
    | None => (Raise OSError, w)
    end.

Fixpoint all_dots (s : string) : bool :=
  match s with
  | EmptyString => true
  | String c s' => Ascii.eqb c "." && all_dots s'
  end.

(** [os.path.splitext]: the extension starts at the last dot of the last
    component, unless only dots precede it there. *)
Definition splitext (p : string) : string * string :=
  let sepIndex := rfind "/" p in
  let dotIndex := rfind "." p in
  if sepIndex <? dotIndex then
    let d := Z.to_nat dotIndex in
    if all_dots (drop (Z.to_nat (sepIndex + 1)) (take d p))
    then (p, EmptyString)
    else (take d p, drop d p)
  else (p, EmptyString).

Definition basename (p : string) : string :=
  drop (Z.to_nat (rfind "/" p + 1)) p.

(** [os.path.join(a, b)]. *)
Definition path_join (a b : string) : string :=
  if startswith "/" b then b
  else if String.eqb a "" || endswith "/" a then a +:+ b
  else a +:+ "/" +:+ b.

End Os.

(** *** The comparison [new_size > original_size / 2]

    [original_size / 2] is a float: the quotient rounded to 53 significant
    bits, ties to even.  Halving is exact in binary, so twice that float is
    [round53 original_size]; Python compares an int with a float exactly. *)
Definition round53 (n : Z) : Z :=
  let k := Z.log2 n in
  if k <? 53 then n
  else
    let s := k - 52 in
    let m := Z.shiftr n s in
    let r := n - Z.shiftl m s in
    let half := Z.shiftl 1 (s - 1) in
    let m' := if (half <? r) || ((r =? half) && Z.odd m) then m + 1 else m in
    Z.shiftl m' s.

Definition size_ok (new_size original_size : Z) : bool :=
  round53 original_size <? 2 * new_size.

(* ================================================================== *)
(** ** process_mkv.py: the processor *)
(* ================================================================== *)

Module Mkv.
Import PyStr Parser Os.

Section WithTools.

(** The external programs, and the value of the PATH variable. *)
Variable tools : Tools.
Variable env_PATH : option string.

(** [check_mkvtoolnix_installed]. *)
Definition on_path (cmd : string) : M bool :=
match env_PATH with
| None => raise KeyError
| Some p =>
    fun w =>
      (Ret (existsb
              (fun dir => bool_decide (is_Some (files w !! path_join dir cmd)))
              (split ":" p)), w)
end.

Definition check_mkvtoolnix_installed : M unit :=
for_each ["mkvmerge"; "mkvpropedit"; "mkvinfo"]
  (fun cmd =>
     let* found := on_path cmd in
     if found then ret tt
     else
       print ("Error: " +:+ cmd +:+
              " is not installed. Please install mkvtoolnix first.") >>
       sys_exit 1).

(** [run_command] (always called with [check=True]). *)
Definition run_command (cmd : list string) : M (string * string) :=
fun w =>
  let w1 := with_cmds (cmds w ++ [cmd]) w in
  match tools cmd (files w) with
  | NotLaunched => (Raise OSError, w1)
  | Ran rc so se fs =>
      let w2 := with_files fs w1 in
      if rc =? 0 then (Ret (so, se), w2)
      else
        (print ("Error running command: " +:+ join " " cmd) >>
         print ("Error output: " +:+ se) >>
         sys_exit 1) w2
  end.

(** [Track.__str__]. *)
Definition track_str (t : Track) : string :=
"Track ID " +:+ track_id t +:+ ": " +:+ track_type t +:+
" (" +:+ language t +:+ ") [" +:+ codec t +:+ "]".

(** [parse_tracks]. *)
Definition parse_tracks (mkv_file : string) : M (list Track) :=
let* r := run_command ["mkvinfo"; mkv_file] in
fun w => (parse_text (fst r), w).

Definition rule : string := repeat_char "-" 40.

Definition audio_tracks_of (tracks : list Track) : list Track :=
filter (fun t => track_type t = "audio") tracks.
Definition target_tracks_of (keep : string) (tracks : list Track) : list Track :=
filter (fun t => language t = keep) (audio_tracks_of tracks).
Definition non_target_tracks_of (keep : string) (tracks : list Track) : list Track :=
filter (fun t => language t <> keep) (audio_tracks_of tracks).

Definition audio_temp_file (file keep : string) : string :=
fst (splitext file) +:+ "_" +:+ keep +:+ ".mkv".

Definition remux_audio_cmd (file keep : string) (target : list Track) : list string :=
["mkvmerge"; "-o"; audio_temp_file file keep; "--video-tracks"; "0";
 "--audio-tracks"; join "," (map track_id target); file].

(** The remux of the audio filter with its size check (the [else] of
  [if dry_run]). *)
Definition remux_audio (file keep : string) (target : list Track) : M unit :=
let temp_file := audio_temp_file file keep in
run_command (remux_audio_cmd file keep target) >>
let* original_size := getsize file in
let* new_size := getsize temp_file in
if size_ok new_size original_size then
  replace temp_file file >>
  print ("Kept only " +:+ keep +:+ " audio tracks in '" +:+ file +:+ "'.")
else
  print "Error: Output file is suspiciously small. Operation aborted." >>
  remove temp_file >>
  sys_exit 1.

(** The block under [if keep_language:]. *)
Definition audio_filter (file keep : string) (dry_run : bool)
  (tracks : list Track) : M unit :=
print ("Analyzing audio tracks in '" +:+ file +:+ "'...") >>
let target_tracks := target_tracks_of keep tracks in
let non_target_tracks := non_target_tracks_of keep tracks in
for_each target_tracks
  (fun t => print ("Found " +:+ keep +:+ " audio track (ID: " +:+
                   track_id t +:+ ") - will keep")) >>
for_each non_target_tracks
  (fun t => print ("Found non-" +:+ keep +:+ " audio track (ID: " +:+
                   track_id t +:+ ") - will be removed")) >>
match non_target_tracks with
| _ :: _ =>
    match target_tracks with
    | [] =>
        print ("Warning: No " +:+ keep +:+
               " audio tracks found. Keeping all audio tracks.")
    | _ :: _ =>
        if dry_run then
          print ("Would keep only " +:+ keep +:+ " audio tracks in '" +:+
                 file +:+ "'.")
        else remux_audio file keep target_tracks
    end
| [] => print "No audio track changes needed."
end.

Definition subtitle_temp_file (file : string) : string :=
fst (splitext file) +:+ "_no_subtitles.mkv".

(** The block under [if delete_subtitles:]. *)
Definition subtitle_stripper (file : string) (dry_run : bool)
  (tracks : list Track) : M unit :=
match filter (fun t => track_type t = "subtitles") tracks with
| [] => print ("No subtitles found in '" +:+ file +:+ "'.")
| _ :: _ =>
    print ("Subtitles found in '" +:+ file +:+ "'.") >>
    if dry_run then
      print ("Would remove all subtitles from '" +:+ file +:+ "'.")
    else
      let temp_file := subtitle_temp_file file in
      run_command ["mkvmerge"; "-o"; temp_file; "--no-subtitles"; file] >>
      replace temp_file file >>
      print ("All subtitles removed from '" +:+ file +:+ "'.")
end.

Definition expected_title (file : string) : string :=
fst (splitext (basename file)).

Definition set_title_cmd (file : string) : list string :=
["mkvpropedit"; file; "--edit"; "info"; "--set";
 "title=" +:+ expected_title file].

(** The last part of [process_mkv_file]: "Update title if needed". *)
Definition title_normalizer (file : string) (dry_run : bool) : M unit :=
let title := expected_title file in
let* r := run_command ["mkvinfo"; file] in
let* current_title := (fun w => (probe_title (fst r), w)) in
if bool_decide (current_title <> Some title) then
  if dry_run then
    print ("Would set the title of '" +:+ file +:+ "' to '" +:+ title +:+ "'.")
  else
    run_command (set_title_cmd file) >>
    print ("Set the title of '" +:+ file +:+ "' to '" +:+ title +:+ "'.")
else
  print ("The title of '" +:+ file +:+
         "' already matches the filename. No change needed.").

(** [keep_language] as a condition: given and not empty. *)
Definition requested (keep_language : option string) : option string :=
match keep_language with
| Some k => if truthy k then Some k else None
| None => None
end.

Definition process_mkv_file (file : string) (delete_subtitles : bool)
  (keep_language : option string) (dry_run : bool) : M unit :=
let* present := path_exists file in
if negb present then print ("File '" +:+ file +:+ "' not found.")
else
  print ("Tracks in '" +:+ file +:+ "':") >>
  print rule >>
  let* tracks := parse_tracks file in
  for_each tracks (fun t => print (track_str t)) >>
  print rule >>
  match requested keep_language with
  | Some keep => audio_filter file keep dry_run tracks
  | None => ret tt
  end >>
  when delete_subtitles (subtitle_stripper file dry_run tracks) >>
  title_normalizer file dry_run >>
  print "".

(** The parsed command line. *)
Record Args := mkArgs {
arg_file : option string;
arg_keep_language : option string;
arg_delete_subtitles : bool;
arg_dry_run : bool
}.

Definition help_text : string := "usage: process_mkv.py [-h] [--keep-language KEEP_LANGUAGE] [--delete-subtitles] [--dry-run] [file]".

Definition main (args : Args) : M unit :=
match arg_file args with
| None => print help_text >> sys_exit 0
| Some file =>
    if negb (truthy file) then print help_text >> sys_exit 0
    else
      check_mkvtoolnix_installed >>
      if negb (endswith ".mkv" file) then
        print ("'" +:+ file +:+ "' is not an MKV file.") >> sys_exit 1
      else
        process_mkv_file file (arg_delete_subtitles args)
          (arg_keep_language args) (arg_dry_run args)
end.

End WithTools.

End Mkv.

(* ================================================================== *)
(** ** hevc_stitcher.py *)
(* ================================================================== *)

Module Stitcher.
Import PyStr Os.

(** [class Colors]. *)
Module Colors.
Definition esc (code : string) : string := String "027" ("[" +:+ code +:+ "m").
Definition BLUE : string := esc "94".
Definition GREEN : string := esc "92".
Definition YELLOW : string := esc "93".
Definition RED : string := esc "91".
Definition BOLD : string := esc "1".
Definition END : string := esc "0".
End Colors.
Import Colors.

(** The three box-drawing glyphs of the reports, as UTF-8. *)
Definition glyph (b : ascii) : string :=
  String "226" (String "148" (String b EmptyString)).
Definition tee : string := glyph "156" +:+ glyph "128".
Definition elbow : string := glyph "148" +:+ glyph "128".

(** [str] of an integer. *)
Definition str_Z (z : Z) : string := NilZero.string_of_int (Z.to_int z).

Definition get_resolution_and_fps (resolution : string) (fps : Z)
    : Res (Z * Z * Z) :=
  if String.eqb resolution "480p" then Ret (640, 360, fps)
  else if String.eqb resolution "720p" then Ret (1280, 720, fps)
  else if String.eqb resolution "1080p" then Ret (1920, 1080, fps)
  else if String.eqb resolution "4K" then Ret (3840, 2160, fps)
  else Raise ValueError.

(** The dictionary [get_video_details] returns; the float and date
    entries are carried as the text the reports print. *)
Record Details := mkDetails {
  width : Z;
  height : Z;
  fps_text : string;
  duration_text : string;
  creation_text : string;
  pixel_format : string;
  color_space : string;
  color_transfer : string;
  color_primaries : string
}.

(** [is_video_file]. *)
Definition is_video_file (filename : string) : bool :=
  let f := lower filename in endswith ".mov" f || endswith ".mp4" f.

(** [sorted(l, key=...)]: a stable sort. *)
Fixpoint insert_by {A} (le : A -> A -> bool) (x : A) (l : list A) : list A :=
  match l with
  | [] => [x]
  | y :: rest => if le x y then x :: l else y :: insert_by le x rest
  end.
Definition sorted_by {A} (le : A -> A -> bool) (l : list A) : list A :=
  foldr (insert_by le) [] l.

(** [repr] of a list of strings. *)
Definition repr_list (l : list string) : string :=
  "[" +:+ join ", " (map repr l) +:+ "]".

(** The command line of the probe in [get_video_details]. *)
Definition ffprobe_cmd (file_path : string) : list string :=
  ["ffprobe"; "-v"; "error"; "-select_streams"; "v:0"; "-show_entries";
   "stream=width,height,r_frame_rate,pix_fmt,color_space,color_transfer,color_primaries,duration";
   "-of"; "json"; file_path].

Definition is_probe (cmd : list string) : Prop :=
  exists file_path, cmd = ffprobe_cmd file_path.

(** The class [VideoProcessingError] is defined nowhere in the file: each
    [raise] of it is a [NameError] with this text. *)
Definition undefined_class : string :=
  "name 'VideoProcessingError' is not defined".

Section WithEnvironment.

(** [shutil.which] as a truth value; [os.listdir]; [read_stream path stdout],
  what lines 85 to 119 of [get_video_details] make of the text the probe
  printed (the JSON decoding, the float arithmetic and the date), with the
  text of the exception where they raise one; [strerror cmd], the text of
  the error when [cmd] cannot be started; the name of a signal number;
  [os.path.getmtime]; the rendering of a timestamp; the name
  [NamedTemporaryFile] picks; the external programs. *)
Variable which : string -> bool.
Variable listdir : string -> option (list string).
Variable read_stream : string -> string -> string + Details.
Variable strerror : list string -> string.
Variable signal_name : Z -> option string.
Variable getmtime : string -> option Z.
Variable strftime : Z -> string.
Variable temp_name : string.
Variable tools : Tools.

(** [get_video_details].  A failure is returned as the text of its
  exception: the one caller catches every [Exception] and prints that
  text. *)
Definition get_video_details (file_path : string) : M (string + Details) :=
let* present := path_exists file_path in
if negb present then ret (inl undefined_class)
else
  fun w =>
    let cmd := ffprobe_cmd file_path in
    let w1 := with_cmds (cmds w ++ [cmd]) w in
    match tools cmd (files w) with
    | NotLaunched => (Ret (inl (strerror cmd)), w1)
    | Ran rc stdout _ fs =>
        (Ret (if rc =? 0 then read_stream file_path stdout
              else inl undefined_class),
         with_files fs w1)
    end.

Definition is_hdr (d : Details) : bool :=
String.eqb (color_transfer d) "smpte2084" ||
String.eqb (color_transfer d) "arib-std-b67" ||
String.eqb (color_primaries d) "bt2020".

Definition print_file_details (filename : string) (d : Details) : M unit :=
let item (last : bool) (label value : string) :=
  print ((if last then elbow else tee) +:+ " " +:+ GREEN +:+ label +:+ ":" +:+
         END +:+ " " +:+ value) in
print (newline_ +:+ BOLD +:+ filename +:+ END) >>
item false "Resolution" (str_Z (width d) +:+ "x" +:+ str_Z (height d)) >>
item false "FPS" (fps_text d) >>
item false "Duration" (duration_text d) >>
item false "Creation Date" (creation_text d) >>
item false "Pixel Format" (pixel_format d) >>
item false "Color Space" (color_space d) >>
item false "Color Transfer" (color_transfer d) >>
item false "Color Primaries" (color_primaries d) >>
item true "HDR" (if is_hdr d then "Yes" else "No").

(** [print_command]. *)
Definition print_command (cmd : list string) : M unit :=
let formatted :=
  flat_map (fun item =>
              if startswith "-" item then [newline_ +:+ "    "; item]
              else [" " +:+ item]) cmd in
print (newline_ +:+ BLUE +:+ "Running ffmpeg command:" +:+ END) >>
print (BLUE +:+ join "" formatted +:+ END +:+ newline_).

Definition os_listdir (d : string) : M (list string) :=
match listdir d with
| Some l => ret l
| None => raise OSError
end.

(** [verify_resolutions]: the mismatched files, in the order scanned. *)
Fixpoint scan (input_dir : string) (target_width target_height : Z)
  (names : list string) (mismatched : list (string * (Z * Z)))
  : M (list (string * (Z * Z))) :=
match names with
| [] => ret mismatched
| filename :: rest =>
    if is_video_file filename then
      let* found := get_video_details (path_join input_dir filename) in
      match found with
      | inr d =>
          print_file_details filename d >>
          scan input_dir target_width target_height rest
            (if negb (width d =? target_width) || negb (height d =? target_height)
             then mismatched ++ [(filename, (width d, height d))]
             else mismatched)
      | inl msg =>
          print (RED +:+ "Warning: Could not check details of " +:+ filename +:+
                 ": " +:+ msg +:+ END) >>
          scan input_dir target_width target_height rest mismatched
      end
    else scan input_dir target_width target_height rest mismatched
end.

Definition verify_resolutions (input_dir : string)
  (target_width target_height : Z) : M (list (string * (Z * Z))) :=
print (newline_ +:+ BOLD +:+ "Analyzing input files:" +:+ END) >>
let* names := os_listdir input_dir in
scan input_dir target_width target_height (sorted_by String.leb names) [].

(** The loop of [get_sorted_video_files]; the exception class it raises
  is not defined in the file, so raising it is a NameError. *)
Fixpoint collect (input_dir : string) (names : list string)
  : M (list (string * Z)) :=
match names with
| [] => ret []
| filename :: rest =>
    if is_video_file filename then
      match getmtime (path_join input_dir filename) with
      | Some t =>
          let* more := collect input_dir rest in
          ret ((filename, t) :: more)
      | None => raise NameError
      end
    else collect input_dir rest
end.

Definition get_sorted_video_files (input_dir sort_by : string)
  : M (list (string * Z)) :=
if negb (String.eqb sort_by "filename" || String.eqb sort_by "creation_date")
then raise NameError
else
  match listdir input_dir with
  | None => raise NameError
  | Some names =>
      let* video_files := collect input_dir names in
      if String.eqb sort_by "creation_date"
      then ret (sorted_by (fun x y => snd x <=? snd y) video_files)
      else ret (sorted_by (fun x y => String.leb (fst x) (fst y)) video_files)
  end.

Definition manifest (input_dir : string) (video_files : list (string * Z))
  : string :=
join "" (map (fun f => "file '" +:+ path_join input_dir (fst f) +:+ "'" +:+ newline_)
             video_files).

Definition ffmpeg_cmd (output_file : string) (enable_hdr : bool)
  (target_width target_height fps : Z) : list string :=
["ffmpeg"; "-f"; "concat"; "-safe"; "0"; "-c:v"; "hevc_videotoolbox";
 "-preset"; "slow"; "-movflags"; "faststart"; "-tag:v"; "hvc1";
 "-b:v"; "75M"; "-maxrate"; "100M"; "-bufsize"; "150M";
 "-i"; temp_name;
 "-vf"; "scale=" +:+ str_Z target_width +:+ ":" +:+ str_Z target_height;
 "-r"; str_Z fps] ++
(if enable_hdr
 then ["-pix_fmt"; "p010le"; "-color_primaries"; "bt2020";
       "-color_trc"; "arib-std-b67"; "-colorspace"; "bt2020nc";
       "-profile:v"; "main10"]
 else ["-pix_fmt"; "yuv420p"; "-profile:v"; "main"]) ++
[output_file].

(** [str] of the [CalledProcessError] of a command that ended with [rc]. *)
Definition called_process_error (cmd : list string) (rc : Z) : string :=
"Command '" +:+ repr_list cmd +:+ "' " +:+
(if rc <? 0 then
   match signal_name (- rc) with
   | Some name => "died with <Signals." +:+ name +:+ ": " +:+ str_Z (- rc) +:+ ">."
   | None => "died with unknown signal " +:+ str_Z (- rc) +:+ "."
   end
 else "returned non-zero exit status " +:+ str_Z rc +:+ ".").

(** [subprocess.run(ffmpeg_cmd, check=True)] inside its [try]. *)
Definition encode (cmd : list string) (output_file : string) : M unit :=
fun w =>
  let w1 := with_cmds (cmds w ++ [cmd]) w in
  match tools cmd (files w) with
  | NotLaunched => (Raise OSError, w1)
  | Ran rc _ _ fs =>
      let w2 := with_files fs w1 in
      if rc =? 0 then
        print (GREEN +:+ "Successfully concatenated and encoded to " +:+
               output_file +:+ END) w2
      else
        print (RED +:+ "Error during ffmpeg execution: " +:+
               called_process_error cmd rc +:+ END) w2
  end.

(** [with tempfile.NamedTemporaryFile(mode="w+", delete=True)]: the file
  exists, holding [content], for the time of the body. *)
Definition with_temp_file (content : string) (body : M unit) : M unit :=
fun w =>
  let '(r, w') := body (with_files (<[temp_name := content]> (files w)) w) in
  (r, with_files (delete temp_name (files w')) w').

Definition missing_tool : option string :=
List.find (fun tool => negb (which tool)) ["ffmpeg"; "ffprobe"].

(** [concatenate_and_encode] up to its [with] block: the tool check, the
  target, the resolution scan and the list of files; it hands on the
  encoder command and the text of the manifest. *)
Definition plan (input_dir output_file : string) (enable_hdr : bool)
  (resolution : string) (fps : Z) (sort_by : string)
  : M (list string * string) :=
match missing_tool with
| Some tool =>
    print (RED +:+ "Error: " +:+ tool +:+ " is not found. Please install the " +:+
           "required tools and ensure they're in your system's PATH." +:+ END) >>
    sys_exit 1
| None => ret tt
end >>
let* target := (fun w => (get_resolution_and_fps resolution fps, w)) in
let '(target_width, target_height, fps) := target in
print (newline_ +:+ BOLD +:+ "Target Settings:" +:+ END) >>
print (tee +:+ " Resolution: " +:+ str_Z target_width +:+ "x" +:+
       str_Z target_height) >>
print (tee +:+ " FPS: " +:+ str_Z fps) >>
print (tee +:+ " HDR: " +:+ (if enable_hdr then "Yes" else "No")) >>
print (elbow +:+ " Sort by: " +:+ sort_by) >>
let* mismatched_files :=
  verify_resolutions input_dir target_width target_height in
match mismatched_files with
| _ :: _ =>
    print (newline_ +:+ RED +:+
           "Error: The following files don't match the target resolution " +:+
           "(" +:+ str_Z target_width +:+ "x" +:+ str_Z target_height +:+ "):" +:+
           END) >>
    for_each mismatched_files
      (fun m => print ("  - " +:+ fst m +:+ ": " +:+ str_Z (fst (snd m)) +:+
                       "x" +:+ str_Z (snd (snd m)))) >>
    sys_exit 1
| [] => ret tt
end >>
let* video_files := get_sorted_video_files input_dir sort_by in
match video_files with
| [] =>
    print (RED +:+ "Error: No .mov or .mp4 files found in " +:+ input_dir +:+
           END) >>
    sys_exit 1
| _ :: _ => ret tt
end >>
print (newline_ +:+ BOLD +:+ "Files to be merged (in order of " +:+ sort_by +:+
       "):" +:+ END) >>
for_each (imap (fun i f => (Z.of_nat i + 1, f)) video_files)
  (fun e => print (str_Z (fst e) +:+ ". " +:+ fst (snd e) +:+ " (Created: " +:+
                   strftime (snd (snd e)) +:+ ")")) >>
ret (ffmpeg_cmd output_file enable_hdr target_width target_height fps,
     manifest input_dir video_files).

Definition dry_run_notice : string :=
YELLOW +:+ "Dry run enabled: ffmpeg command will not be executed." +:+ END.

Definition concatenate_and_encode (input_dir output_file : string)
  (enable_hdr : bool) (resolution : string) (fps : Z) (sort_by : string)
  (dry_run : bool) : M unit :=
let* p := plan input_dir output_file enable_hdr resolution fps sort_by in
with_temp_file (snd p)
  (print_command (fst p) >>
   if dry_run then print dry_run_notice else encode (fst p) output_file).

End WithEnvironment.

End Stitcher.


(* ================================================================== *)
(** ** Track listings: the vocabulary of the parser's properties *)
(* ================================================================== *)

Module Listing.
Import PyStr Parser.

(** Which branch of the loop a line takes. *)
Definition holds (marker raw : string) : bool := contains marker (strip raw).

(** A language line qualified with "IETF" that is no number, type or
    codec line. *)
Definition ietf_language_line (raw : string) : bool :=
  holds marker_language raw && holds "IETF" raw &&
  negb (holds marker_number raw) && negb (holds marker_type raw) &&
  negb (holds marker_codec raw).

(** A line that matches no marker. *)
Definition no_marker (raw : string) : bool :=
  negb (holds marker_number raw) && negb (holds marker_type raw) &&
  negb (holds marker_codec raw) && negb (holds marker_language raw).

(** A track-number line carries the "mkvextract:" qualifier. *)
Definition line_ok (raw : string) : bool :=
  negb (holds marker_number raw) || holds "mkvextract:" raw.

(** Every line of the text does. *)
Definition well_marked (stdout : string) : bool :=
  forallb line_ok (split newline stdout).

(** The lines of a block after its track-number line: a value after one
    of the three field markers, or a line the loop passes over. *)
Inductive Attr :=
| AType (w : string)
| ACodec (w : string)
| ALanguage (w : string)
| AIetf (raw : string)
| AOther (raw : string).

Record Block := mkBlock {
  b_number : string;
  b_id : string;
  b_attrs : list Attr
}.

(** The track-number line in the format the source quotes. *)
Definition header (number id : string) : string :=
  "|  + Track number: " +:+ number +:+
  " (track ID for mkvmerge & mkvextract: " +:+ id +:+ ")".

Definition render_attr (a : Attr) : string :=
  match a with
  | AType w => marker_type +:+ w
  | ACodec w => marker_codec +:+ w
  | ALanguage w => marker_language +:+ w
  | AIetf raw => raw
  | AOther raw => raw
  end.

Definition render_block (b : Block) : list string :=
  header (b_number b) (b_id b) :: map render_attr (b_attrs b).

Definition is_digit (c : ascii) : bool :=
  let n := N_of_ascii c in ((48 <=? n) && (n <=? 57))%N.

Fixpoint all_chars (p : ascii -> bool) (s : string) : bool :=
  match s with
  | EmptyString => true
  | String c s' => p c && all_chars p s'
  end.

(** A value on one line, free of colons. *)
Definition plain (w : string) : bool := lacks ":" w && lacks "010" w.

Definition wf_attr (a : Attr) : bool :=
  match a with
  | AType w => plain w
  | ACodec w => plain w
  | ALanguage w => plain w && negb (contains "IETF" w)
  | AIetf raw => lacks "010" raw && ietf_language_line raw
  | AOther raw => lacks "010" raw && no_marker raw
  end.

(** An id as the tool prints it: not empty, nothing to trim, no closing
    parenthesis at its end. *)
Definition wf_id (i : string) : bool :=
  plain i && truthy i &&
  String.eqb (lstrip_by is_space i) i &&
  String.eqb (rstrip_by (is_char ")") i) i.

Definition wf_block (b : Block) : bool :=
  all_chars is_digit (b_number b) && wf_id (b_id b) &&
  forallb wf_attr (b_attrs b).

(** The value of the last line of one kind, trimmed, or the default. *)
Fixpoint latest (pick : Attr -> option string) (dflt : string)
    (attrs : list Attr) : string :=
  match attrs with
  | [] => dflt
  | a :: rest =>
      latest pick (match pick a with Some w => strip w | None => dflt end) rest
  end.

Definition type_of (a : Attr) := match a with AType w => Some w | _ => None end.
Definition codec_of (a : Attr) := match a with ACodec w => Some w | _ => None end.
Definition language_of (a : Attr) :=
  match a with ALanguage w => Some w | _ => None end.

(** The record a block stands for. *)
Definition track_of_block (b : Block) : Track :=
  {| track_id := b_id b;
     track_type := latest type_of "" (b_attrs b);
     language := latest language_of "undefined" (b_attrs b);
     codec := latest codec_of "" (b_attrs b) |}.

(** What one line after the track-number line does to the record. *)
Definition apply_attr (t : Track) (a : Attr) : Track :=
  match a with
  | AType w => set_type t (strip w)
  | ACodec w => set_codec t (strip w)
  | ALanguage w => set_language t (strip w)
  | AIetf _ => t
  | AOther _ => t
  end.

(** The record in progress between blocks: nothing read yet, or a record
    with an id. *)
Definition between (cur : Track) : Prop :=
  cur = fresh \/ truthy (track_id cur) = true.

(** What holds of every record the loop builds: no field value holds a
    colon; a record put on the list has an id. *)
Definition fields_plain (t : Track) : Prop :=
  lacks ":" (track_type t) = true /\ lacks ":" (language t) = true /\
  lacks ":" (codec t) = true.

Definition finished (t : Track) : Prop :=
  track_id t <> "" /\ fields_plain t.

(** A text none of whose lines is a track-number line. *)
Definition headless (stdout : string) : bool :=
  forallb (fun raw => negb (holds marker_number raw)) (split newline stdout).

(** The output of the info tool around a title line: lines without the
    title marker, the title line, anything after it. *)
Definition titled (before : list string) (w : string) (after : list string)
    : string :=
  join newline (before ++ (marker_title +:+ w) :: after).

Definition untitled (raw : string) : bool :=
  lacks "010" raw && negb (contains marker_title raw).

(** A listing: lines before the first block, then the blocks. *)
Definition listing (before : list string) (blocks : list Block) : string :=
  join newline (before ++ flat_map render_block blocks).

Definition wf_before (raw : string) : bool :=
  lacks "010" raw && (no_marker raw || ietf_language_line raw).

End Listing.

(* ================================================================== *)
(** ** What a run prints before it decides *)
(* ================================================================== *)

Module Report.
Import PyStr.

(** The lines of the audio filter up to its decision. *)
Definition announce (file keep : string) (tracks : list Track) : list string :=
  ["Analyzing audio tracks in '" +:+ file +:+ "'..."] ++
  map (fun t => "Found " +:+ keep +:+ " audio track (ID: " +:+ track_id t +:+
                ") - will keep") (Mkv.target_tracks_of keep tracks) ++
  map (fun t => "Found non-" +:+ keep +:+ " audio track (ID: " +:+ track_id t +:+
                ") - will be removed") (Mkv.non_target_tracks_of keep tracks).

(** [cmd] is found in a directory of the search path. *)
Definition installed (env_PATH : string) (fs : gmap string string) (cmd : string)
    : bool :=
  existsb (fun dir => bool_decide (is_Some (fs !! Os.path_join dir cmd)))
          (split ":" env_PATH).

(** The first of the three tools that is not installed. *)
Definition first_missing (env_PATH : string) (fs : gmap string string)
    : option string :=
  List.find (fun cmd => negb (installed env_PATH fs cmd))
            ["mkvmerge"; "mkvpropedit"; "mkvinfo"].

(** The two entries [run_command] prints when a command fails. *)
Definition failure_lines (cmd : list string) (stderr : string) : list string :=
  ["Error running command: " +:+ join " " cmd; "Error output: " +:+ stderr].

(** The remux command of the subtitle stripper. *)
Definition strip_cmd (file : string) : list string :=
  ["mkvmerge"; "-o"; Mkv.subtitle_temp_file file; "--no-subtitles"; file].

Definition warning (keep : string) : string :=
  "Warning: No " +:+ keep +:+ " audio tracks found. Keeping all audio tracks.".

Definition is_audio (t : Track) : Prop := track_type t = "audio".

(** What [get_video_details] returns on the files [fs]. *)
Definition details_in (read_stream : string -> string -> string + Stitcher.Details)
    (strerror : list string -> string) (tools : Tools) (fs : gmap string string)
    (file_path : string) : string + Stitcher.Details :=
  if bool_decide (is_Some (fs !! file_path)) then
    match tools (Stitcher.ffprobe_cmd file_path) fs with
    | NotLaunched => inl (strerror (Stitcher.ffprobe_cmd file_path))
    | Ran rc stdout _ _ =>
        if rc =? 0 then read_stream file_path stdout
        else inl Stitcher.undefined_class
    end
  else inl Stitcher.undefined_class.

(** The probes the resolution scan starts on the files [fs]: one for each
    video file of the listing that exists, in the order scanned. *)
Definition probes (input_dir : string) (fs : gmap string string)
    (names : list string) : list (list string) :=
  map (fun n => Stitcher.ffprobe_cmd (Os.path_join input_dir n))
    (List.filter (fun n => Stitcher.is_video_file n &&
                           bool_decide (is_Some (fs !! Os.path_join input_dir n)))
       names).

(** Every probe leaves the files as they are. *)
Definition probes_read_only (tools : Tools) : Prop :=
  forall file_path, read_only tools (Stitcher.ffprobe_cmd file_path).

(** A computation that starts no program but the probe, and changes no
    file when the probe changes none. *)
Definition probing (tools : Tools) {A} (m : M A) : Prop :=
  forall w, exists started,
    cmds (snd (m w)) = cmds w ++ started /\
    Forall Stitcher.is_probe started /\
    (probes_read_only tools -> files (snd (m w)) = files w).

(** What the resolution scan reports for one directory entry, [details_of]
    being what the probe returns for a path: a video file whose probe
    succeeds with another width or height. *)
Definition mismatch_of (details_of : string -> string + Stitcher.Details)
    (input_dir : string) (target_width target_height : Z) (filename : string)
    : option (string * (Z * Z)) :=
  if Stitcher.is_video_file filename then
    match details_of (Os.path_join input_dir filename) with
    | inr d =>
        if negb (Stitcher.width d =? target_width) ||
           negb (Stitcher.height d =? target_height)
        then Some (filename, (Stitcher.width d, Stitcher.height d))
        else None
    | inl _ => None
    end
  else None.

(** A video file with its modification time. *)
Definition dated (getmtime : string -> option Z) (input_dir filename : string)
    : option (string * Z) :=
  if Stitcher.is_video_file filename
  then (fun t => (filename, t)) <$> getmtime (Os.path_join input_dir filename)
  else None.

(** The order a [sort_by] value asks for. *)
Definition key_le (sort_by : string) (x y : string * Z) : bool :=
  if String.eqb sort_by "creation_date" then snd x <=? snd y
  else String.leb (fst x) (fst y).

(** The two entries [print_command] prints. *)
Definition command_lines (cmd : list string) : list string :=
  [newline_ +:+ Stitcher.Colors.BLUE +:+ "Running ffmpeg command:" +:+
     Stitcher.Colors.END;
   Stitcher.Colors.BLUE +:+
     join "" (flat_map (fun item =>
                          if startswith "-" item then [newline_ +:+ "    "; item]
                          else [" " +:+ item]) cmd) +:+
     Stitcher.Colors.END +:+ newline_].

(** What the stitcher prints when the encoder ends with [rc]. *)
Definition encode_line (signal_name : Z -> option string) (cmd : list string)
    (output_file : string) (rc : Z) : string :=
  if rc =? 0 then
    Stitcher.Colors.GREEN +:+ "Successfully concatenated and encoded to " +:+
    output_file +:+ Stitcher.Colors.END
  else
    Stitcher.Colors.RED +:+ "Error during ffmpeg execution: " +:+
    Stitcher.called_process_error signal_name cmd rc +:+ Stitcher.Colors.END.

End Report.

(* ================================================================== *)
(** ** Stand-ins for the external programs, for concrete runs *)
(* ================================================================== *)

Module Sim.
Import PyStr Parser.

(** What the probe prints for a clip in 4K. *)
Definition quoted (s : string) : string :=
  String "034" (s +:+ String "034" EmptyString).
Definition probe_output : string :=
  "{" +:+ quoted "streams" +:+ ": [{" +:+ quoted "width" +:+ ": 3840, " +:+
  quoted "height" +:+ ": 2160}]}".

(** A container is stood for by the listing the info tool prints for it.
    The info tool prints the content; the remux tool writes [remuxed] to
    its output path; the metadata editor puts a title line first; the
    encoder does nothing and exits with [encoder_rc]; the probe prints
    [probe_output]. *)
Definition tools (remuxed : string) (encoder_rc : Z) : Tools :=
  fun cmd fs =>
    match cmd with
    | prog :: args =>
        if String.eqb prog "mkvinfo" then
          match args with
          | [f] =>
              match fs !! f with
              | Some c => Ran 0 c "" fs
              | None => Ran 2 "" "Error: the file could not be opened." fs
              end
          | _ => Ran 2 "" "" fs
          end
        else if String.eqb prog "mkvmerge" then
          match args with
          | _ :: t :: _ => Ran 0 "" "" (<[t := remuxed]> fs)
          | _ => Ran 2 "" "" fs
          end
        else if String.eqb prog "mkvpropedit" then
          match args with
          | [f; _; _; _; kv] =>
              match fs !! f with
              | Some c =>
                  Ran 0 "" ""
                    (<[f := marker_title +:+ " " +:+ drop 6 kv +:+ newline +:+ c]> fs)
              | None => Ran 2 "" "Error: the file could not be opened." fs
              end
          | _ => Ran 2 "" "" fs
          end
        else if String.eqb prog "ffmpeg" then Ran encoder_rc "" "" fs
        else if String.eqb prog "ffprobe" then Ran 0 probe_output "" fs
        else NotLaunched
    | [] => NotLaunched
    end.

Definition eng_and_jpn : list Track :=
  [mkTrack "0" "video" "undefined" "V_MPEG4/ISO/AVC";
   mkTrack "1" "audio" "eng" "A_AAC";
   mkTrack "2" "audio" "jpn" "A_AAC"].

(** A world holding one file of the given content, and the three tools
    in /usr/bin. *)
Definition world (file content : string) : World :=
  {| files := <[file := content]>
                (<["/usr/bin/mkvmerge" := ""]>
                   (<["/usr/bin/mkvpropedit" := ""]>
                      (<["/usr/bin/mkvinfo" := ""]> ∅)));
     out := [];
     cmds := [] |}.

Definition tools_only : World :=
  {| files := <["/usr/bin/mkvmerge" := ""]>
                (<["/usr/bin/mkvpropedit" := ""]>
                   (<["/usr/bin/mkvinfo" := ""]> ∅));
     out := [];
     cmds := [] |}.

(** A tool that fails after writing part of its output. *)
Definition failing (partial : string) : Tools :=
  fun cmd fs =>
    match cmd with
    | _ :: _ :: t :: _ => Ran 2 "" "Error: disk full" (<[t := partial]> fs)
    | _ => Ran 2 "" "Error" fs
    end.

(** A directory of two clips in 4K and a text file, for the stitcher. *)
Definition which (tool : string) : bool := true.
Definition listdir (d : string) : option (list string) :=
  Some ["b.mp4"; "notes.txt"; "a.MOV"].
Definition clip : Stitcher.Details :=
  Stitcher.mkDetails 3840 2160 "29.97" "0:00:10" "2024-01-01 00:00:00"
    "yuv420p10le" "bt2020nc" "arib-std-b67" "bt2020".
Definition read_stream (p stdout : string) : string + Stitcher.Details :=
  if String.eqb stdout probe_output then inr clip
  else inl "Expecting value: line 1 column 1 (char 0)".
Definition strerror (cmd : list string) : string :=
  "[Errno 2] No such file or directory: 'ffprobe'".
Definition signal_name (n : Z) : option string :=
  if n =? 9 then Some "SIGKILL" else if n =? 15 then Some "SIGTERM" else None.
Definition getmtime (p : string) : option Z := Some 0.
Definition strftime (t : Z) : string := "2024-01-01 00:00:00".
Definition temp_name : string := "/tmp/tmpk3v9x2".

Definition empty_world : World := {| files := ∅; out := []; cmds := [] |}.

(** The two clips of the directory, as files. *)
Definition clips : World :=
  {| files := <["clips/a.MOV" := "a"]> (<["clips/b.mp4" := "b"]> ∅);
     out := [];
     cmds := [] |}.

(** The stitcher on that directory, with an encoder that exits with
    [encoder_rc]. *)
Definition stitch (encoder_rc : Z) (resolution : string) (dry_run : bool) : M unit :=
  Stitcher.concatenate_and_encode which listdir read_stream strerror signal_name
    getmtime strftime temp_name (tools "" encoder_rc) "clips" "out.mp4" false
    resolution 30 "filename" dry_run.

End Sim.
(* ================================================================== *)
(** ** Facts about the string methods *)
(* ================================================================== *)

Module StrFacts.
Import PyStr.

Lemma append_nil_r (s : string) : s +:+ "" = s.
Proof. induction s as [|c s IH]; simpl; [reflexivity | now rewrite IH]. Qed.

Lemma append_assoc (a b c : string) : (a +:+ b) +:+ c = a +:+ (b +:+ c).
Proof. induction a as [|x a IH]; simpl; [reflexivity | now rewrite IH]. Qed.

Lemma append_length (a b : string) :
  String.length (a +:+ b) = (String.length a + String.length b)%nat.
Proof. induction a as [|x a IH]; simpl; [reflexivity | now rewrite IH]. Qed.

Lemma append_inv_head (a b c : string) : a +:+ b = a +:+ c -> b = c.
Proof. induction a as [|x a IH]; simpl; intros H; [assumption | injection H; auto]. Qed.

Lemma prefix_app (m post : string) : startswith m (m +:+ post) = true.
Proof.
  induction m as [|a m IH]; simpl; [reflexivity |].
  now rewrite Ascii.eqb_refl.
Qed.

Lemma prefix_inv (m s : string) :
  startswith m s = true -> exists post, s = m +:+ post.
Proof.
  revert s; induction m as [|a m IH]; intros s H; simpl in *.
  - exists s; reflexivity.
  - destruct s as [|b s]; [discriminate |].
    apply andb_true_iff in H as [Hab H]. apply Ascii.eqb_eq in Hab as ->.
    destruct (IH _ H) as [post ->]. exists post; reflexivity.
Qed.

Lemma contains_intro (m pre post : string) :
  contains m (pre +:+ m +:+ post) = true.
Proof.
  induction pre as [|c pre IH].
  - change ("" +:+ m +:+ post) with (m +:+ post).
    destruct (m +:+ post) eqn:E; unfold contains; fold contains;
      rewrite <- E, prefix_app; reflexivity.
  - change (contains m (String c (pre +:+ m +:+ post)) = true).
    unfold contains; fold contains. rewrite IH. apply orb_true_r.
Qed.

Lemma contains_inv (m s : string) :
  contains m s = true -> exists pre post, s = pre +:+ m +:+ post.
Proof.
  induction s as [|c s IH]; simpl; intros H.
  - rewrite orb_false_r in H. destruct (prefix_inv _ _ H) as [post ->].
    exists "", post; reflexivity.
  - apply orb_true_iff in H as [H|H].
    + destruct (prefix_inv _ _ H) as [post ->]. exists "", post; reflexivity.
    + destruct (IH H) as (pre & post & ->). exists (String c pre), post; reflexivity.
Qed.

(** A text holding [m1 m2] holds [m2]. *)
Lemma contains_tail (m1 m2 s : string) :
  contains (m1 +:+ m2) s = true -> contains m2 s = true.
Proof.
  intros H. destruct (contains_inv _ _ H) as (pre & post & ->).
  rewrite append_assoc, <- (append_assoc pre m1). apply contains_intro.
Qed.

Lemma contains_lacks (c : ascii) (m s : string) :
  lacks c m = false -> lacks c s = true -> contains m s = false.
Proof.
  intros Hm Hs. destruct (contains m s) eqn:E; [| reflexivity].
  destruct (contains_inv _ _ E) as (pre & post & ->).
  exfalso. clear E. induction pre as [|a pre IH]; simpl in Hs.
  - clear -Hm Hs. revert Hs. induction m as [|a m IH]; simpl in *; [discriminate |].
    destruct (Ascii.eqb a c); simpl in *; [discriminate | auto].
  - apply andb_true_iff in Hs as [_ Hs]. auto.
Qed.

Lemma lacks_app (c : ascii) (a b : string) :
  lacks c (a +:+ b) = lacks c a && lacks c b.
Proof.
  induction a as [|x a IH]; simpl; [reflexivity |].
  rewrite IH. now rewrite andb_assoc.
Qed.

(** *** split *)

Lemma split_go_nonempty (sep : string) (skip : nat) (s : string) :
  (1 <= length (split_go sep skip s))%nat.
Proof.
  revert skip; induction s as [|c s IH]; intros skip; simpl; [lia |].
  destruct skip; [| apply IH].
  destruct (startswith sep (String c s)); simpl; [lia |].
  specialize (IH 0%nat). destruct (split_go sep 0 s); simpl in *; lia.
Qed.

Lemma cons_hd_length (c : ascii) (l : list string) :
  l <> [] -> length (cons_hd c l) = length l.
Proof. destruct l; [congruence | reflexivity]. Qed.

(** [split(sep)] has a second piece exactly when [sep] occurs. *)
Lemma split_second (sep s : string) :
  sep <> "" ->
  (2 <=? length (split sep s))%nat = contains sep s.
Proof.
  intros Hsep. unfold split. induction s as [|c s IH].
  - destruct sep; [congruence | reflexivity].
  - cbn [split_go contains].
    destruct (startswith sep (String c s)) eqn:E.
    + pose proof (split_go_nonempty sep (String.length sep - 1) s).
      cbn [length orb]. apply Nat.leb_le. lia.
    + cbn [orb]. rewrite <- IH.
      pose proof (split_go_nonempty sep 0 s).
      rewrite cons_hd_length; [reflexivity |].
      intros E0; rewrite E0 in H; simpl in H; lia.
Qed.

Lemma split1_some (sep s : string) :
  sep <> "" -> contains sep s = true ->
  exists v, split sep s !! 1%nat = Some v.
Proof.
  intros Hsep Hc. rewrite <- (split_second sep s Hsep) in Hc.
  apply Nat.leb_le in Hc.
  destruct (split sep s) as [|x [|y l]]; simpl in Hc; try lia.
  exists y; reflexivity.
Qed.

Lemma split1_none (sep s : string) :
  sep <> "" -> contains sep s = false -> split sep s !! 1%nat = None.
Proof.
  intros Hsep Hc. rewrite <- (split_second sep s Hsep) in Hc.
  apply Nat.leb_gt in Hc.
  destruct (split sep s) as [|x [|y l]]; simpl in Hc; try lia; reflexivity.
Qed.

Lemma split_none (sep x : string) :
  contains sep x = false -> split_go sep 0 x = [x].
Proof.
  induction x as [|a x IH]; intros H; [reflexivity |].
  unfold contains in H; fold contains in H.
  apply orb_false_iff in H as [Hp Hc].
  cbn [split_go]. rewrite Hp, (IH Hc). reflexivity.
Qed.

Lemma lacks_single (c : ascii) (x : string) :
  lacks c x = true -> contains (String c "") x = false.
Proof.
  apply contains_lacks. simpl. now rewrite Ascii.eqb_refl.
Qed.

Lemma split_char_none (c : ascii) (x : string) :
  lacks c x = true -> split (String c "") x = [x].
Proof. intros H. apply split_none, lacks_single, H. Qed.

(** The first piece ends at the first separator character. *)
Lemma split_char_app (c : ascii) (x r : string) :
  lacks c x = true ->
  split (String c "") (x +:+ String c r) = x :: split (String c "") r.
Proof.
  unfold split. induction x as [|a x IH]; intros H.
  - cbn. now rewrite Ascii.eqb_refl.
  - simpl in H. apply andb_true_iff in H as [Ha Hx].
    change (String a x +:+ String c r) with (String a (x +:+ String c r)).
    cbn [split_go startswith]. rewrite Ascii.eqb_sym.
    destruct (Ascii.eqb a c); [discriminate |].
    cbn [andb]. rewrite (IH Hx). reflexivity.
Qed.

(** Characters that cannot start the separator join the current piece. *)
Lemma split_go_pass (sep : string) (c0 : ascii) (sep' n rest : string) :
  sep = String c0 sep' ->
  lacks c0 n = true ->
  split_go sep 0 (n +:+ rest) = prepend n (split_go sep 0 rest).
Proof.
  intros -> H. induction n as [|a n IH].
  - pose proof (split_go_nonempty (String c0 sep') 0 rest) as Hne.
    change ("" +:+ rest) with rest.
    destruct (split_go (String c0 sep') 0 rest); simpl in *; [lia | reflexivity].
  - simpl in H. apply andb_true_iff in H as [Ha Hn].
    change (String a n +:+ rest) with (String a (n +:+ rest)).
    cbn [split_go startswith]. rewrite Ascii.eqb_sym.
    destruct (Ascii.eqb a c0); [discriminate |].
    cbn [andb]. rewrite (IH Hn).
    pose proof (split_go_nonempty (String c0 sep') 0 rest) as Hne.
    destruct (split_go (String c0 sep') 0 rest); simpl in *; [lia | reflexivity].
Qed.

Lemma startswith_app (sep a rest : string) :
  startswith sep (a +:+ rest) = true -> overlap sep a = true.
Proof.
  unfold overlap. revert a; induction sep as [|c sep IH]; intros a H.
  - reflexivity.
  - destruct a as [|b a]; [reflexivity |].
    change (String b a +:+ rest) with (String b (a +:+ rest)) in H.
    cbn [startswith] in *. apply andb_true_iff in H as [Hcb H].
    rewrite (Ascii.eqb_sym b c), Hcb. cbn [andb]. auto.
Qed.

Lemma split_go_clear (sep a rest : string) :
  clear_of sep a = true ->
  split_go sep 0 (a +:+ rest) = prepend a (split_go sep 0 rest).
Proof.
  pose proof (split_go_nonempty sep 0 rest) as Hne.
  induction a as [|x a IH]; intros H.
  - change ("" +:+ rest) with rest.
    destruct (split_go sep 0 rest); simpl in *; [lia | reflexivity].
  - cbn [clear_of] in H. apply andb_true_iff in H as [Ho Ha].
    change (String x a +:+ rest) with (String x (a +:+ rest)).
    cbn [split_go].
    destruct (startswith sep (String x (a +:+ rest))) eqn:E.
    + apply (startswith_app sep (String x a) rest) in E.
      rewrite E in Ho. discriminate.
    + rewrite (IH Ha).
      destruct (split_go sep 0 rest); simpl in *; [lia | reflexivity].
Qed.

Lemma split_go_skip (sep x rest : string) :
  split_go sep (String.length x) (x +:+ rest) = split_go sep 0 rest.
Proof.
  induction x as [|c x IH]; [reflexivity |].
  change (String c x +:+ rest) with (String c (x +:+ rest)).
  cbn [String.length split_go]. exact IH.
Qed.

Lemma split_go_match (c : ascii) (sep rest : string) :
  split_go (String c sep) 0 (String c sep +:+ rest) =
  "" :: split_go (String c sep) 0 rest.
Proof.
  change (String c sep +:+ rest) with (String c (sep +:+ rest)).
  cbn [split_go].
  change (String c (sep +:+ rest)) with (String c sep +:+ rest).
  rewrite prefix_app. cbn [String.length].
  replace (S (String.length sep) - 1)%nat with (String.length sep) by lia.
  now rewrite split_go_skip.
Qed.

(** *** strip *)

Lemma rstrip_cons_keep (p : ascii -> bool) (c : ascii) (s : string) :
  (p c = false \/ rstrip_by p s <> "") ->
  rstrip_by p (String c s) = String c (rstrip_by p s).
Proof.
  intros H. cbn [rstrip_by]. destruct (rstrip_by p s) eqn:E.
  - destruct H as [-> | H]; [reflexivity | congruence].
  - reflexivity.
Qed.

(** A text ending in a character that stays is not trimmed on the right. *)
Lemma rstrip_end_keep (p : ascii -> bool) (a : string) (c : ascii) :
  p c = false -> rstrip_by p (a +:+ String c "") = a +:+ String c "".
Proof.
  intros Hc. induction a as [|x a IH].
  - cbn. now rewrite Hc.
  - change (String x a +:+ String c "") with (String x (a +:+ String c "")).
    rewrite rstrip_cons_keep; [now rewrite IH |].
    right. rewrite IH. destruct a; discriminate.
Qed.

Lemma rstrip_end_drop (p : ascii -> bool) (a : string) (c : ascii) :
  p c = true -> rstrip_by p (a +:+ String c "") = rstrip_by p a.
Proof.
  intros Hc. induction a as [|x a IH].
  - cbn. now rewrite Hc.
  - change (String x a +:+ String c "") with (String x (a +:+ String c "")).
    cbn [rstrip_by]. now rewrite IH.
Qed.

(** After a prefix that itself is not trimmed, only the rest is. *)
Lemma rstrip_after (p : ascii -> bool) (a b : string) :
  a <> "" -> rstrip_by p a = a ->
  rstrip_by p (a +:+ b) = a +:+ rstrip_by p b.
Proof.
  induction a as [|x a IH]; intros Hne Ha; [congruence |].
  change (String x a +:+ b) with (String x (a +:+ b)).
  change (String x a +:+ rstrip_by p b) with (String x (a +:+ rstrip_by p b)).
  destruct a as [|y a].
  - cbn [rstrip_by] in Ha. change ("" +:+ b) with b.
    change ("" +:+ rstrip_by p b) with (rstrip_by p b).
    apply rstrip_cons_keep. left. destruct (p x); [discriminate | reflexivity].
  - assert (Hr : rstrip_by p (String y a) = String y a).
    { cbn [rstrip_by] in Ha. cbn [rstrip_by].
      destruct (match rstrip_by p a with
                | "" => if p y then "" else String y ""
                | String a0 s => String y (String a0 s)
                end) eqn:E.
      - destruct (p x); discriminate.
      - congruence. }
    rewrite rstrip_cons_keep; [rewrite IH; [reflexivity | discriminate | exact Hr] |].
    right. rewrite IH; [discriminate | discriminate | exact Hr].
Qed.

Lemma rstrip_idem (p : ascii -> bool) (s : string) :
  rstrip_by p (rstrip_by p s) = rstrip_by p s.
Proof.
  induction s as [|c s IH]; [reflexivity |].
  cbn [rstrip_by]. destruct (rstrip_by p s) eqn:E.
  - destruct (p c) eqn:Hc; [reflexivity |]. cbn. now rewrite Hc.
  - rewrite rstrip_cons_keep; [now rewrite IH |]. right. rewrite IH. discriminate.
Qed.

Lemma lacks_rstrip (c : ascii) (p : ascii -> bool) (s : string) :
  lacks c s = true -> lacks c (rstrip_by p s) = true.
Proof.
  induction s as [|a s IH]; [reflexivity |]. simpl. intros H.
  apply andb_true_iff in H as [Ha Hs]. specialize (IH Hs).
  destruct (rstrip_by p s).
  - destruct (p a); simpl; [reflexivity | now rewrite Ha].
  - simpl in *. now rewrite Ha.
Qed.

Lemma lacks_lstrip (c : ascii) (p : ascii -> bool) (s : string) :
  lacks c s = true -> lacks c (lstrip_by p s) = true.
Proof.
  induction s as [|a s IH]; [reflexivity |]. simpl. intros H.
  destruct (p a); [| exact H].
  apply andb_true_iff in H as [_ Hs]. auto.
Qed.

Lemma lacks_strip (c : ascii) (s : string) :
  lacks c s = true -> lacks c (strip s) = true.
Proof. intros H. now apply lacks_lstrip, lacks_rstrip. Qed.

Lemma strip_rstrip (s : string) : strip (rstrip_by is_space s) = strip s.
Proof. unfold strip. now rewrite rstrip_idem. Qed.

(** A text that starts and ends solid is trimmed only after it. *)
Lemma strip_after (c : ascii) (m x : string) :
  is_space c = false ->
  rstrip_by is_space (String c m) = String c m ->
  strip (String c m +:+ x) = String c m +:+ rstrip_by is_space x.
Proof.
  intros Hc Hm. unfold strip. rewrite rstrip_after; [| discriminate | exact Hm].
  change (String c m +:+ rstrip_by is_space x)
    with (String c (m +:+ rstrip_by is_space x)).
  cbn [lstrip_by]. now rewrite Hc.
Qed.

Lemma append_not_empty (a b : string) : b <> "" -> a +:+ b <> "".
Proof. destruct a; [trivial | discriminate]. Qed.

(** Before a text that is not trimmed, nothing is. *)
Lemma rstrip_before (p : ascii -> bool) (a b : string) :
  b <> "" -> rstrip_by p b = b -> rstrip_by p (a +:+ b) = a +:+ b.
Proof.
  intros Hne Hb. induction a as [|x a IH]; [exact Hb |].
  change (String x a +:+ b) with (String x (a +:+ b)).
  rewrite rstrip_cons_keep; [now rewrite IH |].
  right. rewrite IH. now apply append_not_empty.
Qed.

Lemma lstrip_length (p : ascii -> bool) (s : string) :
  (String.length (lstrip_by p s) <= String.length s)%nat.
Proof.
  induction s as [|c s IH]; simpl; [lia |].
  destruct (p c); simpl; lia.
Qed.

Lemma lstrip_after (p : ascii -> bool) (a b : string) :
  a <> "" -> lstrip_by p a = a -> lstrip_by p (a +:+ b) = a +:+ b.
Proof.
  destruct a as [|c a]; [congruence |]. intros _ H.
  change (String c a +:+ b) with (String c (a +:+ b)).
  cbn [lstrip_by] in *. destruct (p c); [| reflexivity].
  pose proof (lstrip_length p a) as Hl. rewrite H in Hl. simpl in Hl. lia.
Qed.

(** Trimming gives a part of the text. *)
Lemma rstrip_part (p : ascii -> bool) (s : string) :
  exists t, s = rstrip_by p s +:+ t.
Proof.
  induction s as [|c s [t IH]]; [exists ""; reflexivity |].
  cbn [rstrip_by]. destruct (rstrip_by p s) eqn:E.
  - destruct (p c).
    + exists (String c s); reflexivity.
    + exists t. cbn. now rewrite IH at 1.
  - exists t. cbn. now rewrite IH at 1.
Qed.

Lemma contains_rstrip (m : string) (p : ascii -> bool) (s : string) :
  contains m s = false -> contains m (rstrip_by p s) = false.
Proof.
  intros H. destruct (contains m (rstrip_by p s)) eqn:E; [| reflexivity].
  destruct (contains_inv _ _ E) as (pre & post & Hs).
  destruct (rstrip_part p s) as [t Ht]. rewrite Hs in Ht.
  rewrite Ht in H. rewrite !append_assoc in H.
  now rewrite contains_intro in H.
Qed.

End StrFacts.

(* ================================================================== *)
(** ** The parser *)
(* ================================================================== *)

Module ParserFacts.
Import PyStr Parser Listing StrFacts.

Lemma colon_not_empty : ":" <> "".
Proof. discriminate. Qed.

Lemma field_some (line : string) :
  contains ":" line = true -> exists v, field line = Some v.
Proof.
  intros H. destruct (split1_some ":" line colon_not_empty H) as [v Hv].
  exists (strip v). unfold field, split1. now rewrite Hv.
Qed.

(** Each field marker ends in a colon. *)
Lemma marker_has_colon (m line : string) :
  In m [marker_type; marker_codec; marker_language; marker_title] ->
  contains m line = true -> contains ":" line = true.
Proof.
  intros Hin H. simpl in Hin.
  destruct Hin as [<- | [<- | [<- | [<- | []]]]].
  - apply (contains_tail "|  + Track type" ":"), H.
  - apply (contains_tail "|  + Codec ID" ":"), H.
  - apply (contains_tail "|  + Language" ":"), H.
  - apply (contains_tail "|  + Title" ":"), H.
Qed.

Lemma id_field_defined (line : string) :
  id_field line = None <-> contains "mkvextract:" line = false.
Proof.
  unfold id_field, split1. split.
  - intros H. destruct (contains "mkvextract:" line) eqn:E; [| reflexivity].
    destruct (split1_some "mkvextract:" line ltac:(discriminate) E) as [v Hv].
    rewrite Hv in H. discriminate.
  - intros H. now rewrite (split1_none "mkvextract:" line ltac:(discriminate) H).
Qed.

(** A line the loop passes over leaves the state as it is. *)
Lemma parse_line_skip (st : PState) (raw : string) :
  no_marker raw || ietf_language_line raw = true -> parse_line st raw = Some st.
Proof.
  unfold no_marker, ietf_language_line, holds, parse_line.
  destruct st as [tracks cur].
  destruct (contains marker_number (strip raw)),
           (contains marker_type (strip raw)),
           (contains marker_codec (strip raw)),
           (contains marker_language (strip raw)),
           (contains "IETF" (strip raw)); simpl; intros H;
    try discriminate; reflexivity.
Qed.

Lemma parse_line_defined (st : PState) (raw : string) :
  if line_ok raw then exists st', parse_line st raw = Some st'
  else parse_line st raw = None.
Proof.
  unfold line_ok, holds, parse_line. destruct st as [tracks cur].
  set (line := strip raw).
  destruct (contains marker_number line) eqn:En; cbn [negb orb].
  - destruct (contains "mkvextract:" line) eqn:Ex.
    + destruct (id_field line) eqn:Ei.
      * destruct (truthy (track_id cur)); eexists; reflexivity.
      * apply id_field_defined in Ei. congruence.
    + apply id_field_defined in Ex. rewrite Ex.
      destruct (truthy (track_id cur)); reflexivity.
  - destruct (contains marker_type line) eqn:Et.
    { destruct (field_some line) as [v ->]; [| eexists; reflexivity].
      apply (marker_has_colon marker_type); simpl; auto. }
    destruct (contains marker_codec line) eqn:Ec.
    { destruct (field_some line) as [v ->]; [| eexists; reflexivity].
      apply (marker_has_colon marker_codec); simpl; auto. }
    destruct (contains marker_language line) eqn:El; cbn [andb].
    2:{ eexists; reflexivity. }
    destruct (contains "IETF" line); cbn [negb]; [eexists; reflexivity |].
    destruct (field_some line) as [v ->]; [| eexists; reflexivity].
    apply (marker_has_colon marker_language); simpl; auto.
Qed.

Lemma parse_lines_defined (lines : list string) (st : PState) :
  if forallb line_ok lines then exists st', parse_lines st lines = Some st'
  else parse_lines st lines = None.
Proof.
  revert st; induction lines as [|raw lines IH]; intros st; cbn [forallb parse_lines].
  - eexists; reflexivity.
  - pose proof (parse_line_defined st raw) as H.
    destruct (line_ok raw); cbn [andb].
    + destruct H as [st' ->]. apply IH.
    + rewrite H. reflexivity.
Qed.

Lemma parse_lines_app (l1 l2 : list string) (st : PState) :
  parse_lines st (l1 ++ l2) =
  match parse_lines st l1 with
  | Some st' => parse_lines st' l2
  | None => None
  end.
Proof.
  revert st; induction l1 as [|x l1 IH]; intros st; simpl; [reflexivity |].
  destruct (parse_line st x); [apply IH | reflexivity].
Qed.

Lemma plain_colon (w : string) : plain w = true -> lacks ":" w = true.
Proof. unfold plain. intros H. now apply andb_true_iff in H as [H _]. Qed.

Lemma plain_line (w : string) : plain w = true -> lacks "010" w = true.
Proof. unfold plain. intros H. now apply andb_true_iff in H as [_ H]. Qed.

(** The three field lines: the marker, then a value without a colon. *)
Ltac field_line marker before_colon :=
  let Hs := fresh "Hs" in
  let Hw' := fresh "Hw'" in
  match goal with
  | Hw : lacks ":" ?w = true |- _ =>
      unfold parse_line;
      assert (Hs : strip (marker +:+ w) = marker +:+ rstrip_by is_space w)
        by (apply strip_after; reflexivity);
      rewrite Hs;
      assert (Hw' : lacks ":" (rstrip_by is_space w) = true)
        by (now apply lacks_rstrip);
      repeat match goal with
        | |- context [contains ?m (marker +:+ ?x)] =>
            lazymatch m with
            | marker => rewrite (contains_intro marker "" x : contains m (marker +:+ x) = true)
            | _ =>
                let E := fresh "E" in
                assert (E : contains m (marker +:+ x) = false)
                  by (unfold marker_number, marker_type, marker_codec,
                        marker_language; simpl;
                      first [ apply (contains_lacks ":"); [reflexivity | assumption]
                            | assumption ]);
                rewrite E; clear E
            end
        end;
      cbn [andb negb];
      unfold field, split1;
      change (marker +:+ rstrip_by is_space w)
        with (before_colon +:+ String ":" (rstrip_by is_space w));
      rewrite split_char_app by reflexivity;
      rewrite split_char_none by assumption;
      cbn; rewrite strip_rstrip; reflexivity
  end.

Lemma type_line (tracks : list Track) (cur : Track) (w : string) :
  lacks ":" w = true ->
  parse_line (tracks, cur) (marker_type +:+ w) =
  Some (tracks, set_type cur (strip w)).
Proof. intros Hw. field_line marker_type "|  + Track type". Qed.

Lemma codec_line (tracks : list Track) (cur : Track) (w : string) :
  lacks ":" w = true ->
  parse_line (tracks, cur) (marker_codec +:+ w) =
  Some (tracks, set_codec cur (strip w)).
Proof. intros Hw. field_line marker_codec "|  + Codec ID". Qed.

Lemma language_line (tracks : list Track) (cur : Track) (w : string) :
  lacks ":" w = true -> contains "IETF" w = false ->
  parse_line (tracks, cur) (marker_language +:+ w) =
  Some (tracks, set_language cur (strip w)).
Proof.
  intros Hw Hi.
  assert (Hi' : contains "IETF" (rstrip_by is_space w) = false)
    by (now apply contains_rstrip).
  field_line marker_language "|  + Language".
Qed.

Lemma digit_not_m (c : ascii) : is_digit c = true -> Ascii.eqb c "m" = false.
Proof. destruct c as [[] [] [] [] [] [] [] []]; intros H; try reflexivity; discriminate H. Qed.

Lemma digit_not_newline (c : ascii) : is_digit c = true -> Ascii.eqb c "010" = false.
Proof. destruct c as [[] [] [] [] [] [] [] []]; intros H; try reflexivity; discriminate H. Qed.

Lemma digits_clear (n : string) :
  all_chars is_digit n = true -> clear_of "mkvextract:" n = true.
Proof.
  induction n as [|c n IH]; [reflexivity |]. cbn [all_chars clear_of].
  intros H. apply andb_true_iff in H as [Hc Hn]. rewrite (IH Hn), andb_true_r.
  unfold overlap. cbn [startswith].
  rewrite (digit_not_m c Hc), Ascii.eqb_sym, (digit_not_m c Hc). reflexivity.
Qed.

Lemma digits_one_line (n : string) :
  all_chars is_digit n = true -> lacks "010" n = true.
Proof.
  induction n as [|c n IH]; [reflexivity |]. cbn [all_chars lacks].
  intros H. apply andb_true_iff in H as [Hc Hn].
  now rewrite (digit_not_newline c Hc), (IH Hn).
Qed.

Lemma wf_id_inv (i : string) :
  wf_id i = true ->
  plain i = true /\ i <> "" /\ lstrip_by is_space i = i /\
  rstrip_by (is_char ")") i = i.
Proof.
  unfold wf_id, truthy. intros H.
  apply andb_true_iff in H as [H H4]. apply andb_true_iff in H as [H H3].
  apply andb_true_iff in H as [H1 H2].
  apply String.eqb_eq in H3, H4. repeat split; try assumption.
  intros ->. discriminate.
Qed.

Lemma closed_solid (p : ascii -> bool) (i : string) :
  p ")"%char = false ->
  i +:+ ")" <> "" /\ rstrip_by p (i +:+ ")") = i +:+ ")".
Proof.
  intros Hp. split; [apply append_not_empty; discriminate |].
  now apply rstrip_end_keep.
Qed.

(** The text after the qualifier of a track-number line. *)
Lemma header_split (n i : string) :
  all_chars is_digit n = true -> plain i = true ->
  split "mkvextract:" (header n i) !! 1%nat = Some (" " +:+ i +:+ ")").
Proof.
  intros Hn Hi. unfold split.
  change (header n i)
    with ("|  + Track number: " +:+ n +:+ " (track ID for mkvmerge & " +:+
          "mkvextract:" +:+ " " +:+ i +:+ ")").
  rewrite (split_go_clear "mkvextract:" "|  + Track number: ") by reflexivity.
  rewrite (split_go_clear "mkvextract:" n) by now apply digits_clear.
  rewrite (split_go_clear "mkvextract:" " (track ID for mkvmerge & ")
    by reflexivity.
  rewrite split_go_match.
  rewrite split_none; [reflexivity |].
  apply (contains_lacks ":"); [reflexivity |].
  change (" " +:+ i +:+ ")") with (String " " (i +:+ ")")).
  cbn [lacks]. rewrite lacks_app, (plain_colon i Hi). reflexivity.
Qed.

Lemma header_id (n i : string) :
  all_chars is_digit n = true -> wf_id i = true ->
  id_field (header n i) = Some i.
Proof.
  intros Hn Hi. destruct (wf_id_inv i Hi) as (Hp & Hne & Hl & Hr).
  unfold id_field, split1. rewrite (header_split n i Hn Hp). cbn [fmap option_fmap option_map].
  f_equal. unfold strip.
  destruct (closed_solid is_space i eq_refl) as [Hc1 Hc2].
  rewrite (rstrip_before is_space " " (i +:+ ")") Hc1 Hc2).
  change (" " +:+ i +:+ ")") with (String " " (i +:+ ")")).
  cbn [lstrip_by is_space]. rewrite (lstrip_after is_space i ")" Hne Hl).
  rewrite rstrip_end_drop by reflexivity. exact Hr.
Qed.

Lemma header_strip (n i : string) : strip (header n i) = header n i.
Proof.
  unfold strip. destruct (closed_solid is_space i eq_refl) as [Hc1 Hc2].
  assert (H : rstrip_by is_space (header n i) = header n i).
  { unfold header.
    apply rstrip_before.
    - now apply append_not_empty, append_not_empty.
    - apply rstrip_before.
      + now apply append_not_empty.
      + now apply rstrip_before. }
  rewrite H. reflexivity.
Qed.

(** A track-number line closes the record in progress, if it has an id,
    and opens the next one. *)
Lemma header_line (tracks : list Track) (cur : Track) (n i : string) :
  all_chars is_digit n = true -> wf_id i = true ->
  parse_line (tracks, cur) (header n i) =
  Some (if truthy (track_id cur) then (tracks ++ [cur], set_id fresh i)
        else (tracks, set_id cur i)).
Proof.
  intros Hn Hi. unfold parse_line. rewrite header_strip.
  rewrite (contains_intro marker_number "" (" " +:+ n +:+
             " (track ID for mkvmerge & mkvextract: " +:+ i +:+ ")")
           : contains marker_number (header n i) = true).
  rewrite (header_id n i Hn Hi).
  destruct (truthy (track_id cur)); reflexivity.
Qed.

Lemma attr_line (tracks : list Track) (cur : Track) (a : Attr) :
  wf_attr a = true ->
  parse_line (tracks, cur) (render_attr a) = Some (tracks, apply_attr cur a).
Proof.
  destruct a as [w | w | w | raw | raw]; cbn [wf_attr render_attr apply_attr];
    intros H.
  - apply type_line, plain_colon, H.
  - apply codec_line, plain_colon, H.
  - apply andb_true_iff in H as [Hp Hi]. apply negb_true_iff in Hi.
    apply language_line; [apply plain_colon, Hp | exact Hi].
  - apply andb_true_iff in H as [_ H]. apply parse_line_skip.
    rewrite H. apply orb_true_r.
  - apply andb_true_iff in H as [_ H]. apply parse_line_skip.
    now rewrite H.
Qed.

Lemma attr_lines (attrs : list Attr) (tracks : list Track) (cur : Track) :
  forallb wf_attr attrs = true ->
  parse_lines (tracks, cur) (map render_attr attrs) =
  Some (tracks, fold_left apply_attr attrs cur).
Proof.
  revert cur; induction attrs as [|a attrs IH]; intros cur H; [reflexivity |].
  cbn [forallb] in H. apply andb_true_iff in H as [Ha Hr].
  cbn [map parse_lines fold_left]. rewrite (attr_line tracks cur a Ha).
  apply IH, Hr.
Qed.

Lemma fold_latest (attrs : list Attr) (t : Track) :
  fold_left apply_attr attrs t =
  {| track_id := track_id t;
     track_type := latest type_of (track_type t) attrs;
     language := latest language_of (language t) attrs;
     codec := latest codec_of (codec t) attrs |}.
Proof.
  revert t; induction attrs as [|a attrs IH]; intros t.
  - destruct t; reflexivity.
  - cbn [fold_left latest]. rewrite IH. destruct a; reflexivity.
Qed.

Lemma block_lines (b : Block) (tracks : list Track) (cur : Track) :
  between cur -> wf_block b = true ->
  parse_lines (tracks, cur) (render_block b) =
  Some (finish (tracks, cur), track_of_block b).
Proof.
  intros Hcur H. unfold wf_block in H.
  apply andb_true_iff in H as [H Ha]. apply andb_true_iff in H as [Hn Hi].
  unfold render_block. cbn [parse_lines].
  rewrite (header_line tracks cur _ _ Hn Hi).
  assert (E : (if truthy (track_id cur)
               then (tracks ++ [cur], set_id fresh (b_id b))
               else (tracks, set_id cur (b_id b))) =
              (finish (tracks, cur), set_id fresh (b_id b))).
  { unfold finish. destruct Hcur as [-> | ->]; reflexivity. }
  rewrite E, (attr_lines _ _ _ Ha), fold_latest. reflexivity.
Qed.

Lemma blocks_lines (blocks : list Block) (tracks : list Track) (cur : Track) :
  between cur -> forallb wf_block blocks = true ->
  exists st, parse_lines (tracks, cur) (flat_map render_block blocks) = Some st /\
             finish st = finish (tracks, cur) ++ map track_of_block blocks.
Proof.
  revert tracks cur; induction blocks as [|b blocks IH]; intros tracks cur Hcur H.
  - exists (tracks, cur). split; [reflexivity |]. cbn [map]. now rewrite app_nil_r.
  - cbn [forallb] in H. apply andb_true_iff in H as [Hb Hr].
    cbn [flat_map]. rewrite parse_lines_app, (block_lines b tracks cur Hcur Hb).
    assert (Hid : truthy (track_id (track_of_block b)) = true).
    { unfold wf_block in Hb. apply andb_true_iff in Hb as [Hb _].
      apply andb_true_iff in Hb as [_ Hi]. unfold wf_id in Hi.
      apply andb_true_iff in Hi as [Hi _]. apply andb_true_iff in Hi as [Hi _].
      apply andb_true_iff in Hi as [_ Hi]. exact Hi. }
    destruct (IH (finish (tracks, cur)) (track_of_block b) (or_intror Hid) Hr)
      as (st & Hst & Hfin).
    exists st. split; [exact Hst |]. rewrite Hfin.
    unfold finish at 1. rewrite Hid. cbn [map]. now rewrite <- app_assoc.
Qed.

Lemma before_lines (before : list string) (st : PState) :
  forallb wf_before before = true -> parse_lines st before = Some st.
Proof.
  induction before as [|raw before IH]; intros H; [reflexivity |].
  cbn [forallb] in H. apply andb_true_iff in H as [Hr Hb].
  unfold wf_before in Hr. apply andb_true_iff in Hr as [_ Hr].
  cbn [parse_lines]. rewrite (parse_line_skip st raw Hr). apply IH, Hb.
Qed.

Lemma split_join (lines : list string) :
  lines <> [] -> forallb (lacks "010") lines = true ->
  split newline (join newline lines) = lines.
Proof.
  induction lines as [|x lines IH]; [congruence |]. intros _ H.
  cbn [forallb] in H. apply andb_true_iff in H as [Hx Hr].
  destruct lines as [|y lines].
  - cbn [join]. now apply split_char_none.
  - change (join newline (x :: y :: lines))
      with (x +:+ String "010" (join newline (y :: lines))).
    unfold newline, newline_ in *. rewrite (split_char_app "010" x _ Hx).
    f_equal. apply IH; [discriminate | exact Hr].
Qed.

Lemma header_one_line (n i : string) :
  all_chars is_digit n = true -> plain i = true ->
  lacks "010" (header n i) = true.
Proof.
  intros Hn Hi. unfold header.
  rewrite !lacks_app, (digits_one_line n Hn), (plain_line i Hi). reflexivity.
Qed.

Lemma attr_one_line (a : Attr) :
  wf_attr a = true -> lacks "010" (render_attr a) = true.
Proof.
  destruct a as [w | w | w | raw | raw]; cbn [wf_attr render_attr]; intros H.
  - rewrite lacks_app, (plain_line w H). reflexivity.
  - rewrite lacks_app, (plain_line w H). reflexivity.
  - apply andb_true_iff in H as [H _].
    rewrite lacks_app, (plain_line w H). reflexivity.
  - now apply andb_true_iff in H as [H _].
  - now apply andb_true_iff in H as [H _].
Qed.

Lemma block_one_line (b : Block) :
  wf_block b = true -> forallb (lacks "010") (render_block b) = true.
Proof.
  unfold wf_block. intros H.
  apply andb_true_iff in H as [H Ha]. apply andb_true_iff in H as [Hn Hi].
  destruct (wf_id_inv _ Hi) as (Hp & _).
  unfold render_block. cbn [forallb]. rewrite (header_one_line _ _ Hn Hp).
  cbn [andb]. rewrite forallb_forall in *. intros l Hl.
  apply in_map_iff in Hl as (a & <- & Hin). apply attr_one_line, Ha, Hin.
Qed.

Lemma listing_one_line (before : list string) (blocks : list Block) :
  forallb wf_before before = true -> forallb wf_block blocks = true ->
  forallb (lacks "010") (before ++ flat_map render_block blocks) = true.
Proof.
  intros Hb Hk. rewrite forallb_app. apply andb_true_iff. split.
  - rewrite forallb_forall in *. intros l Hl. specialize (Hb l Hl).
    unfold wf_before in Hb. now apply andb_true_iff in Hb as [Hb _].
  - induction blocks as [|b blocks IH]; [reflexivity |].
    cbn [forallb] in Hk. apply andb_true_iff in Hk as [H1 H2].
    cbn [flat_map]. rewrite forallb_app, (block_one_line b H1). apply IH, H2.
Qed.

Lemma parse_listing (before : list string) (blocks : list Block) :
  forallb wf_before before = true -> forallb wf_block blocks = true ->
  parse_text (listing before blocks) = Ret (map track_of_block blocks).
Proof.
  intros Hb Hk. unfold parse_text, listing.
  destruct (before ++ flat_map render_block blocks) as [|l0 ls] eqn:E.
  - destruct before; [| discriminate]. destruct blocks; [| discriminate].
    reflexivity.
  - rewrite split_join; [| discriminate |].
    2:{ rewrite <- E. now apply listing_one_line. }
    rewrite <- E, parse_lines_app, (before_lines before _ Hb).
    destruct (blocks_lines blocks [] fresh (or_introl eq_refl) Hk)
      as (st & -> & Hfin).
    now rewrite Hfin.
Qed.

End ParserFacts.

(** C5: a listing of N well-formed track blocks parses to the N records of
    the blocks, in order, each with the id, type, language and codec of its
    block ([track_of_block]: the last value of each kind, trimmed;
    "undefined" for the language when the block has no language line); a
    track-number line closes a record that has an id before it opens the
    next; the record in progress at the end is kept when it has an id; a
    language line qualified with "IETF" changes nothing. *)
Theorem C5_parser_reads_blocks (before : list string) (blocks : list Listing.Block) :
  forallb Listing.wf_before before = true ->
  forallb Listing.wf_block blocks = true ->
  Parser.parse_text (Listing.listing before blocks) =
    Ret (map Listing.track_of_block blocks) /\
  (forall tracks cur n i,
     Listing.all_chars Listing.is_digit n = true -> Listing.wf_id i = true ->
     Parser.truthy (track_id cur) = true ->
     Parser.parse_line (tracks, cur) (Listing.header n i) =
     Some (tracks ++ [cur], Parser.set_id Parser.fresh i)) /\
  (forall tracks cur,
     Parser.finish (tracks, cur) =
     if Parser.truthy (track_id cur) then tracks ++ [cur] else tracks) /\
  (forall st raw,
     Listing.ietf_language_line raw = true -> Parser.parse_line st raw = Some st) /\
  (forall b,
     omap Listing.language_of (Listing.b_attrs b) = [] ->
     language (Listing.track_of_block b) = "undefined").
Proof.
  intros Hb Hk. repeat split.
  - now apply ParserFacts.parse_listing.
  - intros tracks cur n i Hn Hi Hcur.
    rewrite (ParserFacts.header_line tracks cur n i Hn Hi), Hcur. reflexivity.
  - intros st raw H. apply ParserFacts.parse_line_skip. rewrite H. apply orb_true_r.
  - intros b. unfold Listing.track_of_block. cbn [language].
    generalize "undefined". induction (Listing.b_attrs b) as [|a attrs IH];
      intros d H; [reflexivity |].
    cbn [Listing.latest]. destruct a; cbn in H; try discriminate; now apply IH.
Qed.

Lemma C5_parser_reads_blocks_witness :
  Parser.parse_text
    (Listing.listing
       ["|+ Tracks"; "| + Track"]
       [Listing.mkBlock "1" "0"
          [Listing.AOther "|  + Track UID: 1234";
           Listing.AType " video";
           Listing.ACodec " V_MPEG4/ISO/AVC"];
        Listing.mkBlock "2" "1"
          [Listing.AType " audio";
           Listing.ALanguage " jpn";
           Listing.AIetf "|  + Language: ja (IETF BCP 47)";
           Listing.ACodec " A_AAC"]]) =
  Ret [mkTrack "0" "video" "undefined" "V_MPEG4/ISO/AVC";
       mkTrack "1" "audio" "jpn" "A_AAC"].
Proof.
  apply (C5_parser_reads_blocks
           ["|+ Tracks"; "| + Track"]
           [Listing.mkBlock "1" "0"
              [Listing.AOther "|  + Track UID: 1234";
               Listing.AType " video";
               Listing.ACodec " V_MPEG4/ISO/AVC"];
            Listing.mkBlock "2" "1"
              [Listing.AType " audio";
               Listing.ALanguage " jpn";
               Listing.AIetf "|  + Language: ja (IETF BCP 47)";
               Listing.ACodec " A_AAC"]]); reflexivity.
Defined.

(** C8, as the code has it: the parser returns a track list exactly on the
    texts whose every track-number line carries the "mkvextract:"
    qualifier, and raises IndexError on the others; a line that matches no
    marker is passed over, whatever the state. *)
Theorem C8_parser_defined_iff_ids_qualified (stdout : string) :
  (exists tracks,
     Parser.parse_text stdout =
     if Listing.well_marked stdout then Ret tracks else Raise IndexError) /\
  (forall st raw, Listing.no_marker raw = true -> Parser.parse_line st raw = Some st).
Proof.
  split.
  - unfold Parser.parse_text, Listing.well_marked.
    pose proof (ParserFacts.parse_lines_defined
                  (PyStr.split Parser.newline stdout) ([], Parser.fresh)) as H.
    unfold Listing.line_ok in H.
    destruct (forallb _ _).
    + destruct H as [st' ->]. eexists; reflexivity.
    + rewrite H. exists []; reflexivity.
  - intros st raw H. apply ParserFacts.parse_line_skip. now rewrite H.
Qed.

Lemma C8_parser_defined_witness :
  Listing.no_marker "| + Track" = true /\
  Parser.parse_line ([], Parser.fresh) "| + Track" = Some ([], Parser.fresh).
Proof.
  split; [reflexivity |].
  apply (proj2 (C8_parser_defined_iff_ids_qualified "")). reflexivity.
Defined.

(** C8 as stated fails: a track-number line without the qualifier makes
    the parser raise IndexError. *)
Lemma C8_parser_raises_without_qualifier :
  ~ (exists tracks, Parser.parse_text "|  + Track number: 1" = Ret tracks).
Proof. intros [tracks H]. vm_compute in H. discriminate. Qed.

(** C6, as the code has it: the value of a field line is the text between
    the first and the second colon of the line, trimmed; it is the whole
    text after the first colon only when that text holds no colon.  The id
    of a track-number line in the tool's format is the text after the
    qualifier without the closing parenthesis. *)
Theorem C6_field_stops_at_second_colon (a b c : string) :
  PyStr.lacks ":" a = true -> PyStr.lacks ":" b = true ->
  Parser.field (a +:+ ":" +:+ b +:+ ":" +:+ c) = Some (PyStr.strip b) /\
  Parser.field (a +:+ ":" +:+ b) = Some (PyStr.strip b) /\
  (forall n i,
     Listing.all_chars Listing.is_digit n = true -> Listing.wf_id i = true ->
     Parser.id_field (Listing.header n i) = Some i).
Proof.
  intros Ha Hb. unfold Parser.field, Parser.split1. repeat split.
  - change (a +:+ ":" +:+ b +:+ ":" +:+ c)
      with (a +:+ String ":" (b +:+ String ":" c)).
    rewrite (StrFacts.split_char_app ":" a _ Ha).
    rewrite (StrFacts.split_char_app ":" b _ Hb). reflexivity.
  - change (a +:+ ":" +:+ b) with (a +:+ String ":" b).
    rewrite (StrFacts.split_char_app ":" a _ Ha).
    rewrite (StrFacts.split_char_none ":" b Hb). reflexivity.
  - intros n i. apply ParserFacts.header_id.
Qed.

Lemma C6_title_with_colon_is_cut :
  Parser.field ("|  + Title" +:+ ":" +:+ " Star Wars" +:+ ":" +:+ " A New Hope")
  = Some "Star Wars".
Proof.
  refine (eq_trans
            (proj1 (C6_field_stops_at_second_colon
                      "|  + Title" " Star Wars" " A New Hope" _ _)) _);
    vm_compute; reflexivity.
Defined.

(** C10: the preset "480p" is 640 by 360 at the requested rate, and every
    preset hands the requested rate back unchanged. *)
Theorem C10_preset_480p_is_640_by_360 (f : Z) :
  Stitcher.get_resolution_and_fps "480p" f = Ret (640, 360, f) /\
  Forall (fun preset =>
            exists w h, Stitcher.get_resolution_and_fps preset f = Ret (w, h, f))
         ["480p"; "720p"; "1080p"; "4K"] /\
  (forall preset w h f',
     Stitcher.get_resolution_and_fps preset f = Ret (w, h, f') -> f' = f).
Proof.
  split; [reflexivity |]. split.
  - repeat constructor; eexists; eexists; reflexivity.
  - intros preset w h f'. unfold Stitcher.get_resolution_and_fps.
    repeat (destruct (String.eqb preset _); [intros [= _ _ <-]; reflexivity |]).
    discriminate.
Qed.

Lemma C10_preset_witness :
  Stitcher.get_resolution_and_fps "480p" 30 = Ret (640, 360, 30).
Proof. apply (C10_preset_480p_is_640_by_360 30). Defined.

(* ================================================================== *)
(** ** Running in a world *)
(* ================================================================== *)

Module RunFacts.
Import PyStr Os.

Lemma for_each_print {A} (f : A -> string) (l : list A) (w : World) :
  for_each l (fun x => print (f x)) w = (Ret tt, with_out (out w ++ map f l) w).
Proof.
  revert w; induction l as [|x l IH]; intros w; cbn [for_each map].
  - unfold ret. rewrite app_nil_r. destruct w; reflexivity.
  - unfold bind, print at 1. rewrite IH. cbn. now rewrite <- app_assoc.
Qed.

(** *** Steps of a run *)

Lemma bind_ret {A B} (m : M A) (k : A -> M B) (w w' : World) (a : A) :
  m w = (Ret a, w') -> bind m k w = k a w'.
Proof. intros H. unfold bind. now rewrite H. Qed.

Lemma bind_exit {A B} (m : M A) (k : A -> M B) (w w' : World) (c : Z) :
  m w = (Exit c, w') -> bind m k w = (Exit c, w').
Proof. intros H. unfold bind. now rewrite H. Qed.

Lemma bind_raise {A B} (m : M A) (k : A -> M B) (w w' : World) (e : Exn) :
  m w = (Raise e, w') -> bind m k w = (Raise e, w').
Proof. intros H. unfold bind. now rewrite H. Qed.

Lemma print_run (s : string) (w : World) :
  print s w = (Ret tt, with_out (out w ++ [s]) w).
Proof. reflexivity. Qed.

Lemma run_command_ok (tools : Tools) (cmd : list string) (w : World)
    (so se : string) (fs : gmap string string) :
  tools cmd (files w) = Ran 0 so se fs ->
  Mkv.run_command tools cmd w =
  (Ret (so, se), with_files fs (with_cmds (cmds w ++ [cmd]) w)).
Proof. intros H. unfold Mkv.run_command. now rewrite H. Qed.

Lemma getsize_ok (p content : string) (w : World) :
  files w !! p = Some content ->
  getsize p w = (Ret (Z.of_nat (String.length content)), w).
Proof. intros H. unfold getsize. now rewrite H. Qed.

Lemma replace_ok (src dst content : string) (w : World) :
  files w !! src = Some content ->
  replace src dst w =
  (Ret tt, with_files (<[dst := content]> (delete src (files w))) w).
Proof. intros H. unfold replace. now rewrite H. Qed.

Lemma remove_ok (p content : string) (w : World) :
  files w !! p = Some content ->
  remove p w = (Ret tt, with_files (delete p (files w)) w).
Proof. intros H. unfold remove. now rewrite H. Qed.

Lemma take_drop (n : nat) (s : string) : s = take n s +:+ drop n s.
Proof.
  revert s; induction n as [|n IH]; intros [|c s]; cbn; try reflexivity.
  now rewrite <- IH.
Qed.

Lemma rfind_found (c : ascii) (s : string) :
  0 <= rfind c s -> exists e, drop (Z.to_nat (rfind c s)) s = String c e.
Proof.
  induction s as [|a s IH]; cbn [rfind]; [lia |].
  destruct (0 <=? rfind c s) eqn:E.
  - intros _. apply Z.leb_le in E. destruct (IH E) as [e He].
    exists e. replace (Z.to_nat (rfind c s + 1)) with (S (Z.to_nat (rfind c s))) by lia.
    exact He.
  - destruct (Ascii.eqb a c) eqn:Eac; [| lia].
    intros _. apply Ascii.eqb_eq in Eac as ->. exists s. reflexivity.
Qed.

(** [splitext] cuts the path in two; the extension is empty or starts
    with a dot. *)
Lemma splitext_parts (p : string) :
  p = fst (splitext p) +:+ snd (splitext p) /\
  (snd (splitext p) = "" \/ exists e, snd (splitext p) = String "." e).
Proof.
  unfold splitext.
  destruct (rfind "/" p <? rfind "." p) eqn:E.
  2:{ cbn. rewrite StrFacts.append_nil_r. auto. }
  destruct (all_dots _).
  { cbn. rewrite StrFacts.append_nil_r. auto. }
  cbn [fst snd]. split; [apply take_drop |]. right.
  apply rfind_found. apply Z.ltb_lt in E.
  assert (-1 <= rfind "/" p); [| lia].
  clear. induction p as [|a p IH]; cbn [rfind]; [lia |].
  destruct (0 <=? rfind "/" p) eqn:E; [apply Z.leb_le in E; lia |].
  destruct (Ascii.eqb a "/"); lia.
Qed.

(** A temp name built on the root of a path is not the path. *)
Lemma temp_is_not_file (file rest : string) :
  fst (splitext file) +:+ "_" +:+ rest <> file.
Proof.
  destruct (splitext_parts file) as [Hp Hext]. intros H.
  assert (H' : fst (splitext file) +:+ "_" +:+ rest =
               fst (splitext file) +:+ snd (splitext file))
    by (rewrite <- Hp; exact H).
  apply StrFacts.append_inv_head in H'.
  destruct Hext as [He | [e He]]; rewrite He in H'; discriminate.
Qed.

Lemma round53_small (n : Z) : n < 2 ^ 53 -> round53 n = n.
Proof.
  intros H. unfold round53. destruct (Z.log2 n <? 53) eqn:E; [reflexivity |].
  apply Z.ltb_ge in E. destruct (Z.le_gt_cases n 0) as [Hn | Hn].
  - rewrite Z.log2_nonpos in E by exact Hn. lia.
  - pose proof (Z.log2_spec n ltac:(lia)) as [Hlo _].
    assert (2 ^ 53 <= 2 ^ Z.log2 n) by (apply Z.pow_le_mono_r; lia). lia.
Qed.

Lemma size_ok_small (new_size original_size : Z) :
  original_size < 2 ^ 53 ->
  size_ok new_size original_size = (original_size <? 2 * new_size).
Proof. intros H. unfold size_ok. now rewrite round53_small. Qed.

(** The audio filter up to its decision. *)
Lemma audio_filter_run (tools : Tools) (file keep : string) (dry_run : bool)
    (tracks : list Track) (w : World) :
  Mkv.audio_filter tools file keep dry_run tracks w =
  let w1 := with_out (out w ++ Report.announce file keep tracks) w in
  match Mkv.non_target_tracks_of keep tracks, Mkv.target_tracks_of keep tracks with
  | [], _ => print "No audio track changes needed." w1
  | _ :: _, [] => print (Report.warning keep) w1
  | _ :: _, _ :: _ =>
      if dry_run then
        print ("Would keep only " +:+ keep +:+ " audio tracks in '" +:+ file +:+ "'.") w1
      else Mkv.remux_audio tools file keep (Mkv.target_tracks_of keep tracks) w1
  end.
Proof.
  unfold Mkv.audio_filter, Report.announce.
  unfold bind at 1. unfold print at 1. unfold bind at 1.
  rewrite for_each_print. unfold bind at 1. rewrite for_each_print.
  destruct w as [fs o c]. unfold with_out. cbn [out files cmds].
  rewrite <- !app_assoc. cbv zeta.
  destruct (Mkv.non_target_tracks_of keep tracks), (Mkv.target_tracks_of keep tracks),
    dry_run; reflexivity.
Qed.

End RunFacts.

(** C1: once the remux has written the temp file, the audio filter accepts
    it exactly when its size is more than half the size of the original
    (sizes below 2^53 bytes, where the float quotient is exact).  Accepted,
    the temp file takes the place of the original in one step.  Otherwise
    the run exits with code 1 and nothing runs after it, the temp file is
    gone and the original is as the remux left it. *)
Theorem C1_remux_accepted_iff_more_than_half
    (tools : Tools) (file keep : string) (tracks : list Track) (w : World)
    (so se : string) (fs : gmap string string) (original remuxed : string) :
  let target := Mkv.target_tracks_of keep tracks in
  let temp_file := Mkv.audio_temp_file file keep in
  let original_size := Z.of_nat (String.length original) in
  let new_size := Z.of_nat (String.length remuxed) in
  target <> [] ->
  Mkv.non_target_tracks_of keep tracks <> [] ->
  tools (Mkv.remux_audio_cmd file keep target) (files w) = Ran 0 so se fs ->
  files w !! file = Some original ->
  fs !! file = Some original ->
  fs !! temp_file = Some remuxed ->
  original_size < 2 ^ 53 ->
  let r := Mkv.audio_filter tools file keep false tracks w in
  if original_size <? 2 * new_size
  then fst r = Ret tt /\
       files (snd r) = <[file := remuxed]> (delete temp_file fs) /\
       files (snd r) !! temp_file = None
  else fst r = Exit 1 /\
       (forall k : M unit, (Mkv.audio_filter tools file keep false tracks >> k) w = r) /\
       files (snd r) = delete temp_file fs /\
       files (snd r) !! temp_file = None /\
       files (snd r) !! file = files w !! file.
Proof.
  intros target temp_file original_size new_size Ht Hn Hrun Hpre Hfile Htemp
    Hsmall r.
  assert (Hne : temp_file <> file) by apply RunFacts.temp_is_not_file.
  assert (Hr : r =
    if original_size <? 2 * new_size
    then (Ret tt,
          mkWorld (<[file := remuxed]> (delete temp_file fs))
            ((out w ++ Report.announce file keep tracks) ++
             ["Kept only " +:+ keep +:+ " audio tracks in '" +:+ file +:+ "'."])
            (cmds w ++ [Mkv.remux_audio_cmd file keep target]))
    else (Exit 1,
          mkWorld (delete temp_file fs)
            ((out w ++ Report.announce file keep tracks) ++
             ["Error: Output file is suspiciously small. Operation aborted."])
            (cmds w ++ [Mkv.remux_audio_cmd file keep target]))).
  { unfold r. rewrite RunFacts.audio_filter_run. cbv zeta.
    fold target. destruct (Mkv.non_target_tracks_of keep tracks); [congruence |].
    clearbody target. destruct target as [|t0 l0]; [congruence |].
    unfold Mkv.remux_audio. fold temp_file.
    erewrite RunFacts.bind_ret by (apply RunFacts.run_command_ok; exact Hrun).
    erewrite RunFacts.bind_ret by (apply RunFacts.getsize_ok; exact Hfile).
    erewrite RunFacts.bind_ret by (apply RunFacts.getsize_ok; exact Htemp).
    fold original_size new_size.
    rewrite (RunFacts.size_ok_small new_size original_size Hsmall).
    destruct (original_size <? 2 * new_size).
    - erewrite RunFacts.bind_ret by (apply RunFacts.replace_ok; exact Htemp).
      reflexivity.
    - erewrite RunFacts.bind_ret by apply RunFacts.print_run.
      erewrite RunFacts.bind_ret by (eapply RunFacts.remove_ok; exact Htemp).
      reflexivity. }
  destruct (original_size <? 2 * new_size).
  - rewrite Hr. cbn [fst snd files]. repeat split.
    rewrite lookup_insert_ne by congruence. apply lookup_delete_eq.
  - split; [now rewrite Hr |]. split.
    { intros k. unfold bind. fold r. rewrite Hr. reflexivity. }
    rewrite Hr. cbn [fst snd files]. repeat split.
    + apply lookup_delete_eq.
    + rewrite lookup_delete_ne by exact Hne. congruence.
Qed.

Lemma C1_remux_size_check_witness :
  (let r := Mkv.audio_filter (Sim.tools (PyStr.repeat_char "y" 40) 0) "movie.mkv"
              "eng" false Sim.eng_and_jpn
              (Sim.world "movie.mkv" (PyStr.repeat_char "x" 100)) in
   fst r = Exit 1 /\
   files (snd r) !! "movie_eng.mkv" = None /\
   files (snd r) !! "movie.mkv" = Some (PyStr.repeat_char "x" 100)) /\
  (let r := Mkv.audio_filter (Sim.tools (PyStr.repeat_char "y" 51) 0) "movie.mkv"
              "eng" false Sim.eng_and_jpn
              (Sim.world "movie.mkv" (PyStr.repeat_char "x" 100)) in
   fst r = Ret tt /\
   files (snd r) !! "movie_eng.mkv" = None /\
   files (snd r) !! "movie.mkv" = Some (PyStr.repeat_char "y" 51)).
Proof.
  split.
  - pose proof (C1_remux_accepted_iff_more_than_half
             (Sim.tools (PyStr.repeat_char "y" 40) 0) "movie.mkv" "eng"
             Sim.eng_and_jpn (Sim.world "movie.mkv" (PyStr.repeat_char "x" 100))
             "" ""
             (<["movie_eng.mkv" := PyStr.repeat_char "y" 40]>
                (files (Sim.world "movie.mkv" (PyStr.repeat_char "x" 100))))
             (PyStr.repeat_char "x" 100) (PyStr.repeat_char "y" 40)
             ltac:(vm_compute; discriminate) ltac:(vm_compute; discriminate)
             ltac:(reflexivity) ltac:(reflexivity) ltac:(reflexivity)
             ltac:(reflexivity) ltac:(reflexivity)) as H.
    cbv zeta in H.
    change (Z.of_nat (String.length (PyStr.repeat_char "x" 100)) <?
            2 * Z.of_nat (String.length (PyStr.repeat_char "y" 40)))
      with false in H.
    cbv iota in H.
    destruct H as (H1 & _ & _ & H3 & H4).
    cbv zeta. split; [exact H1 |]. split; [exact H3 |].
    rewrite H4. reflexivity.
  - pose proof (C1_remux_accepted_iff_more_than_half
             (Sim.tools (PyStr.repeat_char "y" 51) 0) "movie.mkv" "eng"
             Sim.eng_and_jpn (Sim.world "movie.mkv" (PyStr.repeat_char "x" 100))
             "" ""
             (<["movie_eng.mkv" := PyStr.repeat_char "y" 51]>
                (files (Sim.world "movie.mkv" (PyStr.repeat_char "x" 100))))
             (PyStr.repeat_char "x" 100) (PyStr.repeat_char "y" 51)
             ltac:(vm_compute; discriminate) ltac:(vm_compute; discriminate)
             ltac:(reflexivity) ltac:(reflexivity) ltac:(reflexivity)
             ltac:(reflexivity) ltac:(reflexivity)) as H.
    cbv zeta in H.
    change (Z.of_nat (String.length (PyStr.repeat_char "x" 100)) <?
            2 * Z.of_nat (String.length (PyStr.repeat_char "y" 51)))
      with true in H.
    cbv iota in H.
    destruct H as (H1 & H2 & H3).
    cbv zeta. split; [exact H1 |]. split; [exact H3 |].
    rewrite H2. reflexivity.
Defined.

Module FilterFacts.
Import Report.

Lemma target_none (keep : string) (tracks : list Track) :
  Forall (fun t => is_audio t -> language t <> keep) tracks ->
  Mkv.target_tracks_of keep tracks = [].
Proof.
  intros H. destruct (Mkv.target_tracks_of keep tracks) as [|t l] eqn:E;
    [reflexivity |].
  assert (Hin : t ∈ Mkv.target_tracks_of keep tracks) by (rewrite E; left).
  unfold Mkv.target_tracks_of, Mkv.audio_tracks_of in Hin.
  apply list_elem_of_filter in Hin as [Hl Hin].
  apply list_elem_of_filter in Hin as [Ha Hin].
  rewrite Forall_forall in H. destruct (H t Hin Ha Hl).
Qed.

Lemma non_target_none (keep : string) (tracks : list Track) :
  Forall (fun t => is_audio t -> language t = keep) tracks ->
  Mkv.non_target_tracks_of keep tracks = [].
Proof.
  intros H. destruct (Mkv.non_target_tracks_of keep tracks) as [|t l] eqn:E;
    [reflexivity |].
  assert (Hin : t ∈ Mkv.non_target_tracks_of keep tracks) by (rewrite E; left).
  unfold Mkv.non_target_tracks_of, Mkv.audio_tracks_of in Hin.
  apply list_elem_of_filter in Hin as [Hl Hin].
  apply list_elem_of_filter in Hin as [Ha Hin].
  rewrite Forall_forall in H. destruct (Hl (H t Hin Ha)).
Qed.

Lemma non_target_some (keep : string) (tracks : list Track) :
  Exists (fun t => is_audio t /\ language t <> keep) tracks ->
  Mkv.non_target_tracks_of keep tracks <> [].
Proof.
  intros H E. apply Exists_exists in H as (t & Hin & Ha & Hl).
  assert (Ht : t ∈ Mkv.non_target_tracks_of keep tracks).
  { unfold Mkv.non_target_tracks_of, Mkv.audio_tracks_of.
    apply list_elem_of_filter. split; [exact Hl |].
    apply list_elem_of_filter. split; [exact Ha | exact Hin]. }
  rewrite E in Ht. inversion Ht.
Qed.

End FilterFacts.

(** C4: when some audio track is in another language and none is in the
    requested one, the audio filter only prints its warning; when every
    audio track is in the requested language it only reports that nothing
    is to change.  In both cases, dry run or not, it returns, runs no
    command and leaves every file as it is. *)
Theorem C4_audio_filter_refuses_or_skips
    (tools : Tools) (file keep : string) (dry_run : bool) (tracks : list Track)
    (w : World) :
  let r := Mkv.audio_filter tools file keep dry_run tracks w in
  (Forall (fun t => Report.is_audio t -> language t <> keep) tracks ->
   Exists (fun t => Report.is_audio t /\ language t <> keep) tracks ->
   fst r = Ret tt /\ files (snd r) = files w /\ cmds (snd r) = cmds w /\
   out (snd r) = out w ++ Report.announce file keep tracks ++ [Report.warning keep]) /\
  (Forall (fun t => Report.is_audio t -> language t = keep) tracks ->
   fst r = Ret tt /\ files (snd r) = files w /\ cmds (snd r) = cmds w /\
   out (snd r) =
     out w ++ Report.announce file keep tracks ++ ["No audio track changes needed."]).
Proof.
  intros r. unfold r. rewrite RunFacts.audio_filter_run. cbv zeta. split.
  - intros Hnone Hsome.
    rewrite (FilterFacts.target_none keep tracks Hnone).
    pose proof (FilterFacts.non_target_some keep tracks Hsome) as Hne.
    destruct (Mkv.non_target_tracks_of keep tracks); [congruence |].
    cbn. now rewrite <- app_assoc.
  - intros Hall. rewrite (FilterFacts.non_target_none keep tracks Hall).
    cbn. now rewrite <- app_assoc.
Qed.

Lemma C4_audio_filter_witness :
  let r := Mkv.audio_filter (Sim.tools "" 0) "movie.mkv" "eng" false
             [mkTrack "1" "audio" "jpn" "A_AAC"; mkTrack "2" "audio" "jpn" "A_AC3"]
             (Sim.world "movie.mkv" "content") in
  fst r = Ret tt /\ files (snd r) = files (Sim.world "movie.mkv" "content") /\
  cmds (snd r) = [] /\
  out (snd r) =
    [] ++ Report.announce "movie.mkv" "eng"
            [mkTrack "1" "audio" "jpn" "A_AAC"; mkTrack "2" "audio" "jpn" "A_AC3"] ++
    [Report.warning "eng"].
Proof.
  apply (C4_audio_filter_refuses_or_skips (Sim.tools "" 0) "movie.mkv" "eng" false
           [mkTrack "1" "audio" "jpn" "A_AAC"; mkTrack "2" "audio" "jpn" "A_AC3"]
           (Sim.world "movie.mkv" "content")).
  - repeat constructor; intros _; discriminate.
  - left. split; [reflexivity | discriminate].
Defined.

Module MainFacts.

(** A tool check that passes leaves the world as it was. *)
Lemma check_passes (path : option string) (w : World) :
  fst (Mkv.check_mkvtoolnix_installed path w) = Ret tt ->
  Mkv.check_mkvtoolnix_installed path w = (Ret tt, w).
Proof.
  unfold Mkv.check_mkvtoolnix_installed, Mkv.on_path.
  destruct path as [p|]; [| discriminate].
  cbn [for_each]. unfold bind, ret, print, sys_exit, raise.
  repeat match goal with
    | |- context [existsb ?f ?l] => destruct (existsb f l); cbn [fst]
    end; try discriminate; reflexivity.
Qed.

End MainFacts.

(** C2, as the code has it: with the tools installed and a name that ends
    in ".mkv", a file argument that names no file makes the processor print
    that the file was not found and return: the exit status is 0.  A name
    without the extension exits with 1. *)
Theorem C2_missing_file_exits_zero
    (tools : Tools) (path : option string) (args : Mkv.Args) (file : string)
    (w : World) :
  Mkv.arg_file args = Some file ->
  Parser.truthy file = true ->
  fst (Mkv.check_mkvtoolnix_installed path w) = Ret tt ->
  files w !! file = None ->
  let r := Mkv.main tools path args w in
  if PyStr.endswith ".mkv" file
  then r = (Ret tt, with_out (out w ++ ["File '" +:+ file +:+ "' not found."]) w) /\
       exit_status (fst r) = 0
  else exit_status (fst r) = 1.
Proof.
  intros Hfile Htruthy Hcheck Hmissing r.
  assert (Hr : r =
    if PyStr.endswith ".mkv" file
    then (Ret tt, with_out (out w ++ ["File '" +:+ file +:+ "' not found."]) w)
    else (Exit 1, with_out (out w ++ ["'" +:+ file +:+ "' is not an MKV file."]) w)).
  { unfold r, Mkv.main. rewrite Hfile, Htruthy. cbn [negb].
    erewrite RunFacts.bind_ret by (apply MainFacts.check_passes; exact Hcheck).
    destruct (PyStr.endswith ".mkv" file); cbn [negb]; [| reflexivity].
    unfold Mkv.process_mkv_file.
    erewrite RunFacts.bind_ret by reflexivity.
    rewrite Hmissing.
    rewrite bool_decide_eq_false_2 by (intros [x Hx]; discriminate).
    reflexivity. }
  rewrite Hr. destruct (PyStr.endswith ".mkv" file); [split |]; reflexivity.
Qed.

Lemma C2_missing_file_witness :
  let r := Mkv.main (Sim.tools "" 0) (Some "/usr/local/bin:/usr/bin")
             (Mkv.mkArgs (Some "missing.mkv") None false false) Sim.tools_only in
  r = (Ret tt, with_out (out Sim.tools_only ++ ["File 'missing.mkv' not found."])
                 Sim.tools_only) /\
  exit_status (fst r) = 0.
Proof.
  apply (C2_missing_file_exits_zero (Sim.tools "" 0) (Some "/usr/local/bin:/usr/bin")
           (Mkv.mkArgs (Some "missing.mkv") None false false) "missing.mkv"
           Sim.tools_only); reflexivity.
Defined.

Module TitleFacts.
Import PyStr Parser StrFacts.

Lemma split_char_pieces (c : ascii) (s : string) :
  Forall (fun piece => lacks c piece = true) (split (String c "") s).
Proof.
  unfold split. induction s as [|a s IH]; [repeat constructor |].
  cbn [split_go startswith String.length]. rewrite andb_true_r.
  destruct (Ascii.eqb c a) eqn:E.
  - constructor; [reflexivity | exact IH].
  - destruct (split_go (String c "") 0 s) as [|h t]; cbn [cons_hd].
    + repeat constructor. cbn. rewrite Ascii.eqb_sym, E. reflexivity.
    + inversion IH; subst. constructor; [| assumption].
      cbn. rewrite Ascii.eqb_sym, E. assumption.
Qed.

(** A value read by [field] never holds a colon. *)
Lemma field_lacks_colon (line v : string) :
  field line = Some v -> lacks ":" v = true.
Proof.
  unfold field, split1. intros H.
  destruct (split ":" line !! 1%nat) as [piece|] eqn:E; [| discriminate].
  injection H as <-. apply lacks_strip.
  pose proof (split_char_pieces ":" line) as Hall.
  rewrite Forall_forall in Hall. apply Hall.
  eapply list_elem_of_lookup_2, E.
Qed.

(** The title probe never raises, and what it finds holds no colon. *)
Lemma probe_title_plain (stdout : string) :
  exists found, probe_title stdout = Ret found /\
                forall t, found = Some t -> lacks ":" t = true.
Proof.
  unfold probe_title. induction (split newline stdout) as [|l lines IH].
  - exists None. split; [reflexivity | discriminate].
  - cbn [probe_lines]. destruct (contains marker_title l) eqn:E; [| exact IH].
    destruct (ParserFacts.field_some l) as [v Hv].
    { apply (ParserFacts.marker_has_colon marker_title); [simpl; auto | exact E]. }
    rewrite Hv. exists (Some v). split; [reflexivity |].
    intros t [= <-]. eapply field_lacks_colon, Hv.
Qed.

Lemma run_command_cmds (tools : Tools) (cmd : list string) (w : World) :
  cmds (snd (Mkv.run_command tools cmd w)) = cmds w ++ [cmd].
Proof.
  unfold Mkv.run_command. destruct (tools cmd (files w)) as [rc so se fs|];
    [| reflexivity].
  destruct (rc =? 0); reflexivity.
Qed.

End TitleFacts.

(** C7, as the code has it: when the file name without its extension holds
    a colon, the title normalizer never finds the title in place: whatever
    the info tool prints, every run that is not a dry run issues the
    metadata edit again. *)
Theorem C7_title_with_colon_is_set_on_every_run
    (tools : Tools) (file : string) (w : World) (so se : string)
    (fs : gmap string string) :
  PyStr.lacks ":" (Mkv.expected_title file) = false ->
  tools ["mkvinfo"; file] (files w) = Ran 0 so se fs ->
  cmds (snd (Mkv.title_normalizer tools file false w)) =
  cmds w ++ [["mkvinfo"; file]; Mkv.set_title_cmd file].
Proof.
  intros Hcolon Hrun. unfold Mkv.title_normalizer.
  unfold bind at 1. unfold Mkv.run_command at 1. rewrite Hrun. cbn [Z.eqb fst].
  unfold bind at 1.
  destruct (TitleFacts.probe_title_plain so) as (found & -> & Hplain).
  rewrite bool_decide_eq_true_2.
  2:{ intros ->. rewrite (Hplain _ eq_refl) in Hcolon. discriminate. }
  unfold bind.
  pose proof (TitleFacts.run_command_cmds tools (Mkv.set_title_cmd file)
                (with_files fs (with_cmds (cmds w ++ [["mkvinfo"; file]]) w))) as Hc.
  destruct (Mkv.run_command tools (Mkv.set_title_cmd file) _) as [[[]| |] w'];
    cbn [snd print with_out cmds] in *; rewrite Hc; cbn [cmds with_files with_cmds];
    now rewrite <- app_assoc.
Qed.

(** Two runs in a row on a file named "a:b.mkv": the stand-in editor sets
    the title, the stand-in info tool reports it, and the second run sets it
    again. *)
Lemma C7_two_runs_two_edits :
  let tools := Sim.tools "" 0 in
  let w1 := snd (Mkv.title_normalizer tools "a:b.mkv" false
                   (Sim.world "a:b.mkv" "|+ Segment")) in
  let w2 := snd (Mkv.title_normalizer tools "a:b.mkv" false w1) in
  files w1 !! "a:b.mkv" = Some ("|  + Title: a:b" +:+ Parser.newline +:+ "|+ Segment") /\
  cmds w2 = cmds w1 ++ [["mkvinfo"; "a:b.mkv"]; Mkv.set_title_cmd "a:b.mkv"].
Proof.
  cbv zeta. split; [reflexivity |].
  eapply (C7_title_with_colon_is_set_on_every_run (Sim.tools "" 0) "a:b.mkv");
    reflexivity.
Defined.

(* ================================================================== *)
(** ** Computations that only print *)
(* ================================================================== *)

Module EffectFacts.

Lemma with_out_nil (w : World) : w = with_out (out w ++ []) w.
Proof. rewrite app_nil_r. destruct w; reflexivity. Qed.

Lemma print_only_ret {A} (a : A) : print_only (ret a).
Proof. intros w. exists []. apply with_out_nil. Qed.

Lemma print_only_exit {A} (c : Z) : print_only (@sys_exit A c).
Proof. intros w. exists []. apply with_out_nil. Qed.

Lemma print_only_raise {A} (e : Exn) : print_only (@raise A e).
Proof. intros w. exists []. apply with_out_nil. Qed.

Lemma print_only_pure {A} (r : Res A) : print_only (fun w => (r, w)).
Proof. intros w. exists []. apply with_out_nil. Qed.

Lemma print_only_print (s : string) : print_only (print s).
Proof. intros w. exists [s]. reflexivity. Qed.

Lemma print_only_bind {A B} (m : M A) (k : A -> M B) :
  print_only m -> (forall a, print_only (k a)) -> print_only (bind m k).
Proof.
  intros Hm Hk w. unfold bind. destruct (Hm w) as [l1 H1].
  destruct (m w) as [[a | c | e] w1]; cbn [snd] in H1; subst w1.
  - destruct (Hk a (with_out (out w ++ l1) w)) as [l2 H2].
    exists (l1 ++ l2). rewrite H2. cbn. now rewrite app_assoc.
  - exists l1. reflexivity.
  - exists l1. reflexivity.
Qed.

Lemma print_only_for_each {A} (l : list A) (body : A -> M unit) :
  (forall x, print_only (body x)) -> print_only (for_each l body).
Proof.
  intros H. induction l as [|x l IH]; cbn [for_each].
  - apply print_only_ret.
  - apply print_only_bind; [apply H | intros _; exact IH].
Qed.

Lemma print_only_when (b : bool) (m : M unit) :
  print_only m -> print_only (when b m).
Proof. intros H. destruct b; [exact H | apply print_only_ret]. Qed.

(** What a computation that only prints leaves behind. *)
Lemma print_only_cmds {A} (m : M A) (w : World) :
  print_only m -> cmds (snd (m w)) = cmds w.
Proof. intros H. destruct (H w) as [l ->]. reflexivity. Qed.

Lemma print_only_files {A} (m : M A) (w : World) :
  print_only m -> files (snd (m w)) = files w.
Proof. intros H. destruct (H w) as [l ->]. reflexivity. Qed.

Ltac print_only_step :=
  first
    [ apply print_only_print
    | apply print_only_ret
    | apply print_only_exit
    | apply print_only_raise
    | apply print_only_pure
    | apply print_only_for_each; intros ?
    | apply print_only_when
    | apply print_only_bind; [| intros ?] ].

Ltac print_only_auto := repeat print_only_step.


Section Stitching.

Variable listdir : string -> option (list string).
Variable getmtime : string -> option Z.

Lemma print_only_details (filename : string) (d : Stitcher.Details) :
print_only (Stitcher.print_file_details filename d).
Proof. unfold Stitcher.print_file_details. print_only_auto. Qed.

Lemma print_only_command (cmd : list string) :
print_only (Stitcher.print_command cmd).
Proof. unfold Stitcher.print_command. print_only_auto. Qed.

Lemma print_only_collect (input_dir : string) (names : list string) :
print_only (Stitcher.collect getmtime input_dir names).
Proof.
induction names as [|f names IH]; cbn [Stitcher.collect].
- apply print_only_ret.
- destruct (Stitcher.is_video_file f); [| exact IH].
  destruct (getmtime _); [| apply print_only_raise].
  apply print_only_bind; [exact IH | intros more; apply print_only_ret].
Qed.

Lemma print_only_sorted (input_dir sort_by : string) :
print_only (Stitcher.get_sorted_video_files listdir getmtime input_dir sort_by).
Proof.
unfold Stitcher.get_sorted_video_files.
destruct (negb _); [apply print_only_raise |].
destruct (listdir input_dir); [| apply print_only_raise].
apply print_only_bind; [apply print_only_collect | intros video_files].
destruct (String.eqb sort_by "creation_date"); apply print_only_ret.
Qed.

End Stitching.

End EffectFacts.

Module StitchFacts.

Lemma print_command_run (cmd : list string) (w : World) :
  Stitcher.print_command cmd w =
  (Ret tt, with_out (out w ++ Report.command_lines cmd) w).
Proof.
  unfold Stitcher.print_command, Report.command_lines.
  erewrite RunFacts.bind_ret by apply RunFacts.print_run.
  rewrite RunFacts.print_run. destruct w; cbn. now rewrite <- app_assoc.
Qed.

(** The encoder, once started, makes the stitcher print one line and
    return, whatever its exit code. *)
Lemma encode_run (signal_name : Z -> option string) (tools : Tools)
    (cmd : list string) (output_file : string)
    (w : World) (rc : Z) (so se : string) (fs : gmap string string) :
  tools cmd (files w) = Ran rc so se fs ->
  Stitcher.encode signal_name tools cmd output_file w =
  (Ret tt,
   mkWorld fs (out w ++ [Report.encode_line signal_name cmd output_file rc])
     (cmds w ++ [cmd])).
Proof.
  intros H. unfold Stitcher.encode, Report.encode_line. rewrite H.
  destruct (rc =? 0); reflexivity.
Qed.

End StitchFacts.

(** C3, as the code has it: when the stitcher reaches the encode and the
    encoder exits with a code other than 0, the stitcher prints the error
    and returns: its exit status is 0. *)
Theorem C3_encode_failure_exits_zero
    (which : string -> bool) (listdir : string -> option (list string))
    (read_stream : string -> string -> string + Stitcher.Details)
    (strerror : list string -> string) (signal_name : Z -> option string)
    (getmtime : string -> option Z) (strftime : Z -> string) (temp_name : string)
    (tools : Tools) (input_dir output_file : string) (enable_hdr : bool)
    (resolution : string) (fps : Z) (sort_by : string) (w w1 : World)
    (p : list string * string) (rc : Z) (so se : string) (fs : gmap string string) :
  Stitcher.plan which listdir read_stream strerror getmtime strftime temp_name
    tools input_dir output_file enable_hdr resolution fps sort_by w = (Ret p, w1) ->
  tools (fst p) (<[temp_name := snd p]> (files w1)) = Ran rc so se fs ->
  rc <> 0 ->
  let r := Stitcher.concatenate_and_encode which listdir read_stream strerror
             signal_name getmtime strftime temp_name tools input_dir output_file
             enable_hdr resolution fps sort_by false w in
  exit_status (fst r) = 0 /\
  r = (Ret tt,
       mkWorld (delete temp_name fs)
         (out w1 ++ Report.command_lines (fst p) ++
          [Report.encode_line signal_name (fst p) output_file rc])
         (cmds w1 ++ [fst p])).
Proof.
  intros Hplan Hrun Hrc r.
  assert (Hr : r = (Ret tt,
       mkWorld (delete temp_name fs)
         (out w1 ++ Report.command_lines (fst p) ++
          [Report.encode_line signal_name (fst p) output_file rc])
         (cmds w1 ++ [fst p]))).
  { unfold r, Stitcher.concatenate_and_encode.
    erewrite RunFacts.bind_ret by exact Hplan.
    unfold Stitcher.with_temp_file.
    erewrite RunFacts.bind_ret by apply StitchFacts.print_command_run.
    erewrite StitchFacts.encode_run by exact Hrun.
    cbn. now rewrite <- app_assoc. }
  rewrite Hr. split; reflexivity.
Qed.

Lemma C3_encode_failure_witness :
  exit_status (fst (Sim.stitch 1 "4K" false Sim.clips)) = 0.
Proof.
  unfold Sim.stitch.
  eapply (fun w1 p so se fs H1 H2 =>
            proj1 (C3_encode_failure_exits_zero Sim.which Sim.listdir
                     Sim.read_stream Sim.strerror Sim.signal_name Sim.getmtime
                     Sim.strftime Sim.temp_name
                     (Sim.tools "" 1) "clips" "out.mp4" false "4K" 30 "filename"
                     Sim.clips w1 p 1 so se fs H1 H2 ltac:(discriminate))).
  - vm_compute. reflexivity.
  - vm_compute. reflexivity.
Defined.

Module DryFacts.
Import EffectFacts.

Lemma run_command_files (tools : Tools) (cmd : list string) (w : World) :
  read_only tools cmd -> files (snd (Mkv.run_command tools cmd w)) = files w.
Proof.
  intros H. specialize (H (files w)). unfold Mkv.run_command.
  destruct (tools cmd (files w)) as [rc so se fs|]; [| reflexivity].
  subst fs. destruct (rc =? 0); reflexivity.
Qed.

Lemma audio_dry_print_only (tools : Tools) (file keep : string)
    (tracks : list Track) :
  print_only (Mkv.audio_filter tools file keep true tracks).
Proof.
  unfold Mkv.audio_filter.
  do 3 (apply print_only_bind; [print_only_auto | intros _]).
  destruct (Mkv.non_target_tracks_of keep tracks); [apply print_only_print |].
  destruct (Mkv.target_tracks_of keep tracks); apply print_only_print.
Qed.

Lemma subtitle_dry_print_only (tools : Tools) (file : string)
    (tracks : list Track) :
  print_only (Mkv.subtitle_stripper tools file true tracks).
Proof.
  unfold Mkv.subtitle_stripper.
  destruct (filter _ tracks); print_only_auto.
Qed.

(** The title normalizer after a probe that succeeded. *)
Lemma title_after_probe (tools : Tools) (file : string) (dry_run : bool)
    (w : World) (so se : string) (fs : gmap string string) :
  tools ["mkvinfo"; file] (files w) = Ran 0 so se fs ->
  exists found,
    Parser.probe_title so = Ret found /\
    Mkv.title_normalizer tools file dry_run w =
    let w1 := with_files fs (with_cmds (cmds w ++ [["mkvinfo"; file]]) w) in
    if bool_decide (found <> Some (Mkv.expected_title file)) then
      if dry_run then
        print ("Would set the title of '" +:+ file +:+ "' to '" +:+
               Mkv.expected_title file +:+ "'.") w1
      else
        (Mkv.run_command tools (Mkv.set_title_cmd file) >>
         print ("Set the title of '" +:+ file +:+ "' to '" +:+
                Mkv.expected_title file +:+ "'.")) w1
    else
      print ("The title of '" +:+ file +:+
             "' already matches the filename. No change needed.") w1.
Proof.
  intros Hrun. destruct (TitleFacts.probe_title_plain so) as (found & Hf & _).
  exists found. split; [exact Hf |]. unfold Mkv.title_normalizer.
  erewrite RunFacts.bind_ret by (apply RunFacts.run_command_ok; exact Hrun).
  cbn [fst]. erewrite RunFacts.bind_ret by (rewrite Hf; reflexivity).
  cbv zeta. destruct (bool_decide _), dry_run; reflexivity.
Qed.

(** A probe that fails ends the title normalizer the same way in both
    modes. *)
Lemma title_probe_fails (tools : Tools) (file : string) (dry_run : bool)
    (w : World) :
  (forall so se fs, tools ["mkvinfo"; file] (files w) <> Ran 0 so se fs) ->
  Mkv.title_normalizer tools file dry_run w =
  Mkv.title_normalizer tools file (negb dry_run) w.
Proof.
  intros H. unfold Mkv.title_normalizer, bind, Mkv.run_command.
  destruct (tools ["mkvinfo"; file] (files w)) as [rc so se fs|] eqn:E;
    [| reflexivity].
  destruct (rc =? 0) eqn:Erc; [| reflexivity].
  apply Z.eqb_eq in Erc. subst rc. destruct (H so se fs eq_refl).
Qed.

Lemma title_dry_cmds (tools : Tools) (file : string) (w : World) :
  cmds (snd (Mkv.title_normalizer tools file true w)) =
  cmds w ++ [["mkvinfo"; file]].
Proof.
  destruct (tools ["mkvinfo"; file] (files w)) as [rc so se fs|] eqn:E.
  - destruct (rc =? 0) eqn:Erc.
    + apply Z.eqb_eq in Erc. subst rc.
      destruct (title_after_probe tools file true w so se fs E) as (found & _ & ->).
      cbv zeta. destruct (bool_decide _); reflexivity.
    + unfold Mkv.title_normalizer, bind, Mkv.run_command. rewrite E, Erc.
      reflexivity.
  - unfold Mkv.title_normalizer, bind, Mkv.run_command. rewrite E. reflexivity.
Qed.

Lemma title_dry_files (tools : Tools) (file : string) (w : World) :
  read_only tools ["mkvinfo"; file] ->
  files (snd (Mkv.title_normalizer tools file true w)) = files w.
Proof.
  intros Hro. pose proof (Hro (files w)) as H.
  destruct (tools ["mkvinfo"; file] (files w)) as [rc so se fs|] eqn:E.
  - subst fs. destruct (rc =? 0) eqn:Erc.
    + apply Z.eqb_eq in Erc. subst rc.
      destruct (title_after_probe tools file true w so se (files w) E)
        as (found & _ & ->).
      cbv zeta. destruct (bool_decide _); reflexivity.
    + unfold Mkv.title_normalizer, bind, Mkv.run_command. rewrite E, Erc.
      reflexivity.
  - unfold Mkv.title_normalizer, bind, Mkv.run_command. rewrite E. reflexivity.
Qed.

End DryFacts.

(* ================================================================== *)
(** ** Further properties of the parser *)
(* ================================================================== *)

Module ParserMore.
Import PyStr Parser Listing StrFacts ParserFacts.

Lemma truthy_not_empty (s : string) : truthy s = true -> s <> "".
Proof. unfold truthy. intros H ->. discriminate. Qed.

Lemma fresh_plain : fields_plain fresh.
Proof. repeat split. Qed.

(** One line keeps the invariant of the loop. *)
Lemma parse_line_keeps (tracks : list Track) (cur : Track) (raw : string)
    (st : PState) :
  Forall finished tracks -> fields_plain cur ->
  parse_line (tracks, cur) raw = Some st ->
  Forall finished (fst st) /\ fields_plain (snd st).
Proof.
  intros Ht Hc. unfold parse_line.
  destruct (contains marker_number (strip raw)).
  { destruct (truthy (track_id cur)) eqn:Eid;
      destruct (id_field (strip raw)); intros [= <-]; cbn [fst snd].
    - split; [| apply fresh_plain].
      apply Forall_app. split; [exact Ht |].
      constructor; [| constructor]. split; [now apply truthy_not_empty | exact Hc].
    - split; [exact Ht | exact Hc]. }
  destruct Hc as (H1 & H2 & H3).
  destruct (contains marker_type (strip raw)).
  { destruct (field (strip raw)) as [v|] eqn:Ef; intros [= <-]; cbn [fst snd].
    split; [exact Ht |]. repeat split; cbn; try assumption.
    eapply TitleFacts.field_lacks_colon, Ef. }
  destruct (contains marker_codec (strip raw)).
  { destruct (field (strip raw)) as [v|] eqn:Ef; intros [= <-]; cbn [fst snd].
    split; [exact Ht |]. repeat split; cbn; try assumption.
    eapply TitleFacts.field_lacks_colon, Ef. }
  destruct (contains marker_language (strip raw) && negb (contains "IETF" (strip raw))).
  { destruct (field (strip raw)) as [v|] eqn:Ef; intros [= <-]; cbn [fst snd].
    split; [exact Ht |]. repeat split; cbn; try assumption.
    eapply TitleFacts.field_lacks_colon, Ef. }
  intros [= <-]. cbn [fst snd]. repeat split; assumption.
Qed.

Lemma parse_lines_keep (lines : list string) (tracks : list Track) (cur : Track)
    (st : PState) :
  Forall finished tracks -> fields_plain cur ->
  parse_lines (tracks, cur) lines = Some st ->
  Forall finished (fst st) /\ fields_plain (snd st).
Proof.
  revert tracks cur; induction lines as [|raw lines IH]; intros tracks cur Ht Hc;
    cbn [parse_lines].
  - intros [= <-]. split; assumption.
  - destruct (parse_line (tracks, cur) raw) as [[tracks' cur']|] eqn:E;
      [| discriminate].
    destruct (parse_line_keeps tracks cur raw _ Ht Hc E) as [Ht' Hc'].
    apply IH; assumption.
Qed.

(** A line that is no track-number line leaves the list and the id. *)
Lemma parse_line_no_number (tracks : list Track) (cur : Track) (raw : string) :
  holds marker_number raw = false ->
  exists cur', parse_line (tracks, cur) raw = Some (tracks, cur') /\
               track_id cur' = track_id cur.
Proof.
  unfold holds. intros Hn.
  pose proof (parse_line_defined (tracks, cur) raw) as Hd.
  unfold line_ok, holds in Hd. rewrite Hn in Hd. cbn [negb orb] in Hd.
  destruct Hd as [st Hst]. revert Hst. unfold parse_line. rewrite Hn.
  destruct (contains marker_type (strip raw)).
  { destruct (field (strip raw)); intros [= <-]; eexists; split; reflexivity. }
  destruct (contains marker_codec (strip raw)).
  { destruct (field (strip raw)); intros [= <-]; eexists; split; reflexivity. }
  destruct (contains marker_language (strip raw) && negb (contains "IETF" (strip raw))).
  { destruct (field (strip raw)); intros [= <-]; eexists; split; reflexivity. }
  intros _. eexists; split; reflexivity.
Qed.

Lemma headless_lines (lines : list string) (tracks : list Track) (cur : Track) :
  forallb (fun raw => negb (holds marker_number raw)) lines = true ->
  exists cur', parse_lines (tracks, cur) lines = Some (tracks, cur') /\
               track_id cur' = track_id cur.
Proof.
  revert cur; induction lines as [|raw lines IH]; intros cur H.
  - exists cur. split; reflexivity.
  - cbn [forallb] in H. apply andb_true_iff in H as [Hr Hl].
    apply negb_true_iff in Hr.
    destruct (parse_line_no_number tracks cur raw Hr) as (cur1 & E1 & Hid1).
    destruct (IH cur1 Hl) as (cur' & E & Hid).
    exists cur'. cbn [parse_lines]. rewrite E1. split; [exact E | congruence].
Qed.

End ParserMore.

(** X1: every record the parser returns has a non-empty id, and none of its
    type, language and codec values holds a colon. *)
Theorem X1_parsed_tracks_have_ids (stdout : string) (tracks : list Track) :
  Parser.parse_text stdout = Ret tracks ->
  Forall Listing.finished tracks.
Proof.
  unfold Parser.parse_text.
  destruct (Parser.parse_lines ([], Parser.fresh) _) as [[done cur]|] eqn:E;
    [| discriminate].
  intros [= <-].
  destruct (ParserMore.parse_lines_keep _ [] Parser.fresh _ ltac:(constructor)
              ParserMore.fresh_plain E) as [Hd Hc].
  cbn [fst snd] in *. unfold Parser.finish.
  destruct (Parser.truthy (track_id cur)) eqn:Eid; [| exact Hd].
  apply Forall_app. split; [exact Hd |].
  constructor; [| constructor].
  split; [now apply ParserMore.truthy_not_empty | exact Hc].
Qed.

Lemma X1_parsed_tracks_witness :
  Forall Listing.finished
    [mkTrack "0)(" "video" "undefined" ""; mkTrack "1" "" "en" "A_AAC"].
Proof.
  apply (X1_parsed_tracks_have_ids
           ("|  + Track number: 1 (track ID for mkvmerge & mkvextract: 0)()" +:+
            Parser.newline +:+ "|  + Track type: video: x" +:+ Parser.newline +:+
            "|  + Track number: 2 mkvextract: 1" +:+ Parser.newline +:+
            "|  + Language: en:US" +:+ Parser.newline +:+
            "|  + Codec ID: A_AAC")).
  vm_compute. reflexivity.
Defined.

(** X2: a text without a track-number line gives no track at all, whatever
    type, codec and language lines it holds, and parsing it never fails. *)
Theorem X2_no_track_number_no_track (stdout : string) :
  Listing.headless stdout = true -> Parser.parse_text stdout = Ret [].
Proof.
  unfold Listing.headless, Parser.parse_text. intros H.
  destruct (ParserMore.headless_lines _ [] Parser.fresh H) as (cur & -> & Hid).
  unfold Parser.finish. rewrite Hid. reflexivity.
Qed.

Lemma X2_no_track_number_witness :
  Parser.parse_text
    ("|  + Track type: audio" +:+ Parser.newline +:+ "|  + Language: eng") = Ret [].
Proof. apply X2_no_track_number_no_track. vm_compute. reflexivity. Defined.

Module RemuxMore.
Import PyStr StrFacts.

Lemma run_command_fails (tools : Tools) (cmd : list string) (w : World)
    (rc : Z) (so se : string) (fs : gmap string string) :
  tools cmd (files w) = Ran rc so se fs -> rc <> 0 ->
  Mkv.run_command tools cmd w =
  (Exit 1,
   mkWorld fs (out w ++ Report.failure_lines cmd se) (cmds w ++ [cmd])).
Proof.
  intros H Hrc. unfold Mkv.run_command. rewrite H.
  apply Z.eqb_neq in Hrc. rewrite Hrc.
  unfold bind, print, sys_exit. cbn. now rewrite <- app_assoc.
Qed.

Lemma split_join_char (c : ascii) (pieces : list string) :
  pieces <> [] -> Forall (fun p => lacks c p = true) pieces ->
  split (String c "") (join (String c "") pieces) = pieces.
Proof.
  induction pieces as [|x pieces IH]; [congruence |]. intros _ H.
  inversion H as [|? ? Hx Hr]; subst.
  destruct pieces as [|y pieces].
  - cbn [join]. now apply split_char_none.
  - change (join (String c "") (x :: y :: pieces))
      with (x +:+ String c (join (String c "") (y :: pieces))).
    rewrite (split_char_app c x _ Hx). f_equal. apply IH; [discriminate | exact Hr].
Qed.

Lemma quiet_bind {A B} (m : M A) (k : A -> M B) :
  quiet m -> (forall a, quiet (k a)) -> quiet (bind m k).
Proof.
  intros Hm Hk w. unfold bind. specialize (Hm w).
  destruct (m w) as [[a | c | e] w1]; cbn [snd] in *; [| exact Hm..].
  rewrite (Hk a w1). exact Hm.
Qed.

Lemma quiet_print (s : string) : quiet (print s).
Proof. intros w. reflexivity. Qed.

Lemma quiet_exit {A} (c : Z) : quiet (@sys_exit A c).
Proof. intros w. reflexivity. Qed.

Lemma quiet_getsize (p : string) : quiet (Os.getsize p).
Proof. intros w. unfold Os.getsize. destruct (files w !! p); reflexivity. Qed.

Lemma quiet_replace (src dst : string) : quiet (Os.replace src dst).
Proof. intros w. unfold Os.replace. destruct (files w !! src); reflexivity. Qed.

Lemma quiet_remove (p : string) : quiet (Os.remove p).
Proof. intros w. unfold Os.remove. destruct (files w !! p); reflexivity. Qed.

(** The remux of the audio filter runs its one command and no other. *)
Lemma remux_audio_cmds (tools : Tools) (file keep : string) (target : list Track)
    (w : World) :
  cmds (snd (Mkv.remux_audio tools file keep target w)) =
  cmds w ++ [Mkv.remux_audio_cmd file keep target].
Proof.
  unfold Mkv.remux_audio, bind at 1.
  pose proof (TitleFacts.run_command_cmds tools
                (Mkv.remux_audio_cmd file keep target) w) as Hc.
  destruct (Mkv.run_command tools _ w) as [[r | c | e] w1]; cbn [snd] in Hc;
    [| exact Hc..].
  rewrite <- Hc. revert w1 Hc. intros w1 _.
  apply (quiet_bind (Os.getsize file)); [apply quiet_getsize | intros osz].
  apply quiet_bind; [apply quiet_getsize | intros nsz].
  destruct (size_ok nsz osz).
  - apply quiet_bind; [apply quiet_replace | intros _; apply quiet_print].
  - apply quiet_bind; [apply quiet_print | intros _].
    apply quiet_bind; [apply quiet_remove | intros _; apply quiet_exit].
Qed.

End RemuxMore.

(** X4: the subtitle stripper has no size check: when subtitle tracks are
    listed and the remux wrote its temp file, the temp file takes the place
    of the original whatever it holds, even nothing. *)
Theorem X4_subtitle_stripper_replaces_unchecked
    (tools : Tools) (file : string) (tracks : list Track) (w : World)
    (so se : string) (fs : gmap string string) (remuxed : string) :
  filter (fun t => track_type t = "subtitles") tracks <> [] ->
  tools ["mkvmerge"; "-o"; Mkv.subtitle_temp_file file; "--no-subtitles"; file]
    (files w) = Ran 0 so se fs ->
  fs !! Mkv.subtitle_temp_file file = Some remuxed ->
  Mkv.subtitle_stripper tools file false tracks w =
  (Ret tt,
   mkWorld (<[file := remuxed]> (delete (Mkv.subtitle_temp_file file) fs))
     (out w ++ ["Subtitles found in '" +:+ file +:+ "'.";
                "All subtitles removed from '" +:+ file +:+ "'."])
     (cmds w ++ [["mkvmerge"; "-o"; Mkv.subtitle_temp_file file;
                  "--no-subtitles"; file]])).
Proof.
  intros Hsub Hrun Htemp. unfold Mkv.subtitle_stripper.
  destruct (filter _ tracks); [congruence |].
  erewrite RunFacts.bind_ret by apply RunFacts.print_run.
  erewrite RunFacts.bind_ret by (apply RunFacts.run_command_ok; exact Hrun).
  erewrite RunFacts.bind_ret by (apply RunFacts.replace_ok; exact Htemp).
  rewrite RunFacts.print_run. cbn. now rewrite <- app_assoc.
Qed.

Lemma X4_subtitle_stripper_witness :
  files (snd (Mkv.subtitle_stripper (Sim.tools "" 0) "movie.mkv" false
                [mkTrack "3" "subtitles" "eng" "S_TEXT/UTF8"]
                (Sim.world "movie.mkv" "the whole film"))) !! "movie.mkv" = Some "".
Proof.
  rewrite (X4_subtitle_stripper_replaces_unchecked (Sim.tools "" 0) "movie.mkv"
             [mkTrack "3" "subtitles" "eng" "S_TEXT/UTF8"]
             (Sim.world "movie.mkv" "the whole film") "" ""
             (<["movie_no_subtitles.mkv" := ""]>
                (files (Sim.world "movie.mkv" "the whole film"))) "").
  - reflexivity.
  - vm_compute. discriminate.
  - reflexivity.
  - reflexivity.
Defined.

(** X5: when the remux of the audio filter fails, the run prints the
    command and its error stream and exits with 1; the script removes
    nothing, so the files are as the tool left them, a partly written temp
    file included. *)
Theorem X5_failed_remux_is_fatal_and_leaves_temp
    (tools : Tools) (file keep : string) (tracks : list Track) (w : World)
    (rc : Z) (so se : string) (fs : gmap string string) :
  Mkv.target_tracks_of keep tracks <> [] ->
  Mkv.non_target_tracks_of keep tracks <> [] ->
  tools (Mkv.remux_audio_cmd file keep (Mkv.target_tracks_of keep tracks)) (files w)
    = Ran rc so se fs ->
  rc <> 0 ->
  Mkv.audio_filter tools file keep false tracks w =
  (Exit 1,
   mkWorld fs
     ((out w ++ Report.announce file keep tracks) ++
      Report.failure_lines
        (Mkv.remux_audio_cmd file keep (Mkv.target_tracks_of keep tracks)) se)
     (cmds w ++ [Mkv.remux_audio_cmd file keep (Mkv.target_tracks_of keep tracks)])).
Proof.
  intros Ht Hn Hrun Hrc. rewrite RunFacts.audio_filter_run. cbv zeta.
  destruct (Mkv.non_target_tracks_of keep tracks); [congruence |].
  remember (Mkv.target_tracks_of keep tracks) as target eqn:Et.
  destruct target as [|t0 l0]; [congruence |].
  unfold Mkv.remux_audio.
  erewrite RunFacts.bind_exit
    by (eapply RemuxMore.run_command_fails; [exact Hrun | exact Hrc]).
  reflexivity.
Qed.

Lemma X5_failed_remux_witness :
  let r := Mkv.audio_filter (Sim.failing "half a film") "movie.mkv" "eng" false
             Sim.eng_and_jpn (Sim.world "movie.mkv" "the whole film") in
  fst r = Exit 1 /\
  files (snd r) !! "movie_eng.mkv" = Some "half a film" /\
  files (snd r) !! "movie.mkv" = Some "the whole film".
Proof.
  cbv zeta.
  rewrite (X5_failed_remux_is_fatal_and_leaves_temp (Sim.failing "half a film")
             "movie.mkv" "eng" Sim.eng_and_jpn
             (Sim.world "movie.mkv" "the whole film") 2 "" "Error: disk full"
             (<["movie_eng.mkv" := "half a film"]>
                (files (Sim.world "movie.mkv" "the whole film")))).
  - repeat split.
  - vm_compute. discriminate.
  - vm_compute. discriminate.
  - reflexivity.
  - discriminate.
Defined.

(** X6: when it remuxes, the audio filter runs one command: mkvmerge
    writing the temp file, keeping video track 0 and the audio tracks of
    the requested language; its comma-joined id list splits back into the
    ids of those tracks, in the order of the listing. *)
Theorem X6_remux_command_lists_target_ids
    (tools : Tools) (file keep : string) (tracks : list Track) (w : World) :
  Mkv.target_tracks_of keep tracks <> [] ->
  Mkv.non_target_tracks_of keep tracks <> [] ->
  Forall (fun t => PyStr.lacks "," (track_id t) = true) tracks ->
  exists ids,
    cmds (snd (Mkv.audio_filter tools file keep false tracks w)) =
    cmds w ++ [["mkvmerge"; "-o"; Mkv.audio_temp_file file keep;
                "--video-tracks"; "0"; "--audio-tracks"; ids; file]] /\
    PyStr.split "," ids =
    map track_id (filter (fun t => track_type t = "audio" /\ language t = keep) tracks).
Proof.
  intros Ht Hn Hids.
  exists (PyStr.join "," (map track_id (Mkv.target_tracks_of keep tracks))). split.
  - rewrite RunFacts.audio_filter_run. cbv zeta.
    destruct (Mkv.non_target_tracks_of keep tracks); [congruence |].
    remember (Mkv.target_tracks_of keep tracks) as target eqn:Et.
    destruct target as [|t0 l0]; [congruence |].
    rewrite RemuxMore.remux_audio_cmds. reflexivity.
  - assert (Hsame : Mkv.target_tracks_of keep tracks =
                    filter (fun t => track_type t = "audio" /\ language t = keep) tracks).
    { unfold Mkv.target_tracks_of, Mkv.audio_tracks_of.
      rewrite list_filter_filter. apply list_filter_iff. intros t. tauto. }
    rewrite <- Hsame. apply RemuxMore.split_join_char.
    + destruct (Mkv.target_tracks_of keep tracks); [congruence | discriminate].
    + apply Forall_forall. intros i Hi.
      apply list_elem_of_fmap in Hi as (t & -> & Hin).
      unfold Mkv.target_tracks_of, Mkv.audio_tracks_of in Hin.
      apply list_elem_of_filter in Hin as [_ Hin].
      apply list_elem_of_filter in Hin as [_ Hin].
      rewrite Forall_forall in Hids. apply Hids, Hin.
Qed.

Lemma X6_remux_command_witness :
  exists ids,
    cmds (snd (Mkv.audio_filter (Sim.tools "" 0) "movie.mkv" "eng" false
                 [mkTrack "0" "video" "und" "V"; mkTrack "1" "audio" "eng" "A";
                  mkTrack "2" "audio" "jpn" "A"; mkTrack "3" "audio" "eng" "A"]
                 (Sim.world "movie.mkv" "film"))) =
    [] ++ [["mkvmerge"; "-o"; Mkv.audio_temp_file "movie.mkv" "eng";
            "--video-tracks"; "0"; "--audio-tracks"; ids; "movie.mkv"]] /\
    PyStr.split "," ids = ["1"; "3"].
Proof.
  apply (X6_remux_command_lists_target_ids (Sim.tools "" 0) "movie.mkv" "eng"
           [mkTrack "0" "video" "und" "V"; mkTrack "1" "audio" "eng" "A";
            mkTrack "2" "audio" "jpn" "A"; mkTrack "3" "audio" "eng" "A"]
           (Sim.world "movie.mkv" "film")).
  - vm_compute. discriminate.
  - vm_compute. discriminate.
  - repeat constructor.
Defined.

Module ProbeFacts.

Lemma probes_only_bind (probe : list string) {A B} (m : M A) (k : A -> M B) :
  probes_only probe m -> (forall a, probes_only probe (k a)) ->
  probes_only probe (bind m k).
Proof.
  intros Hm Hk w. unfold bind. destruct (Hm w) as [Hf [n Hn]].
  destruct (m w) as [[a | c | e] w1]; cbn [snd] in *.
  - destruct (Hk a w1) as [Hf' [n' Hn']]. split; [congruence |].
    exists (n + n')%nat. rewrite Hn', Hn, <- app_assoc.
    now rewrite replicate_add.
  - split; [exact Hf | exists n; exact Hn].
  - split; [exact Hf | exists n; exact Hn].
Qed.

Lemma probes_only_print_only (probe : list string) {A} (m : M A) :
  print_only m -> probes_only probe m.
Proof.
  intros H w. destruct (H w) as [lines ->]. split; [reflexivity |].
  exists 0%nat. cbn. now rewrite app_nil_r.
Qed.

Lemma probes_only_probe (tools : Tools) (probe : list string) :
  read_only tools probe -> probes_only probe (Mkv.run_command tools probe).
Proof.
  intros H w. split; [now apply DryFacts.run_command_files |].
  exists 1%nat. apply TitleFacts.run_command_cmds.
Qed.

Lemma probes_only_title (tools : Tools) (file : string) :
  read_only tools ["mkvinfo"; file] ->
  probes_only ["mkvinfo"; file] (Mkv.title_normalizer tools file true).
Proof.
  intros H. unfold Mkv.title_normalizer.
  apply probes_only_bind; [now apply probes_only_probe | intros r].
  apply probes_only_bind.
  { apply probes_only_print_only, EffectFacts.print_only_pure. }
  intros found. apply probes_only_print_only.
  destruct (bool_decide _); apply EffectFacts.print_only_print.
Qed.

(** A whole dry run of the processor. *)
Lemma probes_only_process (tools : Tools) (file : string)
    (delete_subtitles : bool) (keep_language : option string) :
  read_only tools ["mkvinfo"; file] ->
  probes_only ["mkvinfo"; file]
    (Mkv.process_mkv_file tools file delete_subtitles keep_language true).
Proof.
  intros H. unfold Mkv.process_mkv_file, Os.path_exists.
  apply probes_only_bind.
  { apply probes_only_print_only. intros w. exists []. apply EffectFacts.with_out_nil. }
  intros present. destruct (negb present).
  { apply probes_only_print_only, EffectFacts.print_only_print. }
  do 2 (apply probes_only_bind;
        [apply probes_only_print_only, EffectFacts.print_only_print | intros _]).
  apply probes_only_bind.
  { unfold Mkv.parse_tracks. apply probes_only_bind;
      [now apply probes_only_probe | intros r].
    apply probes_only_print_only, EffectFacts.print_only_pure. }
  intros tracks.
  apply probes_only_bind.
  { apply probes_only_print_only, EffectFacts.print_only_for_each. intros t.
    apply EffectFacts.print_only_print. }
  intros _.
  apply probes_only_bind;
    [apply probes_only_print_only, EffectFacts.print_only_print | intros _].
  apply probes_only_bind.
  { apply probes_only_print_only. destruct (Mkv.requested keep_language).
    - apply DryFacts.audio_dry_print_only.
    - apply EffectFacts.print_only_ret. }
  intros _. apply probes_only_bind.
  { apply probes_only_print_only, EffectFacts.print_only_when,
      DryFacts.subtitle_dry_print_only. }
  intros _. apply probes_only_bind; [now apply probes_only_title | intros _].
  apply probes_only_print_only, EffectFacts.print_only_print.
Qed.

End ProbeFacts.

(** X7: when the info tool fails on the first probe, the processor prints
    the command and the tool's error stream and exits with 1: no track is
    listed, no later step runs, and the script itself changes no file. *)
Theorem X7_failed_probe_is_fatal
    (tools : Tools) (file : string) (delete_subtitles : bool)
    (keep_language : option string) (dry_run : bool) (w : World)
    (rc : Z) (so se : string) (fs : gmap string string) :
  is_Some (files w !! file) ->
  tools ["mkvinfo"; file] (files w) = Ran rc so se fs ->
  rc <> 0 ->
  Mkv.process_mkv_file tools file delete_subtitles keep_language dry_run w =
  (Exit 1,
   mkWorld fs
     ((out w ++ ["Tracks in '" +:+ file +:+ "':"; Mkv.rule]) ++
      Report.failure_lines ["mkvinfo"; file] se)
     (cmds w ++ [["mkvinfo"; file]])).
Proof.
  intros Hfile Hrun Hrc. unfold Mkv.process_mkv_file.
  erewrite RunFacts.bind_ret by reflexivity.
  rewrite bool_decide_eq_true_2 by exact Hfile. cbn [negb].
  do 2 erewrite RunFacts.bind_ret by apply RunFacts.print_run.
  erewrite RunFacts.bind_exit.
  2:{ unfold Mkv.parse_tracks. erewrite RunFacts.bind_exit; [reflexivity |].
      eapply RemuxMore.run_command_fails; [exact Hrun | exact Hrc]. }
  cbn. now rewrite <- !app_assoc.
Qed.

Lemma X7_failed_probe_witness :
  exit_status
    (fst (Mkv.process_mkv_file (Sim.failing "") "movie.mkv" true (Some "eng") false
            (Sim.world "movie.mkv" "film"))) = 1.
Proof.
  erewrite (X7_failed_probe_is_fatal (Sim.failing "") "movie.mkv" true (Some "eng")
              false (Sim.world "movie.mkv" "film") 2).
  - reflexivity.
  - eexists. reflexivity.
  - reflexivity.
  - discriminate.
Defined.

(** X8: a whole dry run of the processor, whatever the options and the
    listing, changes no file and runs no command other than the info probe
    of the file, given that the probe itself changes no file. *)
Theorem X8_dry_run_of_processor_only_probes
    (tools : Tools) (file : string) (delete_subtitles : bool)
    (keep_language : option string) (w : World) :
  read_only tools ["mkvinfo"; file] ->
  let w' := snd (Mkv.process_mkv_file tools file delete_subtitles keep_language
                   true w) in
  files w' = files w /\
  exists n, cmds w' = cmds w ++ replicate n ["mkvinfo"; file].
Proof. intros H. now apply ProbeFacts.probes_only_process. Qed.

Lemma X8_dry_run_of_processor_witness :
  let w := Sim.world "movie.mkv"
             (Listing.listing []
                [Listing.mkBlock "1" "0" [Listing.AType " audio"; Listing.ALanguage " eng"];
                 Listing.mkBlock "2" "1" [Listing.AType " audio"; Listing.ALanguage " jpn"];
                 Listing.mkBlock "3" "2" [Listing.AType " subtitles"]]) in
  let w' := snd (Mkv.process_mkv_file (Sim.tools "" 0) "movie.mkv" true (Some "eng")
                   true w) in
  files w' = files w /\
  exists n, cmds w' = cmds w ++ replicate n ["mkvinfo"; "movie.mkv"].
Proof.
  apply (X8_dry_run_of_processor_only_probes (Sim.tools "" 0) "movie.mkv" true
           (Some "eng")).
  intros fs. cbn. destruct (fs !! "movie.mkv"); reflexivity.
Defined.

(** X9: when one of mkvmerge, mkvpropedit and mkvinfo is in no directory of
    PATH, the processor names the first one missing, in that order, and
    exits with 1 before it looks at the file: no command is run and no file
    is changed, whatever the file argument and the options. *)
Theorem X9_missing_tool_stops_the_processor
    (tools : Tools) (env_PATH : string) (args : Mkv.Args) (file cmd : string)
    (w : World) :
  Mkv.arg_file args = Some file ->
  Parser.truthy file = true ->
  Report.first_missing env_PATH (files w) = Some cmd ->
  Mkv.main tools (Some env_PATH) args w =
  (Exit 1,
   with_out (out w ++ ["Error: " +:+ cmd +:+
                       " is not installed. Please install mkvtoolnix first."]) w).
Proof.
  intros Hfile Htruthy Hmiss. unfold Mkv.main. rewrite Hfile, Htruthy. cbn [negb].
  erewrite RunFacts.bind_exit; [reflexivity |].
  revert Hmiss. unfold Report.first_missing, Report.installed,
    Mkv.check_mkvtoolnix_installed, Mkv.on_path.
  cbn [List.find for_each]. unfold bind, ret, print, sys_exit.
  repeat match goal with
    | |- context [existsb ?f ?l] => destruct (existsb f l); cbn [negb]
    end; intros [= <-]; reflexivity.
Qed.

Lemma X9_missing_tool_witness :
  Mkv.main (Sim.tools "" 0) (Some "/usr/local/bin:/opt/bin")
    (Mkv.mkArgs (Some "movie.mkv") None false false)
    (Sim.world "movie.mkv" "film") =
  (Exit 1,
   with_out (out (Sim.world "movie.mkv" "film") ++
             ["Error: " +:+ "mkvmerge" +:+
              " is not installed. Please install mkvtoolnix first."])
     (Sim.world "movie.mkv" "film")).
Proof.
  apply (X9_missing_tool_stops_the_processor (Sim.tools "" 0)
           "/usr/local/bin:/opt/bin"
           (Mkv.mkArgs (Some "movie.mkv") None false false) "movie.mkv" "mkvmerge");
    reflexivity.
Defined.

Module PathFacts.
Import PyStr Os StrFacts.

Lemma rfind_lower (c : ascii) (s : string) : -1 <= rfind c s.
Proof.
  induction s as [|a s IH]; cbn [rfind]; [lia |].
  destruct (0 <=? rfind c s) eqn:E; [apply Z.leb_le in E; lia |].
  destruct (Ascii.eqb a c); lia.
Qed.

Lemma rfind_lacks (c : ascii) (s : string) : lacks c s = true -> rfind c s = -1.
Proof.
  induction s as [|a s IH]; [reflexivity |]. cbn [lacks rfind]. intros H.
  apply andb_true_iff in H as [Ha Hs]. rewrite (IH Hs). cbn.
  apply negb_true_iff in Ha. now rewrite Ha.
Qed.

Lemma rfind_app_found (c : ascii) (a b : string) :
  0 <= rfind c b ->
  rfind c (a +:+ b) = Z.of_nat (String.length a) + rfind c b.
Proof.
  intros Hb. induction a as [|x a IH]; [cbn; lia |].
  change (String x a +:+ b) with (String x (a +:+ b)).
  cbn [rfind String.length]. rewrite IH.
  destruct (0 <=? Z.of_nat (String.length a) + rfind c b) eqn:E; [lia |].
  apply Z.leb_gt in E. lia.
Qed.

Lemma rfind_app_lacks (c : ascii) (a b : string) :
  lacks c b = true -> rfind c (a +:+ b) = rfind c a.
Proof.
  intros Hb. induction a as [|x a IH].
  - cbn. now apply rfind_lacks.
  - change (String x a +:+ b) with (String x (a +:+ b)).
    cbn [rfind]. now rewrite IH.
Qed.

Lemma take_app (a b : string) : take (String.length a) (a +:+ b) = a.
Proof.
  induction a as [|x a IH]; [destruct b; reflexivity |].
  change (String x a +:+ b) with (String x (a +:+ b)). cbn. now rewrite IH.
Qed.

Lemma drop_app (a b : string) : drop (String.length a) (a +:+ b) = b.
Proof.
  induction a as [|x a IH]; [destruct b; reflexivity |].
  change (String x a +:+ b) with (String x (a +:+ b)). cbn. exact IH.
Qed.

(** The last separator of a path made of a directory prefix and a name. *)
Lemma rfind_sep (pre rest : string) :
  (pre = "" \/ exists d, pre = d +:+ "/") -> lacks "/" rest = true ->
  rfind "/" (pre +:+ rest) = Z.of_nat (String.length pre) - 1.
Proof.
  intros [-> | [d ->]] Hrest.
  - cbn. now apply rfind_lacks.
  - rewrite rfind_app_lacks by exact Hrest.
    rewrite rfind_app_found by (cbn; lia).
    rewrite append_length. cbn. lia.
Qed.

Lemma dots_lack_sep (name : string) : all_dots name = true -> lacks "/" name = true.
Proof.
  induction name as [|c name IH]; [reflexivity |].
  cbn. intros H. apply andb_true_iff in H as [Hc Hn].
  apply Ascii.eqb_eq in Hc as ->. cbn. auto.
Qed.

(** [splitext] on a path that ends in a name and an extension; a name made
    of dots only (or empty) hides the extension. *)
Lemma splitext_path (pre name ext : string) :
  (pre = "" \/ exists d, pre = d +:+ "/") ->
  lacks "/" name = true ->
  lacks "/" ext = true -> lacks "." ext = true ->
  splitext (pre +:+ name +:+ String "." ext) =
  if all_dots name then (pre +:+ name +:+ String "." ext, "")
  else (pre +:+ name, String "." ext).
Proof.
  intros Hpre Hname Hext1 Hext2. unfold splitext.
  assert (Hsep : rfind "/" (pre +:+ name +:+ String "." ext) =
                 Z.of_nat (String.length pre) - 1).
  { apply rfind_sep; [exact Hpre |]. rewrite lacks_app, Hname. cbn. exact Hext1. }
  assert (Hdot : rfind "." (pre +:+ name +:+ String "." ext) =
                 Z.of_nat (String.length (pre +:+ name))).
  { rewrite <- append_assoc. rewrite rfind_app_found.
    - cbn [rfind]. rewrite (rfind_lacks "." ext Hext2). cbn. lia.
    - cbn [rfind]. rewrite (rfind_lacks "." ext Hext2). cbn. lia. }
  rewrite Hsep, Hdot.
  assert (Hlt : (Z.of_nat (String.length pre) - 1 <?
                 Z.of_nat (String.length (pre +:+ name))) = true).
  { apply Z.ltb_lt. rewrite append_length. lia. }
  rewrite Hlt, Nat2Z.id.
  replace (Z.to_nat (Z.of_nat (String.length pre) - 1 + 1))
    with (String.length pre) by lia.
  rewrite <- append_assoc, take_app, drop_app, drop_app.
  destruct (all_dots name); reflexivity.
Qed.

Lemma basename_path (pre rest : string) :
  (pre = "" \/ exists d, pre = d +:+ "/") -> lacks "/" rest = true ->
  basename (pre +:+ rest) = rest.
Proof.
  intros Hpre Hrest. unfold basename. rewrite (rfind_sep pre rest Hpre Hrest).
  replace (Z.to_nat (Z.of_nat (String.length pre) - 1 + 1))
    with (String.length pre) by lia.
  apply drop_app.
Qed.

End PathFacts.

(** X10: for a file named [name].mkv in any directory, the expected title
    is [name], the temp file of the audio filter is [name]_[language].mkv
    and that of the subtitle stripper [name]_no_subtitles.mkv, both in the
    directory of the file.  When [name] is empty or made of dots only, as
    in ".mkv", the extension is not split off: the title is the whole file
    name and the temp names are built on the whole path. *)
Theorem X10_title_and_temp_names
    (pre name keep : string) :
  (pre = "" \/ exists d, pre = d +:+ "/") ->
  PyStr.lacks "/" name = true ->
  let file := pre +:+ name +:+ ".mkv" in
  let root := if Os.all_dots name then file else pre +:+ name in
  Mkv.expected_title file = (if Os.all_dots name then name +:+ ".mkv" else name) /\
  Mkv.audio_temp_file file keep = root +:+ "_" +:+ keep +:+ ".mkv" /\
  Mkv.subtitle_temp_file file = root +:+ "_no_subtitles.mkv".
Proof.
  intros Hpre Hname file root.
  assert (Hsplit : Os.splitext file =
                   if Os.all_dots name then (file, "") else (pre +:+ name, ".mkv")).
  { apply (PathFacts.splitext_path pre name "mkv" Hpre Hname); reflexivity. }
  split; [| split].
  - unfold Mkv.expected_title, file.
    rewrite (PathFacts.basename_path pre (name +:+ ".mkv") Hpre).
    2:{ rewrite StrFacts.lacks_app, Hname. reflexivity. }
    rewrite (PathFacts.splitext_path "" name "mkv" (or_introl eq_refl) Hname
               eq_refl eq_refl : Os.splitext (name +:+ ".mkv") = _).
    destruct (Os.all_dots name); reflexivity.
  - unfold Mkv.audio_temp_file, root. rewrite Hsplit.
    destruct (Os.all_dots name); reflexivity.
  - unfold Mkv.subtitle_temp_file, root. rewrite Hsplit.
    destruct (Os.all_dots name); reflexivity.
Qed.

Lemma X10_title_and_temp_names_witness :
  Mkv.expected_title ("films/2024/" +:+ "holiday.part1" +:+ ".mkv") = "holiday.part1" /\
  Mkv.audio_temp_file ("films/2024/" +:+ "holiday.part1" +:+ ".mkv") "eng" =
    ("films/2024/" +:+ "holiday.part1") +:+ "_" +:+ "eng" +:+ ".mkv" /\
  Mkv.subtitle_temp_file ("films/2024/" +:+ "holiday.part1" +:+ ".mkv") =
    ("films/2024/" +:+ "holiday.part1") +:+ "_no_subtitles.mkv".
Proof.
  apply (X10_title_and_temp_names "films/2024/" "holiday.part1" "eng").
  - right. exists "films/2024". reflexivity.
  - reflexivity.
Defined.

Module TitleMore.
Import PyStr Parser Listing StrFacts.

Lemma probe_lines_skip (before rest : list string) :
  forallb untitled before = true ->
  probe_lines (before ++ rest) = probe_lines rest.
Proof.
  induction before as [|l before IH]; intros H; [reflexivity |].
  cbn [forallb] in H. apply andb_true_iff in H as [Hl Hb].
  unfold untitled in Hl. apply andb_true_iff in Hl as [_ Hl].
  apply negb_true_iff in Hl. cbn [app probe_lines]. rewrite Hl. apply IH, Hb.
Qed.

Lemma title_line_field (w : string) :
  lacks ":" w = true -> field (marker_title +:+ w) = Some (strip w).
Proof.
  intros Hw. unfold field, split1.
  change (marker_title +:+ w) with ("|  + Title" +:+ String ":" w).
  rewrite split_char_app by reflexivity.
  rewrite split_char_none by exact Hw. reflexivity.
Qed.

(** The probe reads back the title of the first title line. *)
Lemma probe_titled (before : list string) (w : string) (after : list string) :
  forallb untitled before = true ->
  lacks ":" w = true -> lacks "010" w = true ->
  forallb (lacks "010") after = true ->
  probe_title (titled before w after) = Ret (Some (strip w)).
Proof.
  intros Hb Hw Hnl Ha. unfold probe_title, titled.
  rewrite ParserFacts.split_join.
  - rewrite (probe_lines_skip before _ Hb). cbn [probe_lines].
    rewrite (contains_intro marker_title "" w
             : contains marker_title (marker_title +:+ w) = true).
    now rewrite title_line_field.
  - destruct before; discriminate.
  - rewrite forallb_app. apply andb_true_iff. split.
    + rewrite forallb_forall in *. intros l Hl. specialize (Hb l Hl).
      unfold untitled in Hb. now apply andb_true_iff in Hb as [Hb _].
    + cbn [forallb]. rewrite lacks_app, Hnl, Ha. reflexivity.
Qed.

End TitleMore.

(** X3: when the info tool prints a listing whose first title line carries
    the file name without its extension, with any padding and no colon,
    the title normalizer, dry run or not, runs the probe and nothing else
    and reports that the title is in place. *)
Theorem X3_title_in_place_is_left_alone
    (tools : Tools) (file : string) (dry_run : bool) (w : World)
    (before after : list string) (t se : string) (fs : gmap string string) :
  forallb Listing.untitled before = true ->
  PyStr.lacks ":" t = true -> PyStr.lacks "010" t = true ->
  forallb (PyStr.lacks "010") after = true ->
  PyStr.strip t = Mkv.expected_title file ->
  tools ["mkvinfo"; file] (files w) = Ran 0 (Listing.titled before t after) se fs ->
  Mkv.title_normalizer tools file dry_run w =
  (Ret tt,
   mkWorld fs
     (out w ++ ["The title of '" +:+ file +:+
                "' already matches the filename. No change needed."])
     (cmds w ++ [["mkvinfo"; file]])).
Proof.
  intros Hb Ht Hnl Ha Hexp Hrun.
  destruct (DryFacts.title_after_probe tools file dry_run w _ se fs Hrun)
    as (found & Hf & ->).
  rewrite (TitleMore.probe_titled before t after Hb Ht Hnl Ha) in Hf.
  injection Hf as <-. cbv zeta. rewrite Hexp.
  rewrite bool_decide_eq_false_2 by auto. reflexivity.
Qed.

Lemma X3_title_in_place_witness :
  Mkv.title_normalizer (Sim.tools "" 0) "films/movie.mkv" false
    (Sim.world "films/movie.mkv"
       (Listing.titled ["|+ Segment information"] "   movie " ["|+ Tracks"])) =
  (Ret tt,
   mkWorld
     (files (Sim.world "films/movie.mkv"
               (Listing.titled ["|+ Segment information"] "   movie " ["|+ Tracks"])))
     ([] ++ ["The title of '" +:+ "films/movie.mkv" +:+
             "' already matches the filename. No change needed."])
     ([] ++ [["mkvinfo"; "films/movie.mkv"]])).
Proof.
  apply (X3_title_in_place_is_left_alone (Sim.tools "" 0) "films/movie.mkv" false
           (Sim.world "films/movie.mkv"
              (Listing.titled ["|+ Segment information"] "   movie " ["|+ Tracks"]))
           ["|+ Segment information"] ["|+ Tracks"] "   movie " "");
    reflexivity.
Defined.

(* ================================================================== *)
(** ** Further properties of the stitcher *)
(* ================================================================== *)

Module StitchMore.
Import PyStr StrFacts.

Lemma lower_app (a b : string) : lower (a +:+ b) = lower a +:+ lower b.
Proof.
  induction a as [|c a IH]; [reflexivity |].
  change (String c a +:+ b) with (String c (a +:+ b)). cbn. now rewrite IH.
Qed.

Lemma lower_length (s : string) : String.length (lower s) = String.length s.
Proof. induction s as [|c s IH]; cbn; congruence. Qed.

Lemma lower_drop (n : nat) (s : string) : lower (drop n s) = drop n (lower s).
Proof.
  revert s; induction n as [|n IH]; intros [|c s]; cbn; try reflexivity. apply IH.
Qed.

Lemma endswith_app (suf a : string) : endswith suf (a +:+ suf) = true.
Proof.
  induction a as [|c a IH].
  - change ("" +:+ suf) with suf. destruct suf; cbn; [reflexivity |].
    now rewrite Ascii.eqb_refl, String.eqb_refl.
  - change (String c a +:+ suf) with (String c (a +:+ suf)).
    cbn [endswith]. rewrite IH. apply orb_true_r.
Qed.

Lemma endswith_inv (suf s : string) :
  endswith suf s = true -> exists a, s = a +:+ suf.
Proof.
  induction s as [|c s IH]; cbn [endswith]; intros H.
  - rewrite orb_false_r in H. apply String.eqb_eq in H as <-. exists "". reflexivity.
  - apply orb_true_iff in H as [H | H].
    + apply String.eqb_eq in H as <-. exists "". reflexivity.
    + destruct (IH H) as [a ->]. exists (String c a). reflexivity.
Qed.

(** *** Sorting *)

Section Sorting.
Context {A : Type} (le : A -> A -> bool).
Hypothesis le_total : forall x y, le x y = true \/ le y x = true.

Lemma insert_by_perm (x : A) (l : list A) :
  Stitcher.insert_by le x l ≡ₚ x :: l.
Proof.
  induction l as [|y l IH]; cbn; [reflexivity |].
  destruct (le x y); [reflexivity |].
  rewrite IH. apply Permutation_swap.
Qed.

Lemma sorted_by_perm (l : list A) : Stitcher.sorted_by le l ≡ₚ l.
Proof.
  unfold Stitcher.sorted_by. induction l as [|x l IH]; cbn; [reflexivity |].
  now rewrite insert_by_perm, IH.
Qed.

Lemma insert_by_sorted (x : A) (l : list A) :
  Sorted (fun a b => le a b = true) l ->
  Sorted (fun a b => le a b = true) (Stitcher.insert_by le x l).
Proof.
  induction l as [|y l IH]; intros Hs; cbn.
  - repeat constructor.
  - destruct (le x y) eqn:E.
    + constructor; [exact Hs | constructor; exact E].
    + inversion Hs as [|? ? Hs' Hhd]; subst. constructor; [apply IH, Hs' |].
      destruct l as [|z l]; cbn.
      * constructor. destruct (le_total x y); congruence.
      * destruct (le x z); constructor.
        -- destruct (le_total x y); congruence.
        -- now inversion Hhd.
Qed.

Lemma sorted_by_sorted (l : list A) :
  Sorted (fun a b => le a b = true) (Stitcher.sorted_by le l).
Proof.
  unfold Stitcher.sorted_by. induction l as [|x l IH]; cbn; [constructor |].
  now apply insert_by_sorted.
Qed.

End Sorting.

Lemma key_le_total (sort_by : string) (x y : string * Z) :
  Report.key_le sort_by x y = true \/ Report.key_le sort_by y x = true.
Proof.
  unfold Report.key_le. destruct (String.eqb sort_by "creation_date").
  - destruct (Z.leb_spec (snd x) (snd y)); [left; reflexivity |].
    right. apply Z.leb_le. lia.
  - apply String.leb_total.
Qed.


Section Collecting.

Variable getmtime : string -> option Z.

(** The files collected for the merge, when every modification time can be
    read. *)
Lemma collect_result (input_dir : string) (names : list string) (w : World) :
  Forall (fun f => Stitcher.is_video_file f = true ->
                   is_Some (getmtime (Os.path_join input_dir f))) names ->
  Stitcher.collect getmtime input_dir names w =
  (Ret (omap (Report.dated getmtime input_dir) names), w).
Proof.
  induction names as [|f names IH]; intros H; [reflexivity |].
  inversion H as [|? ? Hf Hr]; subst. specialize (IH Hr).
  cbn [Stitcher.collect].
  change (omap (Report.dated getmtime input_dir) (f :: names))
    with (match Report.dated getmtime input_dir f with
          | Some y => y :: omap (Report.dated getmtime input_dir) names
          | None => omap (Report.dated getmtime input_dir) names
          end).
  unfold Report.dated at 1.
  destruct (Stitcher.is_video_file f); [| exact IH].
  destruct (Hf eq_refl) as [t Ht]. rewrite Ht. unfold bind. rewrite IH.
  reflexivity.
Qed.

Lemma dated_none (input_dir : string) (names : list string) :
  Forall (fun n => Stitcher.is_video_file n = false) names ->
  omap (Report.dated getmtime input_dir) names = [].
Proof.
  induction 1 as [|n names Hn _ IH]; [reflexivity |].
  change (omap (Report.dated getmtime input_dir) (n :: names))
    with (match Report.dated getmtime input_dir n with
          | Some y => y :: omap (Report.dated getmtime input_dir) names
          | None => omap (Report.dated getmtime input_dir) names
          end).
  unfold Report.dated at 1. rewrite Hn. exact IH.
Qed.

End Collecting.

End StitchMore.

(** X11: a directory entry counts as a video file exactly when it ends in
    ".mov" or ".mp4" in any mix of upper and lower case. *)
Theorem X11_video_files_by_suffix_any_case (filename : string) :
  Stitcher.is_video_file filename = true <->
  exists stem ext,
    filename = stem +:+ ext /\
    (PyStr.lower ext = ".mov" \/ PyStr.lower ext = ".mp4").
Proof.
  unfold Stitcher.is_video_file. split.
  - intros H. apply orb_true_iff in H.
    assert (Hsuf : exists suf a, PyStr.lower filename = a +:+ suf /\
                                 String.length suf = 4%nat /\
                                 (suf = ".mov" \/ suf = ".mp4")).
    { destruct H as [H | H]; apply StitchMore.endswith_inv in H as [a Ha];
        eexists; exists a; (split; [exact Ha |]); split; auto. }
    destruct Hsuf as (suf & a & Ha & Hlen & Hsuf).
    exists (PyStr.take (String.length a) filename),
           (PyStr.drop (String.length a) filename).
    split; [apply RunFacts.take_drop |].
    rewrite StitchMore.lower_drop, Ha, PathFacts.drop_app. exact Hsuf.
  - intros (stem & ext & -> & Hext). rewrite StitchMore.lower_app.
    apply orb_true_iff.
    destruct Hext as [-> | ->]; [left | right]; apply StitchMore.endswith_app.
Qed.

Lemma X11_video_files_witness : Stitcher.is_video_file "Holiday.Clip.Mp4" = true.
Proof.
  apply (proj2 (X11_video_files_by_suffix_any_case "Holiday.Clip.Mp4")).
  exists "Holiday.Clip", ".Mp4". split; [reflexivity | right; reflexivity].
Defined.

(** X12: for either sort key, when the directory can be listed and every
    modification time read, the files to merge are the video files of the
    listing with their times, each as often as it is listed, in ascending
    order of the key (name, or time for "creation_date"); the world is left
    as it was. *)
Theorem X12_files_to_merge_are_sorted
    (listdir : string -> option (list string)) (getmtime : string -> option Z)
    (input_dir sort_by : string) (names : list string) (w : World) :
  sort_by = "filename" \/ sort_by = "creation_date" ->
  listdir input_dir = Some names ->
  Forall (fun f => Stitcher.is_video_file f = true ->
                   is_Some (getmtime (Os.path_join input_dir f))) names ->
  exists video_files,
    Stitcher.get_sorted_video_files listdir getmtime input_dir sort_by w =
      (Ret video_files, w) /\
    video_files ≡ₚ omap (Report.dated getmtime input_dir) names /\
    Sorted (fun x y => Report.key_le sort_by x y = true) video_files.
Proof.
  intros Hsort Hl Ht.
  exists (Stitcher.sorted_by (Report.key_le sort_by)
            (omap (Report.dated getmtime input_dir) names)).
  split; [| split].
  - unfold Stitcher.get_sorted_video_files. rewrite Hl.
    assert (Hv : negb (String.eqb sort_by "filename" ||
                       String.eqb sort_by "creation_date") = false)
      by (destruct Hsort as [-> | ->]; reflexivity).
    rewrite Hv.
    erewrite RunFacts.bind_ret by (apply StitchMore.collect_result; exact Ht).
    unfold Report.key_le.
    destruct (String.eqb sort_by "creation_date"); reflexivity.
  - apply StitchMore.sorted_by_perm.
  - apply StitchMore.sorted_by_sorted, StitchMore.key_le_total.
Qed.

Lemma X12_files_to_merge_witness :
  exists video_files,
    Stitcher.get_sorted_video_files Sim.listdir Sim.getmtime "clips" "filename"
      Sim.empty_world = (Ret video_files, Sim.empty_world) /\
    video_files ≡ₚ omap (Report.dated Sim.getmtime "clips")
                     ["b.mp4"; "notes.txt"; "a.MOV"] /\
    Sorted (fun x y => Report.key_le "filename" x y = true) video_files.
Proof.
  apply (X12_files_to_merge_are_sorted Sim.listdir Sim.getmtime "clips" "filename"
           ["b.mp4"; "notes.txt"; "a.MOV"] Sim.empty_world).
  - left. reflexivity.
  - reflexivity.
  - repeat constructor; intros _; eexists; reflexivity.
Defined.


(* ================================================================== *)
(** ** The probes of the stitcher *)
(* ================================================================== *)

Module ProbingFacts.
Import EffectFacts.

Section Probing.

Variable which : string -> bool.
Variable listdir : string -> option (list string).
Variable read_stream : string -> string -> string + Stitcher.Details.
Variable strerror : list string -> string.
Variable getmtime : string -> option Z.
Variable strftime : Z -> string.
Variable temp_name : string.
Variable tools : Tools.

Let details_in := Report.details_in read_stream strerror tools.
Let get_video_details := Stitcher.get_video_details read_stream strerror tools.
Let scan := Stitcher.scan read_stream strerror tools.
Let verify_resolutions :=
  Stitcher.verify_resolutions listdir read_stream strerror tools.

Lemma probing_print_only {A} (m : M A) :
  print_only m -> Report.probing tools m.
Proof.
  intros H w. destruct (H w) as [l ->]. exists []. cbn.
  rewrite app_nil_r. split; [reflexivity |]. split; [constructor | reflexivity].
Qed.

Lemma probing_bind {A B} (m : M A) (k : A -> M B) :
  Report.probing tools m -> (forall a, Report.probing tools (k a)) ->
  Report.probing tools (bind m k).
Proof.
  intros Hm Hk w. unfold bind. destruct (Hm w) as (s1 & Hc1 & Hp1 & Hf1).
  destruct (m w) as [[a | c | e] w1]; cbn [snd] in *.
  - destruct (Hk a w1) as (s2 & Hc2 & Hp2 & Hf2). exists (s1 ++ s2).
    split; [rewrite Hc2, Hc1; now rewrite app_assoc |].
    split; [apply Forall_app; split; assumption |].
    intros Hro. rewrite (Hf2 Hro). exact (Hf1 Hro).
  - exists s1. repeat split; assumption.
  - exists s1. repeat split; assumption.
Qed.

(** What the probe of one file returns and leaves. *)
Lemma details_run (file_path : string) (w : World) :
  exists w',
    get_video_details file_path w = (Ret (details_in (files w) file_path), w') /\
    out w' = out w.
Proof.
  unfold get_video_details, Stitcher.get_video_details, details_in,
    Report.details_in, bind, Os.path_exists.
  destruct (bool_decide (is_Some (files w !! file_path))); cbn [negb].
  - destruct (tools (Stitcher.ffprobe_cmd file_path) (files w))
      as [rc so se fs|]; eexists; split; reflexivity.
  - eexists; split; reflexivity.
Qed.

Lemma details_run_read_only (file_path : string) (w : World) :
  Report.probes_read_only tools ->
  get_video_details file_path w =
  (Ret (details_in (files w) file_path),
   with_cmds (cmds w ++
              if bool_decide (is_Some (files w !! file_path))
              then [Stitcher.ffprobe_cmd file_path] else []) w).
Proof.
  intros Hro. specialize (Hro file_path (files w)).
  unfold get_video_details, Stitcher.get_video_details, details_in,
    Report.details_in, bind, Os.path_exists.
  destruct (bool_decide (is_Some (files w !! file_path))); cbn [negb].
  - destruct (tools (Stitcher.ffprobe_cmd file_path) (files w))
      as [rc so se fs|]; [subst fs |]; destruct w; reflexivity.
  - unfold ret. rewrite app_nil_r. destruct w; reflexivity.
Qed.

Lemma probing_details (file_path : string) :
  Report.probing tools (get_video_details file_path).
Proof.
  intros w.
  unfold get_video_details, Stitcher.get_video_details, bind, Os.path_exists.
  destruct (bool_decide (is_Some (files w !! file_path))); cbn [negb].
  - exists [Stitcher.ffprobe_cmd file_path].
    assert (Hp : Forall Stitcher.is_probe [Stitcher.ffprobe_cmd file_path])
      by (repeat constructor; exists file_path; reflexivity).
    destruct (tools (Stitcher.ffprobe_cmd file_path) (files w))
      as [rc so se fs|] eqn:E.
    + split; [reflexivity |]. split; [exact Hp |]. intros Hro.
      specialize (Hro file_path (files w)). rewrite E in Hro. exact Hro.
    + split; [reflexivity |]. split; [exact Hp | reflexivity].
  - exists []. cbn. rewrite app_nil_r.
    split; [reflexivity |]. split; [constructor | reflexivity].
Qed.

Lemma details_print (filename : string) (d : Stitcher.Details) (w : World) :
  exists lines,
    Stitcher.print_file_details filename d w =
    (Ret tt, with_out (out w ++ lines) w).
Proof.
  destruct (print_only_details filename d w) as [lines H]. exists lines.
  assert (Hr : fst (Stitcher.print_file_details filename d w) = Ret tt)
    by reflexivity.
  destruct (Stitcher.print_file_details filename d w) as [r w1].
  cbn [fst snd] in *. now subst.
Qed.

Lemma probing_scan (input_dir : string) (tw th : Z) (names : list string)
    (mismatched : list (string * (Z * Z))) :
  Report.probing tools (scan input_dir tw th names mismatched).
Proof.
  revert mismatched; induction names as [|f names IH]; intros mismatched;
    unfold scan; cbn [Stitcher.scan]; fold scan.
  - apply probing_print_only, print_only_ret.
  - destruct (Stitcher.is_video_file f); [| apply IH].
    apply probing_bind; [apply probing_details | intros [msg | d]].
    + apply probing_bind; [| intros _; apply IH].
      apply probing_print_only, print_only_print.
    + apply probing_bind; [| intros _; apply IH].
      apply probing_print_only, print_only_details.
Qed.

Lemma probing_verify (input_dir : string) (tw th : Z) :
  Report.probing tools (verify_resolutions input_dir tw th).
Proof.
  unfold verify_resolutions, Stitcher.verify_resolutions, Stitcher.os_listdir.
  apply probing_bind; [apply probing_print_only, print_only_print | intros _].
  apply probing_bind; [| intros names; apply probing_scan].
  apply probing_print_only. destruct (listdir input_dir); print_only_auto.
Qed.

(** Up to the [with] block the stitcher prints and probes. *)
Lemma probing_plan (input_dir output_file : string) (enable_hdr : bool)
    (resolution : string) (fps : Z) (sort_by : string) :
  Report.probing tools
    (Stitcher.plan which listdir read_stream strerror getmtime strftime
       temp_name tools input_dir output_file enable_hdr resolution fps sort_by).
Proof.
  unfold Stitcher.plan.
  apply probing_bind.
  { apply probing_print_only.
    destruct (Stitcher.missing_tool which); print_only_auto. }
  intros _. apply probing_bind; [apply probing_print_only, print_only_pure |].
  intros [[tw th] f].
  do 5 (apply probing_bind;
        [apply probing_print_only, print_only_print | intros _]).
  apply probing_bind; [apply probing_verify | intros mismatched].
  apply probing_bind.
  { apply probing_print_only. destruct mismatched; print_only_auto. }
  intros _. apply probing_bind;
    [apply probing_print_only, print_only_sorted | intros video_files].
  apply probing_bind.
  { apply probing_print_only. destruct video_files; print_only_auto. }
  intros _. apply probing_print_only. print_only_auto.
Qed.

(** A listing without a video file is scanned without a probe. *)
Lemma scan_no_video (input_dir : string) (tw th : Z) (names : list string)
    (mismatched : list (string * (Z * Z))) (w : World) :
  Forall (fun n => Stitcher.is_video_file n = false) names ->
  scan input_dir tw th names mismatched w = (Ret mismatched, w).
Proof.
  induction 1 as [|n names Hn _ IH]; [reflexivity |].
  unfold scan. cbn [Stitcher.scan]. fold scan. rewrite Hn. exact IH.
Qed.

(** When no probe changes a file, the scan probes each video file that
    exists, in the order scanned, and reports exactly the mismatches. *)
Lemma scan_read_only (input_dir : string) (tw th : Z) (names : list string)
    (mismatched : list (string * (Z * Z))) (w : World) :
  Report.probes_read_only tools ->
  exists lines,
    scan input_dir tw th names mismatched w =
    (Ret (mismatched ++
          omap (Report.mismatch_of (details_in (files w)) input_dir tw th) names),
     mkWorld (files w) (out w ++ lines)
       (cmds w ++ Report.probes input_dir (files w) names)).
Proof.
  intros Hro. revert mismatched w.
  induction names as [|f names IH]; intros mismatched w.
  - exists []. cbn. rewrite !app_nil_r. destruct w; reflexivity.
  - unfold scan. cbn [Stitcher.scan]. fold scan.
    change (omap (Report.mismatch_of (details_in (files w)) input_dir tw th)
              (f :: names))
      with (match Report.mismatch_of (details_in (files w)) input_dir tw th f with
            | Some y =>
                y :: omap (Report.mismatch_of (details_in (files w)) input_dir tw th)
                       names
            | None =>
                omap (Report.mismatch_of (details_in (files w)) input_dir tw th) names
            end).
    unfold Report.mismatch_of at 1. unfold Report.probes.
    cbn [List.filter].
    destruct (Stitcher.is_video_file f); cbn [andb]; [| apply IH].
    fold get_video_details.
    erewrite RunFacts.bind_ret by (apply details_run_read_only; exact Hro).
    destruct (details_in (files w) (Os.path_join input_dir f)) as [msg | d].
    + erewrite RunFacts.bind_ret by apply RunFacts.print_run.
      match goal with |- context [scan _ _ _ _ _ ?w1] =>
        destruct (IH mismatched w1) as [lines Hs] end.
      rewrite Hs. eexists (_ :: lines). cbn [files out cmds with_out with_cmds].
      unfold Report.probes.
      destruct (bool_decide (is_Some (files w !! Os.path_join input_dir f)));
        cbn [map]; rewrite <- !app_assoc; reflexivity.
    + destruct (details_print f d
                  (with_cmds (cmds w ++
                     if bool_decide (is_Some (files w !! Os.path_join input_dir f))
                     then [Stitcher.ffprobe_cmd (Os.path_join input_dir f)]
                     else []) w)) as [plines Hd].
      erewrite RunFacts.bind_ret by exact Hd.
      match goal with |- context [scan _ _ _ _ ?acc ?w1] =>
        destruct (IH acc w1) as [lines Hs] end.
      rewrite Hs. exists (plines ++ lines).
      cbn [files out cmds with_out with_cmds]. unfold Report.probes.
      destruct (negb (Stitcher.width d =? tw) || negb (Stitcher.height d =? th));
        destruct (bool_decide (is_Some (files w !! Os.path_join input_dir f)));
        cbn [map]; rewrite <- !app_assoc; reflexivity.
Qed.

Lemma verify_read_only (input_dir : string) (tw th : Z) (names : list string)
    (w : World) :
  Report.probes_read_only tools ->
  listdir input_dir = Some names ->
  exists lines,
    verify_resolutions input_dir tw th w =
    (Ret (omap (Report.mismatch_of (details_in (files w)) input_dir tw th)
            (Stitcher.sorted_by String.leb names)),
     mkWorld (files w) (out w ++ lines)
       (cmds w ++ Report.probes input_dir (files w)
                    (Stitcher.sorted_by String.leb names))).
Proof.
  intros Hro Hl.
  unfold verify_resolutions, Stitcher.verify_resolutions, Stitcher.os_listdir.
  rewrite Hl. erewrite RunFacts.bind_ret by apply RunFacts.print_run.
  erewrite RunFacts.bind_ret by reflexivity. fold scan.
  match goal with |- context [scan _ _ _ _ _ ?w1] =>
    destruct (scan_read_only input_dir tw th
                (Stitcher.sorted_by String.leb names) [] w1 Hro) as [lines Hs] end.
  rewrite Hs. eexists (_ :: lines).
  cbn [files out cmds with_out app]. rewrite <- app_assoc. reflexivity.
Qed.

(** Files that fit the target on every file system, or cannot be read
    there, add nothing to the mismatches. *)
Lemma scan_fitting (input_dir : string) (tw th : Z) (names : list string)
    (mismatched : list (string * (Z * Z))) (w : World) :
  Forall (fun n => Stitcher.is_video_file n = true ->
                   forall fs,
                     match details_in fs (Os.path_join input_dir n) with
                     | inl _ => True
                     | inr d => Stitcher.width d = tw /\ Stitcher.height d = th
                     end) names ->
  fst (scan input_dir tw th names mismatched w) = Ret mismatched.
Proof.
  intros Hall. revert w. induction Hall as [|n names Hn _ IH]; intros w;
    [reflexivity |].
  unfold scan. cbn [Stitcher.scan]. fold scan.
  destruct (Stitcher.is_video_file n); [| apply IH].
  specialize (Hn eq_refl (files w)). fold get_video_details.
  destruct (details_run (Os.path_join input_dir n) w) as (w' & Hd & _).
  erewrite RunFacts.bind_ret by exact Hd.
  destruct (details_in (files w) (Os.path_join input_dir n)) as [msg | d].
  - erewrite RunFacts.bind_ret by apply RunFacts.print_run. apply IH.
  - destruct (details_print n d w') as [plines Hp].
    erewrite RunFacts.bind_ret by exact Hp.
    destruct Hn as [H1 H2]. rewrite H1, H2, !Z.eqb_refl. cbn [negb orb].
    apply IH.
Qed.

End Probing.

End ProbingFacts.

Module GateFacts.

Section Gates.

Variable which : string -> bool.
Variable listdir : string -> option (list string).
Variable read_stream : string -> string -> string + Stitcher.Details.
Variable strerror : list string -> string.
Variable signal_name : Z -> option string.
Variable getmtime : string -> option Z.
Variable strftime : Z -> string.
Variable temp_name : string.
Variable tools : Tools.
Variables input_dir output_file : string.
Variable enable_hdr : bool.
Variable resolution : string.
Variable fps : Z.
Variable sort_by : string.

Let plan :=
  Stitcher.plan which listdir read_stream strerror getmtime strftime temp_name
    tools input_dir output_file enable_hdr resolution fps sort_by.
Let run :=
  Stitcher.concatenate_and_encode which listdir read_stream strerror signal_name
    getmtime strftime temp_name tools input_dir output_file enable_hdr
    resolution fps sort_by.

(** A run whose plan exits ends where the plan ended. *)
Lemma plan_exit (w w1 : World) (c : Z) (dry_run : bool) :
  plan w = (Exit c, w1) -> run dry_run w = (Exit c, w1).
Proof.
  intros H. unfold run, Stitcher.concatenate_and_encode, bind. fold plan.
  now rewrite H.
Qed.

Ltac plan_prefix Hf Hp Hres :=
  unfold plan, Stitcher.plan, Stitcher.missing_tool;
  cbn [List.find]; rewrite Hf, Hp; cbn [negb];
  erewrite RunFacts.bind_ret by reflexivity;
  erewrite RunFacts.bind_ret by (rewrite Hres; reflexivity);
  cbv beta iota;
  do 5 erewrite RunFacts.bind_ret by apply RunFacts.print_run.

(** With the tools present and a valid preset, a scan that reports a
    mismatch makes the plan exit with 1 after its probes. *)
Lemma plan_mismatch (w : World) (tw th f : Z) (names : list string) :
  which "ffmpeg" = true -> which "ffprobe" = true ->
  Stitcher.get_resolution_and_fps resolution fps = Ret (tw, th, f) ->
  listdir input_dir = Some names ->
  Report.probes_read_only tools ->
  omap (Report.mismatch_of
          (Report.details_in read_stream strerror tools (files w))
          input_dir tw th)
    (Stitcher.sorted_by String.leb names) <> [] ->
  exists w1,
    plan w = (Exit 1, w1) /\ files w1 = files w /\
    cmds w1 = cmds w ++ Report.probes input_dir (files w)
                          (Stitcher.sorted_by String.leb names).
Proof.
  intros Hf Hp Hres Hl Hro Hm. plan_prefix Hf Hp Hres.
  match goal with
  | |- context [bind (Stitcher.verify_resolutions _ _ _ _ _ _ _) _ ?w5] =>
      destruct (ProbingFacts.verify_read_only listdir read_stream strerror tools
                  input_dir tw th names w5 Hro Hl) as [lines Hv];
      change (files w5) with (files w) in Hv;
      change (cmds w5) with (cmds w) in Hv
  end.
  erewrite RunFacts.bind_ret by exact Hv.
  destruct (omap _ _) as [|m ms]; [congruence |].
  erewrite RunFacts.bind_exit; cycle 1.
  { erewrite RunFacts.bind_ret by apply RunFacts.print_run.
    erewrite RunFacts.bind_ret by apply RunFacts.for_each_print.
    reflexivity. }
  eexists. split; [reflexivity |]. split; reflexivity.
Qed.

(** With the tools present and a valid preset, a directory without a video
    file makes the plan exit with 1, and nothing was started. *)
Lemma plan_no_input (w : World) (tw th f : Z) (names : list string) :
  which "ffmpeg" = true -> which "ffprobe" = true ->
  Stitcher.get_resolution_and_fps resolution fps = Ret (tw, th, f) ->
  sort_by = "filename" \/ sort_by = "creation_date" ->
  listdir input_dir = Some names ->
  Forall (fun n => Stitcher.is_video_file n = false) names ->
  exists w1, plan w = (Exit 1, w1) /\ cmds w1 = cmds w /\ files w1 = files w.
Proof.
  intros Hf Hp Hres Hsort Hl Hnone. plan_prefix Hf Hp Hres.
  assert (Hsorted : Forall (fun n => Stitcher.is_video_file n = false)
                      (Stitcher.sorted_by String.leb names)).
  { rewrite Forall_forall in *. intros n Hn. apply Hnone.
    now rewrite (StitchMore.sorted_by_perm String.leb names) in Hn. }
  unfold Stitcher.verify_resolutions, Stitcher.os_listdir. rewrite Hl.
  erewrite RunFacts.bind_ret.
  2:{ erewrite RunFacts.bind_ret by apply RunFacts.print_run.
      erewrite RunFacts.bind_ret by reflexivity.
      apply ProbingFacts.scan_no_video, Hsorted. }
  erewrite RunFacts.bind_ret by reflexivity.
  pose proof (StitchMore.dated_none getmtime input_dir names Hnone) as Hd.
  assert (Hs : forall w6,
             Stitcher.get_sorted_video_files listdir getmtime input_dir sort_by w6
             = (Ret [], w6)).
  { intros w6. unfold Stitcher.get_sorted_video_files. rewrite Hl.
    assert (Hv : negb (String.eqb sort_by "filename" ||
                       String.eqb sort_by "creation_date") = false)
      by (destruct Hsort as [E1 | E1]; rewrite E1; reflexivity).
    rewrite Hv.
    erewrite RunFacts.bind_ret.
    2:{ apply StitchMore.collect_result. eapply Forall_impl; [exact Hnone |].
        cbn. intros n Hn Hn'. congruence. }
    rewrite Hd. destruct (String.eqb sort_by "creation_date"); reflexivity. }
  erewrite RunFacts.bind_ret by apply Hs.
  erewrite RunFacts.bind_exit; cycle 1.
  { erewrite RunFacts.bind_ret by apply RunFacts.print_run. reflexivity. }
  eexists. split; [reflexivity |]. split; reflexivity.
Qed.

End Gates.

End GateFacts.

(** X13: with the tools present and a valid preset, when a video file of
    the directory probes to another width or height than the target, the
    stitcher exits with 1, dry run or not.  Given that no probe changes a
    file, no file has changed, and the programs started are the probes of
    the video files that exist, one each in the order of their names: the
    encoder is never started. *)
Theorem X13_resolution_mismatch_stops_the_stitcher
    (which : string -> bool) (listdir : string -> option (list string))
    (read_stream : string -> string -> string + Stitcher.Details)
    (strerror : list string -> string) (signal_name : Z -> option string)
    (getmtime : string -> option Z) (strftime : Z -> string) (temp_name : string)
    (tools : Tools) (input_dir output_file : string) (enable_hdr : bool)
    (resolution : string) (fps : Z) (sort_by : string) (dry_run : bool)
    (w : World) (tw th f : Z) (names : list string) :
  which "ffmpeg" = true -> which "ffprobe" = true ->
  Stitcher.get_resolution_and_fps resolution fps = Ret (tw, th, f) ->
  listdir input_dir = Some names ->
  Report.probes_read_only tools ->
  Exists (fun n => Stitcher.is_video_file n = true /\
                   exists d,
                     Report.details_in read_stream strerror tools (files w)
                       (Os.path_join input_dir n) = inr d /\
                     (Stitcher.width d <> tw \/ Stitcher.height d <> th))
         names ->
  let r := Stitcher.concatenate_and_encode which listdir read_stream strerror
             signal_name getmtime strftime temp_name tools input_dir output_file
             enable_hdr resolution fps sort_by dry_run w in
  let started := Report.probes input_dir (files w)
                   (Stitcher.sorted_by String.leb names) in
  fst r = Exit 1 /\ files (snd r) = files w /\
  cmds (snd r) = cmds w ++ started /\ Forall Stitcher.is_probe started.
Proof.
  intros Hf Hp Hres Hl Hro Hex r started.
  destruct (GateFacts.plan_mismatch which listdir read_stream strerror getmtime
              strftime temp_name tools input_dir output_file enable_hdr resolution
              fps sort_by w tw th f names Hf Hp Hres Hl Hro) as (w1 & Hplan & Hfs & Hc).
  { apply Exists_exists in Hex as (n & Hn & Hvid & d & Hd & Hne).
    intros Hnil.
    assert (Hin : (n, (Stitcher.width d, Stitcher.height d)) ∈
                  omap (Report.mismatch_of
                          (Report.details_in read_stream strerror tools (files w))
                          input_dir tw th)
                    (Stitcher.sorted_by String.leb names)).
    { apply list_elem_of_omap. exists n. split.
      - now rewrite (StitchMore.sorted_by_perm String.leb names).
      - unfold Report.mismatch_of. rewrite Hvid, Hd.
        assert (Hb : negb (Stitcher.width d =? tw) || negb (Stitcher.height d =? th)
                     = true).
        { apply orb_true_iff. destruct Hne as [Hne | Hne]; [left | right];
            apply negb_true_iff, Z.eqb_neq, Hne. }
        now rewrite Hb. }
    rewrite Hnil in Hin. inversion Hin. }
  unfold r.
  rewrite (GateFacts.plan_exit which listdir read_stream strerror signal_name
             getmtime strftime temp_name tools input_dir output_file enable_hdr
             resolution fps sort_by w w1 1 dry_run Hplan).
  cbn [fst snd]. repeat split; try assumption.
  unfold started, Report.probes. apply Forall_forall. intros c Hc'.
  apply list_elem_of_In, in_map_iff in Hc' as (n & <- & _). eexists; reflexivity.
Qed.

Lemma X13_resolution_mismatch_witness :
  let r := Sim.stitch 0 "1080p" false Sim.clips in
  fst r = Exit 1 /\ files (snd r) = files Sim.clips /\
  cmds (snd r) =
  cmds Sim.clips ++
  Report.probes "clips" (files Sim.clips)
    (Stitcher.sorted_by String.leb ["b.mp4"; "notes.txt"; "a.MOV"]) /\
  Forall Stitcher.is_probe
    (Report.probes "clips" (files Sim.clips)
       (Stitcher.sorted_by String.leb ["b.mp4"; "notes.txt"; "a.MOV"])).
Proof.
  apply (X13_resolution_mismatch_stops_the_stitcher Sim.which Sim.listdir
           Sim.read_stream Sim.strerror Sim.signal_name Sim.getmtime Sim.strftime
           Sim.temp_name (Sim.tools "" 0) "clips" "out.mp4" false "1080p" 30
           "filename" false Sim.clips 1920 1080 30 ["b.mp4"; "notes.txt"; "a.MOV"]);
    try reflexivity.
  - intros file_path fs. reflexivity.
  - left. split; [reflexivity |]. exists Sim.clip. split; [vm_compute; reflexivity |].
    left. discriminate.
Defined.

(** X14: a video file whose probe fails is only warned about: when every
    video file of the directory, on whatever files the probe finds, either
    fails to probe or has the target width and height, the resolution scan
    reports no mismatch. *)
Theorem X14_unreadable_files_pass_the_scan
    (listdir : string -> option (list string))
    (read_stream : string -> string -> string + Stitcher.Details)
    (strerror : list string -> string) (tools : Tools)
    (input_dir : string) (tw th : Z) (names : list string) (w : World) :
  listdir input_dir = Some names ->
  Forall (fun n => Stitcher.is_video_file n = true ->
                   forall fs,
                     match Report.details_in read_stream strerror tools fs
                             (Os.path_join input_dir n) with
                     | inl _ => True
                     | inr d => Stitcher.width d = tw /\ Stitcher.height d = th
                     end) names ->
  fst (Stitcher.verify_resolutions listdir read_stream strerror tools input_dir
         tw th w) = Ret [].
Proof.
  intros Hl Hall.
  unfold Stitcher.verify_resolutions, Stitcher.os_listdir. rewrite Hl.
  erewrite RunFacts.bind_ret by apply RunFacts.print_run.
  erewrite RunFacts.bind_ret by reflexivity.
  apply ProbingFacts.scan_fitting.
  rewrite Forall_forall in *. intros n Hn. apply Hall.
  now rewrite (StitchMore.sorted_by_perm String.leb names) in Hn.
Qed.

Lemma X14_unreadable_files_witness :
  fst (Stitcher.verify_resolutions Sim.listdir Sim.read_stream Sim.strerror
         (Sim.failing "") "clips" 1920 1080 Sim.clips) = Ret [].
Proof.
  apply (X14_unreadable_files_pass_the_scan Sim.listdir Sim.read_stream
           Sim.strerror (Sim.failing "") "clips" 1920 1080
           ["b.mp4"; "notes.txt"; "a.MOV"]).
  - reflexivity.
  - repeat constructor; intros _ fs; unfold Report.details_in;
      destruct (bool_decide _); exact I.
Defined.

(** X15: with the tools present, a valid preset and sort key, a directory
    that holds no video file makes the stitcher exit with 1, dry run or
    not, having run no command and touched no file. *)
Theorem X15_no_input_stops_the_stitcher
    (which : string -> bool) (listdir : string -> option (list string))
    (read_stream : string -> string -> string + Stitcher.Details)
    (strerror : list string -> string) (signal_name : Z -> option string)
    (getmtime : string -> option Z) (strftime : Z -> string) (temp_name : string)
    (tools : Tools) (input_dir output_file : string) (enable_hdr : bool)
    (resolution : string) (fps : Z) (sort_by : string) (dry_run : bool)
    (w : World) (tw th f : Z) (names : list string) :
  which "ffmpeg" = true -> which "ffprobe" = true ->
  Stitcher.get_resolution_and_fps resolution fps = Ret (tw, th, f) ->
  sort_by = "filename" \/ sort_by = "creation_date" ->
  listdir input_dir = Some names ->
  Forall (fun n => Stitcher.is_video_file n = false) names ->
  let r := Stitcher.concatenate_and_encode which listdir read_stream strerror
             signal_name getmtime strftime temp_name tools input_dir output_file
             enable_hdr resolution fps sort_by dry_run w in
  fst r = Exit 1 /\ cmds (snd r) = cmds w /\ files (snd r) = files w.
Proof.
  intros Hf Hp Hres Hsort Hl Hnone r.
  destruct (GateFacts.plan_no_input which listdir read_stream strerror getmtime
              strftime temp_name tools input_dir output_file enable_hdr resolution
              fps sort_by w tw th f names Hf Hp Hres Hsort Hl Hnone)
    as (w1 & Hplan & Hc & Hfs).
  unfold r.
  rewrite (GateFacts.plan_exit which listdir read_stream strerror signal_name
             getmtime strftime temp_name tools input_dir output_file enable_hdr
             resolution fps sort_by w w1 1 dry_run Hplan).
  cbn [fst snd]. repeat split; assumption.
Qed.

Lemma X15_no_input_witness :
  let r := Stitcher.concatenate_and_encode Sim.which
             (fun _ => Some ["notes.txt"; "cover.jpg"]) Sim.read_stream
             Sim.strerror Sim.signal_name
             Sim.getmtime Sim.strftime Sim.temp_name (Sim.tools "" 0) "clips"
             "out.mp4" false "4K" 30 "filename" false Sim.empty_world in
  fst r = Exit 1 /\ cmds (snd r) = cmds Sim.empty_world /\
  files (snd r) = files Sim.empty_world.
Proof.
  apply (X15_no_input_stops_the_stitcher Sim.which
           (fun _ => Some ["notes.txt"; "cover.jpg"]) Sim.read_stream Sim.strerror
           Sim.signal_name
           Sim.getmtime Sim.strftime Sim.temp_name (Sim.tools "" 0) "clips"
           "out.mp4" false "4K" 30 "filename" false Sim.empty_world 3840 2160 30
           ["notes.txt"; "cover.jpg"]); try reflexivity.
  - left. reflexivity.
  - repeat constructor.
Defined.

(** X18: when no probe changes a file, the resolution scan returns exactly
    the video files that probe to another width or height than the target,
    with the size probed, in the order of their names; it leaves the files
    as they are and starts one probe for each video file that exists, in
    that order. *)
Theorem X18_scan_reports_the_mismatches
    (listdir : string -> option (list string))
    (read_stream : string -> string -> string + Stitcher.Details)
    (strerror : list string -> string) (tools : Tools)
    (input_dir : string) (tw th : Z) (names : list string) (w : World) :
  Report.probes_read_only tools ->
  listdir input_dir = Some names ->
  let r := Stitcher.verify_resolutions listdir read_stream strerror tools
             input_dir tw th w in
  let by_name := Stitcher.sorted_by String.leb names in
  fst r =
  Ret (omap (Report.mismatch_of
               (Report.details_in read_stream strerror tools (files w))
               input_dir tw th) by_name) /\
  files (snd r) = files w /\
  cmds (snd r) = cmds w ++ Report.probes input_dir (files w) by_name /\
  Sorted (fun a b => String.leb a b = true) by_name.
Proof.
  intros Hro Hl r by_name.
  destruct (ProbingFacts.verify_read_only listdir read_stream strerror tools
              input_dir tw th names w Hro Hl) as [lines Hv].
  unfold r. rewrite Hv. cbn [fst snd files cmds].
  repeat split.
  apply StitchMore.sorted_by_sorted. intros x y. apply String.leb_total.
Qed.

Lemma X18_scan_reports_the_mismatches_witness :
  fst (Stitcher.verify_resolutions Sim.listdir Sim.read_stream Sim.strerror
         (Sim.tools "" 0) "clips" 1920 1080 Sim.clips) =
  Ret [("a.MOV", (3840, 2160)); ("b.mp4", (3840, 2160))].
Proof.
  refine (eq_trans
            (proj1 (X18_scan_reports_the_mismatches Sim.listdir Sim.read_stream
                      Sim.strerror (Sim.tools "" 0) "clips" 1920 1080
                      ["b.mp4"; "notes.txt"; "a.MOV"] Sim.clips _ _)) _).
  - intros file_path fs. reflexivity.
  - reflexivity.
  - vm_compute. reflexivity.
Defined.

Module ManifestFacts.
Import PyStr StrFacts.

Lemma path_join_one_line (a b : string) :
  lacks "010" a = true -> lacks "010" b = true ->
  lacks "010" (Os.path_join a b) = true.
Proof.
  intros Ha Hb. unfold Os.path_join.
  destruct (startswith "/" b); [exact Hb |].
  destruct (String.eqb a "" || endswith "/" a).
  - now rewrite lacks_app, Ha, Hb.
  - rewrite !lacks_app, Ha, Hb. reflexivity.
Qed.

Lemma join_empty_cons (x : string) (l : list string) :
  join "" (x :: l) = x +:+ join "" l.
Proof.
  destruct l as [|y l]; [cbn; now rewrite append_nil_r | reflexivity].
Qed.

Lemma manifest_cons (input_dir : string) (f : string * Z)
    (video_files : list (string * Z)) :
  Stitcher.manifest input_dir (f :: video_files) =
  ("file '" +:+ Os.path_join input_dir (fst f) +:+ "'") +:+
  String "010" (Stitcher.manifest input_dir video_files).
Proof.
  unfold Stitcher.manifest. cbn [map]. rewrite join_empty_cons.
  unfold newline_. rewrite !append_assoc. reflexivity.
Qed.

End ManifestFacts.

(** X16: the manifest handed to the encoder holds one line per file to
    merge, in the order of the merge, each of the form file 'PATH' with the
    path joined onto the input directory, and ends with a newline. *)
Theorem X16_manifest_lists_the_files_in_order
    (input_dir : string) (video_files : list (string * Z)) :
  PyStr.lacks "010" input_dir = true ->
  Forall (fun f => PyStr.lacks "010" (fst f) = true) video_files ->
  PyStr.split PyStr.newline_ (Stitcher.manifest input_dir video_files) =
  map (fun f => "file '" +:+ Os.path_join input_dir (fst f) +:+ "'") video_files ++
  [""].
Proof.
  intros Hdir Hall. induction Hall as [|f video_files Hf _ IH]; [reflexivity |].
  rewrite ManifestFacts.manifest_cons. unfold PyStr.newline_ in *.
  rewrite StrFacts.split_char_app.
  - cbn [map app]. f_equal. exact IH.
  - rewrite !StrFacts.lacks_app.
    rewrite (ManifestFacts.path_join_one_line _ _ Hdir Hf). reflexivity.
Qed.

Lemma X16_manifest_witness :
  PyStr.split PyStr.newline_
    (Stitcher.manifest "clips" [("a.MOV", 0); ("b.mp4", 0)]) =
  map (fun f => "file '" +:+ Os.path_join "clips" (fst f) +:+ "'")
    [("a.MOV", 0); ("b.mp4", 0)] ++ [""].
Proof.
  apply (X16_manifest_lists_the_files_in_order "clips" [("a.MOV", 0); ("b.mp4", 0)]).
  - reflexivity.
  - repeat constructor.
Defined.

Module PlanFacts.



End PlanFacts.



(* ================================================================== *)
(** ** Dry runs against real runs *)
(* ================================================================== *)

Module AppendFacts.

Lemma appends_pure {A} (r : Res A) : appends (fun w => (r, w)).
Proof. intros w. exists []. cbn [snd]. now rewrite app_nil_r. Qed.

Lemma appends_print (s : string) : appends (print s).
Proof. intros w. exists [s]. reflexivity. Qed.

Lemma appends_bind {A B} (m : M A) (k : A -> M B) :
  appends m -> (forall a, appends (k a)) -> appends (bind m k).
Proof.
  intros Hm Hk w. unfold bind. destruct (Hm w) as [l1 H1].
  destruct (m w) as [[a | c | e] w1]; cbn [snd] in H1.
  - destruct (Hk a w1) as [l2 H2]. exists (l1 ++ l2).
    rewrite H2, H1. now rewrite app_assoc.
  - exists l1. exact H1.
  - exists l1. exact H1.
Qed.

Lemma appends_run_command (tools : Tools) (cmd : list string) :
  appends (Mkv.run_command tools cmd).
Proof.
  intros w. unfold Mkv.run_command.
  destruct (tools cmd (files w)) as [rc so se fs|].
  - destruct (rc =? 0).
    + exists []. cbn [snd out with_files with_cmds]. now rewrite app_nil_r.
    + eexists [_; _]. unfold bind, print, sys_exit.
      cbn [snd out with_files with_cmds with_out]. now rewrite <- app_assoc.
  - exists []. cbn [snd out with_cmds]. now rewrite app_nil_r.
Qed.

Lemma appends_getsize (p : string) : appends (Os.getsize p).
Proof.
  intros w. unfold Os.getsize. exists [].
  destruct (files w !! p); cbn [snd]; now rewrite app_nil_r.
Qed.

Lemma appends_replace (src dst : string) : appends (Os.replace src dst).
Proof.
  intros w. unfold Os.replace. exists [].
  destruct (files w !! src); cbn [snd out with_files]; now rewrite app_nil_r.
Qed.

Lemma appends_remove (p : string) : appends (Os.remove p).
Proof.
  intros w. unfold Os.remove. exists [].
  destruct (files w !! p); cbn [snd out with_files]; now rewrite app_nil_r.
Qed.

Lemma appends_remux_audio (tools : Tools) (file keep : string)
    (target : list Track) :
  appends (Mkv.remux_audio tools file keep target).
Proof.
  unfold Mkv.remux_audio.
  apply appends_bind; [apply appends_run_command | intros _].
  apply appends_bind; [apply appends_getsize | intros osz].
  apply appends_bind; [apply appends_getsize | intros nsz].
  destruct (size_ok nsz osz).
  - apply appends_bind; [apply appends_replace | intros _; apply appends_print].
  - apply appends_bind; [apply appends_print | intros _].
    apply appends_bind; [apply appends_remove | intros _].
    apply (appends_pure (Exit 1)).
Qed.

End AppendFacts.

Module WetFacts.

(** The real run of the subtitle stripper starts its one command and no
    other. *)
Lemma strip_cmds (tools : Tools) (file : string) (w : World) :
  cmds (snd ((Mkv.run_command tools (Report.strip_cmd file) >>
              Os.replace (Mkv.subtitle_temp_file file) file >>
              print ("All subtitles removed from '" +:+ file +:+ "'.")) w)) =
  cmds w ++ [Report.strip_cmd file].
Proof.
  unfold bind at 1.
  pose proof (TitleFacts.run_command_cmds tools (Report.strip_cmd file) w) as Hc.
  destruct (Mkv.run_command tools _ w) as [[r | c | e] w1]; cbn [snd] in Hc;
    [| exact Hc..].
  rewrite <- Hc. revert w1 Hc. intros w1 _.
  apply (RemuxMore.quiet_bind (Os.replace (Mkv.subtitle_temp_file file) file));
    [apply RemuxMore.quiet_replace | intros _; apply RemuxMore.quiet_print].
Qed.

Lemma strip_appends (tools : Tools) (file : string) :
  appends (Mkv.run_command tools (Report.strip_cmd file) >>
           Os.replace (Mkv.subtitle_temp_file file) file >>
           print ("All subtitles removed from '" +:+ file +:+ "'.")).
Proof.
  apply AppendFacts.appends_bind; [apply AppendFacts.appends_run_command |].
  intros _.
  apply AppendFacts.appends_bind;
    [apply AppendFacts.appends_replace | intros _; apply AppendFacts.appends_print].
Qed.

(** The real run of the title normalizer, once the edit is decided. *)
Lemma set_title_cmds (tools : Tools) (file line : string) (w : World) :
  cmds (snd ((Mkv.run_command tools (Mkv.set_title_cmd file) >> print line) w)) =
  cmds w ++ [Mkv.set_title_cmd file].
Proof.
  unfold bind.
  pose proof (TitleFacts.run_command_cmds tools (Mkv.set_title_cmd file) w) as Hc.
  destruct (Mkv.run_command tools _ w) as [[r | c | e] w1]; cbn [snd] in Hc;
    exact Hc.
Qed.

Lemma set_title_appends (tools : Tools) (file line : string) :
  appends (Mkv.run_command tools (Mkv.set_title_cmd file) >> print line).
Proof.
  apply AppendFacts.appends_bind;
    [apply AppendFacts.appends_run_command | intros _; apply AppendFacts.appends_print].
Qed.

End WetFacts.

Module StitchDryFacts.

Section Stitching.

Variable which : string -> bool.
Variable listdir : string -> option (list string).
Variable read_stream : string -> string -> string + Stitcher.Details.
Variable strerror : list string -> string.
Variable signal_name : Z -> option string.
Variable getmtime : string -> option Z.
Variable strftime : Z -> string.
Variable temp_name : string.
Variable tools : Tools.
Variables input_dir output_file : string.
Variable enable_hdr : bool.
Variable resolution : string.
Variable fps : Z.
Variable sort_by : string.

Let plan :=
Stitcher.plan which listdir read_stream strerror getmtime strftime temp_name
  tools input_dir output_file enable_hdr resolution fps sort_by.
Let run :=
Stitcher.concatenate_and_encode which listdir read_stream strerror signal_name
  getmtime strftime temp_name tools input_dir output_file enable_hdr resolution
  fps sort_by.

(** A dry run that reaches the [with] block. *)
Lemma dry_run_reached (w w1 : World) (p : list string * string) :
plan w = (Ret p, w1) ->
run true w =
(Ret tt,
 mkWorld (delete temp_name (files w1))
   ((out w1 ++ Report.command_lines (fst p)) ++ [Stitcher.dry_run_notice])
   (cmds w1)).
Proof.
intros Hplan. unfold run, Stitcher.concatenate_and_encode. fold plan.
erewrite RunFacts.bind_ret by exact Hplan.
unfold Stitcher.with_temp_file.
erewrite RunFacts.bind_ret by apply StitchFacts.print_command_run.
rewrite RunFacts.print_run. cbn [files out cmds with_files with_out].
now rewrite delete_insert_eq.
Qed.

(** A real run that reaches the [with] block: the same lines up to the
  command, then the encoder. *)
Lemma real_run_reached (w w1 : World) (p : list string * string) :
plan w = (Ret p, w1) ->
(exists rest,
   out (snd (run false w)) = (out w1 ++ Report.command_lines (fst p)) ++ rest) /\
cmds (snd (run false w)) = cmds w1 ++ [fst p].
Proof.
intros Hplan. unfold run, Stitcher.concatenate_and_encode. fold plan.
erewrite RunFacts.bind_ret by exact Hplan.
unfold Stitcher.with_temp_file.
erewrite RunFacts.bind_ret by apply StitchFacts.print_command_run.
unfold Stitcher.encode.
cbn [files out cmds with_files with_out with_cmds].
destruct (tools (fst p) (<[temp_name := snd p]> (files w1))) as [rc so se fs|].
- destruct (rc =? 0); (split; [eexists [_] | reflexivity]); reflexivity.
- split; [exists [] | reflexivity].
  cbn [snd out with_files with_cmds with_out]. now rewrite app_nil_r.
Qed.

(** A run that stops before the [with] block does not look at the
  dry-run flag. *)
Lemma aborted_alike (w w1 : World) (r : Res (list string * string))
  (dry_run : bool) :
plan w = (r, w1) -> (forall p, r <> Ret p) ->
run dry_run w = run (negb dry_run) w.
Proof.
intros Hplan Hr. unfold run, Stitcher.concatenate_and_encode, bind.
fold plan. rewrite Hplan. destruct r as [p | c | e]; [| reflexivity..].
destruct (Hr p eq_refl).
Qed.

(** A dry run starts no program but the probes, and leaves the files as
  they are when the probes do. *)
Lemma dry_run_probing (w : World) :
exists started,
  cmds (snd (run true w)) = cmds w ++ started /\
  Forall Stitcher.is_probe started /\
  (Report.probes_read_only tools -> files w !! temp_name = None ->
   files (snd (run true w)) = files w).
Proof.
destruct (ProbingFacts.probing_plan which listdir read_stream strerror getmtime
            strftime temp_name tools input_dir output_file enable_hdr resolution
            fps sort_by w) as (started & Hc & Hp & Hf).
fold plan in Hc, Hf. exists started.
destruct (plan w) as [[p | c | e] w1] eqn:Hplan; cbn [snd] in Hc, Hf.
- rewrite (dry_run_reached w w1 p Hplan). cbn [snd files cmds].
  split; [exact Hc |]. split; [exact Hp |]. intros Hro Hfresh.
  rewrite (Hf Hro). now apply delete_id.
- unfold run, Stitcher.concatenate_and_encode, bind. fold plan. rewrite Hplan.
  cbn [snd]. split; [exact Hc |]. split; [exact Hp |]. intros Hro _. exact (Hf Hro).
- unfold run, Stitcher.concatenate_and_encode, bind. fold plan. rewrite Hplan.
  cbn [snd]. split; [exact Hc |]. split; [exact Hp |]. intros Hro _. exact (Hf Hro).
Qed.

End Stitching.

End StitchDryFacts.

(** C9, as the code has it.  In dry-run mode no path runs a mutation
    command or changes a file: the audio filter and the subtitle stripper
    only print, the title normalizer runs its info probe and nothing else,
    the stitcher runs its probes and nothing else, and its manifest file is
    gone again at the end.  The two modes print the same decision output:
    the dry run prints what the other mode prints whenever the path decides
    that nothing is to change or stops before deciding; where a mutation is
    decided both outputs begin with the same lines, after which the dry run
    prints one "Would ..." line (the stitcher: its dry-run notice) where
    the other mode starts the mutation command and prints its outcome. *)
Theorem C9_dry_run_prints_instead_of_mutating :
  (forall tools file keep tracks w,
     let dry := Mkv.audio_filter tools file keep true tracks w in
     let wet := Mkv.audio_filter tools file keep false tracks w in
     fst dry = Ret tt /\ files (snd dry) = files w /\ cmds (snd dry) = cmds w /\
     match Mkv.non_target_tracks_of keep tracks, Mkv.target_tracks_of keep tracks with
     | [], _ => dry = wet
     | _ :: _, [] => dry = wet
     | _ :: _, _ :: _ =>
         let decision := out w ++ Report.announce file keep tracks in
         out (snd dry) =
         decision ++
         ["Would keep only " +:+ keep +:+ " audio tracks in '" +:+ file +:+ "'."] /\
         (exists rest, out (snd wet) = decision ++ rest) /\
         cmds (snd wet) =
         cmds w ++
         [Mkv.remux_audio_cmd file keep (Mkv.target_tracks_of keep tracks)]
     end) /\
  (forall tools file tracks w,
     let dry := Mkv.subtitle_stripper tools file true tracks w in
     let wet := Mkv.subtitle_stripper tools file false tracks w in
     fst dry = Ret tt /\ files (snd dry) = files w /\ cmds (snd dry) = cmds w /\
     match filter (fun t => track_type t = "subtitles") tracks with
     | [] => dry = wet
     | _ :: _ =>
         let decision := out w ++ ["Subtitles found in '" +:+ file +:+ "'."] in
         out (snd dry) =
         decision ++ ["Would remove all subtitles from '" +:+ file +:+ "'."] /\
         (exists rest, out (snd wet) = decision ++ rest) /\
         cmds (snd wet) = cmds w ++ [Report.strip_cmd file]
     end) /\
  (forall tools file w,
     let dry := Mkv.title_normalizer tools file true w in
     let wet := Mkv.title_normalizer tools file false w in
     cmds (snd dry) = cmds w ++ [["mkvinfo"; file]] /\
     (read_only tools ["mkvinfo"; file] -> files (snd dry) = files w) /\
     ((forall so se fs, tools ["mkvinfo"; file] (files w) <> Ran 0 so se fs) ->
      dry = wet) /\
     (forall so se fs,
        tools ["mkvinfo"; file] (files w) = Ran 0 so se fs ->
        (Parser.probe_title so = Ret (Some (Mkv.expected_title file)) -> dry = wet) /\
        (Parser.probe_title so <> Ret (Some (Mkv.expected_title file)) ->
         fst dry = Ret tt /\
         out (snd dry) =
         out w ++ ["Would set the title of '" +:+ file +:+ "' to '" +:+
                   Mkv.expected_title file +:+ "'."] /\
         (exists rest, out (snd wet) = out w ++ rest) /\
         cmds (snd wet) = cmds (snd dry) ++ [Mkv.set_title_cmd file]))) /\
  (forall which listdir read_stream strerror signal_name getmtime strftime
          temp_name tools input_dir output_file enable_hdr resolution fps sort_by w,
     let plan := Stitcher.plan which listdir read_stream strerror getmtime
                   strftime temp_name tools input_dir output_file enable_hdr
                   resolution fps sort_by in
     let run := Stitcher.concatenate_and_encode which listdir read_stream strerror
                  signal_name getmtime strftime temp_name tools input_dir
                  output_file enable_hdr resolution fps sort_by in
     (exists started,
        cmds (snd (run true w)) = cmds w ++ started /\
        Forall Stitcher.is_probe started) /\
     (Report.probes_read_only tools -> files w !! temp_name = None ->
      files (snd (run true w)) = files w) /\
     (forall r w1, plan w = (r, w1) -> (forall p, r <> Ret p) ->
                   run true w = run false w) /\
     (forall p w1, plan w = (Ret p, w1) ->
        let decision := out w1 ++ Report.command_lines (fst p) in
        fst (run true w) = Ret tt /\
        out (snd (run true w)) = decision ++ [Stitcher.dry_run_notice] /\
        cmds (snd (run true w)) = cmds w1 /\
        (exists rest, out (snd (run false w)) = decision ++ rest) /\
        cmds (snd (run false w)) = cmds w1 ++ [fst p])).
Proof.
  split; [| split; [| split]].
  - intros tools file keep tracks w dry wet.
    pose proof (DryFacts.audio_dry_print_only tools file keep tracks) as Hpo.
    split; [| split; [| split]].
    + unfold dry. rewrite RunFacts.audio_filter_run. cbv zeta.
      destruct (Mkv.non_target_tracks_of keep tracks),
               (Mkv.target_tracks_of keep tracks); reflexivity.
    + apply EffectFacts.print_only_files, Hpo.
    + apply EffectFacts.print_only_cmds, Hpo.
    + unfold dry, wet. rewrite !RunFacts.audio_filter_run. cbv zeta.
      destruct (Mkv.non_target_tracks_of keep tracks) as [|n ns],
               (Mkv.target_tracks_of keep tracks) as [|t ts]; try reflexivity.
      split; [reflexivity |]. split.
      * destruct (AppendFacts.appends_remux_audio tools file keep (t :: ts)
                    (with_out (out w ++ Report.announce file keep tracks) w))
          as [rest Hrest].
        exists rest. exact Hrest.
      * exact (RemuxMore.remux_audio_cmds tools file keep (t :: ts)
                 (with_out (out w ++ Report.announce file keep tracks) w)).
  - intros tools file tracks w dry wet.
    pose proof (DryFacts.subtitle_dry_print_only tools file tracks) as Hpo.
    split; [| split; [| split]].
    + unfold dry, Mkv.subtitle_stripper.
      destruct (filter _ tracks); reflexivity.
    + apply EffectFacts.print_only_files, Hpo.
    + apply EffectFacts.print_only_cmds, Hpo.
    + unfold dry, wet, Mkv.subtitle_stripper.
      destruct (filter _ tracks); [reflexivity |].
      erewrite !RunFacts.bind_ret by apply RunFacts.print_run.
      split; [reflexivity |]. split.
      * destruct (WetFacts.strip_appends tools file
                    (with_out (out w ++ ["Subtitles found in '" +:+ file +:+ "'."]) w))
          as [rest Hrest].
        exists rest. exact Hrest.
      * apply (WetFacts.strip_cmds tools file
                 (with_out (out w ++ ["Subtitles found in '" +:+ file +:+ "'."]) w)).
  - intros tools file w dry wet. split; [| split; [| split]].
    + apply DryFacts.title_dry_cmds.
    + apply DryFacts.title_dry_files.
    + intros H. apply (DryFacts.title_probe_fails tools file true w H).
    + intros so se fs Hrun.
      destruct (DryFacts.title_after_probe tools file true w so se fs Hrun)
        as (found & Hf & Hdry).
      destruct (DryFacts.title_after_probe tools file false w so se fs Hrun)
        as (found' & Hf' & Hwet).
      assert (found' = found) by congruence. subst found'.
      unfold dry, wet. rewrite Hdry, Hwet. cbv zeta. rewrite Hf. split.
      * intros [= ->]. rewrite bool_decide_eq_false_2 by auto. reflexivity.
      * intros Hne. rewrite bool_decide_eq_true_2 by congruence.
        split; [reflexivity |]. split; [reflexivity |]. split.
        -- match goal with |- context [bind ?m ?k ?w1] =>
             destruct (WetFacts.set_title_appends tools file
                         ("Set the title of '" +:+ file +:+ "' to '" +:+
                          Mkv.expected_title file +:+ "'.") w1) as [rest Hrest]
           end.
           exists rest. exact Hrest.
        -- rewrite WetFacts.set_title_cmds. reflexivity.
  - intros which listdir read_stream strerror signal_name getmtime strftime
      temp_name tools input_dir output_file enable_hdr resolution fps sort_by w
      plan run.
    destruct (StitchDryFacts.dry_run_probing which listdir read_stream strerror
                signal_name getmtime strftime temp_name tools input_dir
                output_file enable_hdr resolution fps sort_by w)
      as (started & Hc & Hp & Hf).
    split; [| split; [| split]].
    + exists started. split; assumption.
    + exact Hf.
    + intros r w1 Hplan Hr.
      apply (StitchDryFacts.aborted_alike which listdir read_stream strerror
               signal_name getmtime strftime temp_name tools input_dir
               output_file enable_hdr resolution fps sort_by w w1 r true Hplan Hr).
    + intros p w1 Hplan decision.
      destruct (StitchDryFacts.real_run_reached which listdir read_stream strerror
                  signal_name getmtime strftime temp_name tools input_dir
                  output_file enable_hdr resolution fps sort_by w w1 p Hplan)
        as [Hrest Hcmds].
      unfold run.
      rewrite (StitchDryFacts.dry_run_reached which listdir read_stream strerror
                 signal_name getmtime strftime temp_name tools input_dir
                 output_file enable_hdr resolution fps sort_by w w1 p Hplan).
      repeat split; assumption.
Qed.

(** C9 as stated fails: on a file whose title is not its name, the dry run
    prints "Would set the title ..." where the other run prints "Set the
    title ...". *)
Lemma C9_dry_run_output_differs :
  out (snd (Mkv.process_mkv_file (Sim.tools "" 0) "movie.mkv" false None true
              (Sim.world "movie.mkv" "|+ Segment"))) <>
  out (snd (Mkv.process_mkv_file (Sim.tools "" 0) "movie.mkv" false None false
              (Sim.world "movie.mkv" "|+ Segment"))).
Proof. vm_compute. discriminate. Qed.

Lemma C9_dry_run_witness :
  let dry := Mkv.title_normalizer (Sim.tools "" 0) "movie.mkv" true
               (Sim.world "movie.mkv" "|+ Segment") in
  let wet := Mkv.title_normalizer (Sim.tools "" 0) "movie.mkv" false
               (Sim.world "movie.mkv" "|+ Segment") in
  fst dry = Ret tt /\
  out (snd dry) = [] ++ ["Would set the title of 'movie.mkv' to 'movie'."] /\
  (exists rest, out (snd wet) = [] ++ rest) /\
  cmds (snd wet) = cmds (snd dry) ++ [Mkv.set_title_cmd "movie.mkv"].
Proof.
  pose proof (proj1 (proj2 (proj2 C9_dry_run_prints_instead_of_mutating))
                (Sim.tools "" 0) "movie.mkv" (Sim.world "movie.mkv" "|+ Segment"))
    as H.
  cbv zeta in H. destruct H as (_ & _ & _ & H).
  destruct (H "|+ Segment" "" (files (Sim.world "movie.mkv" "|+ Segment"))
              eq_refl) as [_ H2].
  apply H2. vm_compute. discriminate.
Defined.
